(** * waServer: the WebSocket / WhatsApp bridge, embedded in Rocq

    The development follows the three source files of the repository:
    - [waWSserver.js]: the connection registry ([wsClients], [wsClientMap]),
      the request router [handleIncomingMessage] and the relay
      [sendMessageToClients];
    - [waIntegration.js]: the session store [waClients], the backend
      listeners and [handleWhatsAppEvent];
    - [waLogic.js]: [handleClientRequest], [getGroupMessages],
      [UserSendMessage] and [convertPhoneNumberToWaId].

    Asynchronous functions are run to completion at the point where they are
    called: an [await] is a call into the backend whose answer is read from
    the backend description stored with the client object. *)

From Stdlib Require Import ZArith Ascii String List Lia Sorted Permutation.
From stdpp Require Import base option strings list gmap.

Set Warnings "-register-all".

(** ** JavaScript values *)

Module Js.

(** A JavaScript number as far as the code uses it: an integer or [NaN]. *)
Inductive jsnum : Type :=
| NaN
| Num (z : Z).

(** Values placed in outbound messages. [JUndef] is a property whose value
    is [undefined]. *)
Inductive jsval : Type :=
| JUndef
| JNull
| JBool (b : bool)
| JNum (z : Z)
| JStr (s : string)
| JArr (l : list jsval)
| JObj (fs : list (string * jsval)).

(** Exceptions: [new Error(msg)] and the engine's [TypeError] and
    [SyntaxError]. *)
Inductive exn : Type :=
| Error (msg : string)
| TypeError (msg : string)
| SyntaxError (msg : string).

(** [error.message] *)
Definition messageOf (e : exn) : string :=
  match e with Error m => m | TypeError m => m | SyntaxError m => m end.

(** The text of an interpolated value that may be [undefined]. *)
Definition showOpt (o : option string) : string :=
  match o with Some s => s | None => "undefined" end.

(** Truthiness of a string-valued property that may be absent. *)
Definition truthyStr (o : option string) : bool :=
  match o with
  | Some s => negb (String.eqb s EmptyString)
  | None => false
  end.

(** Truthiness of a time stamp that is [null] ([None]), [NaN] or a number:
    [null], [NaN] and [0] are falsy. *)
Definition truthyNum (o : option jsnum) : bool :=
  match o with
  | Some (Num z) => negb (z =? 0)%Z
  | Some NaN => false
  | None => false
  end.

(** [a || b] on strings that may be absent. *)
Definition orStr (a : option string) (b : option string) : option string :=
  if truthyStr a then a else b.

(** [s || null] as a value. *)
Definition strOrNull (a : option string) : jsval :=
  match a with
  | Some s => if String.eqb s EmptyString then JNull else JStr s
  | None => JNull
  end.

Definition optStr (a : option string) : jsval :=
  match a with Some s => JStr s | None => JUndef end.

Definition optBool (a : option bool) : jsval :=
  match a with Some b => JBool b | None => JUndef end.

(** Property read [o.k] on an object literal. *)
Fixpoint prop (k : string) (fs : list (string * jsval)) : jsval :=
  match fs with
  | [] => JUndef
  | (k', v) :: rest => if String.eqb k k' then v else prop k rest
  end.

Definition field (k : string) (v : jsval) : jsval :=
  match v with JObj fs => prop k fs | _ => JUndef end.

Definition keys (v : jsval) : list string :=
  match v with JObj fs => map fst fs | _ => [] end.

(** What [JSON.stringify] keeps of a value: a property whose value is
    [undefined] is left out, and [undefined] in an array becomes [null]. *)
Fixpoint stringified (v : jsval) : jsval :=
  match v with
  | JArr l =>
      JArr (map (fun x => match x with JUndef => JNull | _ => stringified x end) l)
  | JObj fs =>
      JObj ((fix members (fs : list (string * jsval)) : list (string * jsval) :=
               match fs with
               | [] => []
               | (k, x) :: rest =>
                   match x with
                   | JUndef => members rest
                   | _ => (k, stringified x) :: members rest
                   end
               end) fs)
  | _ => v
  end.

(** The property names that every plain object inherits from
    [Object.prototype]. Reading such a name on an object that has no own
    property of that name yields the inherited value: a function, or
    [Object.prototype] itself for [__proto__]; in both cases an object, which
    is truthy and can be given properties. *)
Definition inheritedNames : list string :=
  ["constructor"; "__defineGetter__"; "__defineSetter__"; "hasOwnProperty";
   "__lookupGetter__"; "__lookupSetter__"; "isPrototypeOf"; "propertyIsEnumerable";
   "toString"; "valueOf"; "__proto__"; "toLocaleString"].

Definition inherited (k : string) : bool := existsb (String.eqb k) inheritedNames.

(** [new Date(ms).getTime()]: the time value, clipped to the range of
    [Date] (ECMAScript TimeClip). *)
Definition dateOfMs (ms : Z) : jsnum :=
  if (Z.abs ms <=? 8640000000000000)%Z then Num ms else NaN.

(** [a < b] on numbers; any comparison with [NaN] is false. *)
Definition ltNum (a b : jsnum) : bool :=
  match a, b with
  | Num x, Num y => (x <? y)%Z
  | _, _ => false
  end.

Definition isNaN (a : jsnum) : bool :=
  match a with NaN => true | Num _ => false end.

(** [s.slice(1)] *)
Definition slice1 (s : string) : string :=
  match s with
  | EmptyString => EmptyString
  | String _ t => t
  end.

(** [s.split("T")[0]]: the text before the first [T]. *)
Fixpoint beforeT (s : string) : string :=
  match s with
  | EmptyString => EmptyString
  | String c t => if Ascii.eqb c "T"%char then EmptyString else String c (beforeT t)
  end.

(** [\d] without the unicode flag: the ten ASCII digits. *)
Definition isDigit (c : ascii) : bool :=
  let n := nat_of_ascii c in (48 <=? n)%nat && (n <=? 57)%nat.

Fixpoint allDigits (s : string) : bool :=
  match s with
  | EmptyString => true
  | String c t => isDigit c && allDigits t
  end.

End Js.
Import Js.

(** ** Objects used as insertion-ordered maps

    [Object.keys] enumerates string keys in insertion order, which the relay
    uses to walk [wsClientMap]; that map is therefore an association list.
    Assignment to an existing key keeps its position, assignment to a new key
    appends, [delete] removes the key. *)

Module AList.
Section Ops.
Context {V : Type}.

Fixpoint lookup (k : string) (l : list (string * V)) : option V :=
    match l with
    | [] => None
    | (k', v) :: rest => if decide (k = k') then Some v else lookup k rest
    end.

Fixpoint set (k : string) (v : V) (l : list (string * V)) : list (string * V) :=
    match l with
    | [] => [(k, v)]
    | (k', v') :: rest =>
        if decide (k = k') then (k, v) :: rest else (k', v') :: set k v rest
    end.

Fixpoint remove (k : string) (l : list (string * V)) : list (string * V) :=
    match l with
    | [] => []
    | (k', v') :: rest =>
        if decide (k = k') then remove k rest else (k', v') :: remove k rest
    end.

Definition keys (l : list (string * V)) : list string := map fst l.
End Ops.
End AList.

(** ** The backend's message objects and the pure parts of [waLogic.js] *)

(** A message object of the automation backend, with the properties the code
    reads. [m_timestamp] is in seconds. *)
Record Msg : Type := {
  m_id : string;                  (* id._serialized *)
  m_timestamp : Z;
  m_author : option string;
  m_from : string;
  m_body : string;
  m_type : string;
  m_quotedMsgId : option string;
  m_isGroupMsg : option bool
}.

(** [msg.timestamp * 1000] *)
Definition msgTimestamp (msg : Msg) : Z := (m_timestamp msg * 1000)%Z.

(** The callback of [allMessages.filter] in [getGroupMessages]. *)
Definition inTimeframe (startTimestamp endTimestamp : option jsnum) (msg : Msg) : bool :=
  let msgTs := msgTimestamp msg in
  (negb (truthyNum startTimestamp) ||
     match startTimestamp with Some (Num s) => (s <=? msgTs)%Z | _ => false end)
  &&
  (negb (truthyNum endTimestamp) ||
     match endTimestamp with Some (Num e) => (msgTs <=? e)%Z | _ => false end).

(** [filteredMessages.sort((a, b) => a.timestamp - b.timestamp)]: the sort is
    stable, so the result is the one of a stable insertion sort. *)
Fixpoint insertByTimestamp (msg : Msg) (l : list Msg) : list Msg :=
  match l with
  | [] => [msg]
  | x :: rest =>
      if (m_timestamp msg <=? m_timestamp x)%Z
      then msg :: x :: rest
      else x :: insertByTimestamp msg rest
  end.

Definition sortByTimestamp (l : list Msg) : list Msg :=
  foldr insertByTimestamp [] l.

(** Lines 186-194 of [getGroupMessages]: filter, then sort. *)
Definition filterAndSort (allMessages : list Msg)
    (startTimestamp endTimestamp : option jsnum) : list Msg :=
  sortByTimestamp (List.filter (inTimeframe startTimestamp endTimestamp) allMessages).

(** The entry of the [messages] array of a [group_messages] relay. *)
Definition historyPayload (msg : Msg) : jsval :=
  JObj [ ("id", JStr (m_id msg));
         ("timestamp", JNum (msgTimestamp msg));
         ("sender", optStr (orStr (m_author msg) (Some (m_from msg))));
         ("body", JStr (m_body msg));
         ("type", JStr (m_type msg));
         ("reply", strOrNull (m_quotedMsgId msg)) ].

(** [parsedMessage] of [handleWhatsAppEvent], case ['message']. *)
Definition parsedMessage (data : Msg) : jsval :=
  JObj [ ("id", JStr (m_id data));
         ("isGroups", optBool (m_isGroupMsg data));
         ("timestamp", JNum (msgTimestamp data));
         ("sender", optStr (m_author data));
         ("from", JStr (m_from data));
         ("body", JStr (m_body data));
         ("type", JStr (m_type data));
         ("reply", strOrNull (m_quotedMsgId data)) ].

(** The acceptance test of the fetch loop:
    [startTimestamp && oldestMessageDate.getTime() < startTimestamp]. *)
Definition oldestPrecedes (startTimestamp : option jsnum) (messages : list Msg) : bool :=
  match messages with
  | [] => false
  | oldest :: _ =>
      truthyNum startTimestamp &&
      match startTimestamp with
      | Some s => ltNum (dateOfMs (msgTimestamp oldest)) s
      | None => false
      end
  end.

(** [/^\d{10,}$/.test(recipient)] *)
Definition isBarePhone (recipient : string) : bool :=
  (10 <=? String.length recipient)%nat && allDigits recipient.

Definition convertPhoneNumberToWaId (phoneNumber : string) : string :=
  if String.prefix "972" phoneNumber then phoneNumber +:+ "@c.us"
  else if String.prefix "0" phoneNumber then "972" +:+ slice1 phoneNumber +:+ "@c.us"
  else phoneNumber +:+ "@c.us".

(** [recipientId] as computed in [UserSendMessage]. *)
Definition recipientIdOf (recipient : string) : string :=
  if isBarePhone recipient then convertPhoneNumberToWaId recipient else recipient.


(** ** Logging ([logger.js])

    A log line keeps its level, the module and function names it is tagged
    with and the pieces of its template string. *)

Inductive Level : Type := INFO | DEBUG | ERROR.

Inductive LogPart : Type :=
| LStr (s : string)
| LNum (n : Z)
| LJson (v : jsval)                        (* JSON.stringify(v) *)
| LJsonSlice (v : jsval) (n : nat).         (* JSON.stringify(v).slice(0, n) *)

Record LogEntry : Type := {
  lg_level : Level;
  lg_module : string;
  lg_function : string;
  lg_message : list LogPart
}.

(** ** The automation backend as the code sees it

    Every [await]ed backend call either yields a value or throws. *)

Inductive Res (A : Type) : Type :=
| Ok (a : A)
| Fails (e : exn).
Arguments Ok {A} a.
Arguments Fails {A} e.

(** A property of an inbound record that the code does not require to be a
    text ([recipient] and [message]): absent, a JSON string, or another JSON
    value [v] together with the text that [String(v)] yields for it, [None]
    when that conversion throws (an object whose own [toString] is not a
    function). *)
Inductive Field : Type :=
| FAbsent
| FText (s : string)
| FOther (v : jsval) (text : option string).

Definition ofText (o : option string) : Field :=
  match o with Some s => FText s | None => FAbsent end.

Definition fieldValue (f : Field) : jsval :=
  match f with
  | FAbsent => JUndef
  | FText s => JStr s
  | FOther v _ => v
  end.

(** [String(f)], as a template literal and [RegExp.prototype.test] compute
    it. *)
Definition fieldText (f : Field) : Res string :=
  match f with
  | FAbsent => Ok "undefined"
  | FText s => Ok s
  | FOther _ (Some t) => Ok t
  | FOther _ None => Fails (TypeError "Cannot convert object to primitive value")
  end.

Record Chat : Type := {
  fetchMessages : nat -> Res (list Msg)      (* fetchMessages({ limit }), oldest first *)
}.

Record GroupChat : Type := {
  gc_id : option string;                    (* id._serialized *)
  gc_server : string;                       (* id.server *)
  gc_name : option string;
  gc_archived : option bool;
  gc_timestamp : option Z
}.

Record Page : Type := {
  waitForSelector : Res unit;
  pageClose : Res unit
}.

Record Backend : Type := {
  getState : Res string;
  initialize : Res unit;
  destroy : Res unit;
  pupPage : option Page;
  getChatById : option string -> Res (option Chat);
  getGroupChats : Res (list GroupChat);
  sendMessage : Field -> Field -> Res unit
}.

(** A client object: the backend instance together with the variables of the
    closure that [setupClientListeners] builds around it. *)
Record Client : Type := {
  c_userId : string;
  c_QRrequest : nat;
  c_firstConnection : bool;
  c_messageListenerAttached : bool;
  c_backend : Backend
}.

(** The calls made on the backend, recorded with the user identity they are
    made for. *)
Inductive BackendCall : Type :=
| CallNewClient
| CallGetState
| CallInitialize
| CallDestroy
| CallPageClose
| CallWaitForSelector
| CallGetGroupChats
| CallGetChatById (groupId : option string)
| CallFetchMessages (limit : nat)
| CallSendMessage (recipientId message : Field).

(** ** The registry of [waWSserver.js] and the global state *)

Record Socket : Type := { readyState : nat }.

(** [WebSocket.OPEN] *)
Definition OPEN : nat := 1.

Record Sub : Type := { sendMessages : bool }.

Record Entry : Type := { userIds : gmap string Sub }.

Record World : Type := {
  wsClients : gmap string Socket;             (* { wsid: ws } *)
  wsClientMap : list (string * Entry);        (* { wsid: { userIds: {...} } } *)
  protoFlags : gmap string bool;              (* sendMessages set on inherited values *)
  waClients : gmap string nat;                (* { userId: client }, by address *)
  heap : list Client;                         (* the client objects *)
  timers : list string;                       (* pending setTimeout tasks of restartWhatsAppClient *)
  logs : list LogEntry;
  wire : list (string * jsval);               (* frames written with client.send *)
  relays : list (string * jsval);             (* calls of sendMessageToClients *)
  calls : list (string * BackendCall)
}.

Definition emptyWorld : World :=
  {| wsClients := ∅; wsClientMap := []; protoFlags := ∅; waClients := ∅; heap := [];
     timers := []; logs := []; wire := []; relays := []; calls := [] |}.

Definition withWsClients (f : gmap string Socket -> gmap string Socket) (w : World) : World :=
  {| wsClients := f (wsClients w); wsClientMap := wsClientMap w;
     protoFlags := protoFlags w; waClients := waClients w;
     heap := heap w; timers := timers w; logs := logs w; wire := wire w;
     relays := relays w; calls := calls w |}.

Definition withWsClientMap (f : list (string * Entry) -> list (string * Entry)) (w : World) : World :=
  {| wsClients := wsClients w; wsClientMap := f (wsClientMap w);
     protoFlags := protoFlags w; waClients := waClients w;
     heap := heap w; timers := timers w; logs := logs w; wire := wire w;
     relays := relays w; calls := calls w |}.

Definition withProtoFlags (f : gmap string bool -> gmap string bool) (w : World) : World :=
  {| wsClients := wsClients w; wsClientMap := wsClientMap w;
     protoFlags := f (protoFlags w); waClients := waClients w;
     heap := heap w; timers := timers w; logs := logs w; wire := wire w;
     relays := relays w; calls := calls w |}.

Definition withWaClients (f : gmap string nat -> gmap string nat) (w : World) : World :=
  {| wsClients := wsClients w; wsClientMap := wsClientMap w;
     protoFlags := protoFlags w; waClients := f (waClients w);
     heap := heap w; timers := timers w; logs := logs w; wire := wire w;
     relays := relays w; calls := calls w |}.

Definition withHeap (f : list Client -> list Client) (w : World) : World :=
  {| wsClients := wsClients w; wsClientMap := wsClientMap w;
     protoFlags := protoFlags w; waClients := waClients w;
     heap := f (heap w); timers := timers w; logs := logs w; wire := wire w;
     relays := relays w; calls := calls w |}.

Definition withTimers (f : list string -> list string) (w : World) : World :=
  {| wsClients := wsClients w; wsClientMap := wsClientMap w;
     protoFlags := protoFlags w; waClients := waClients w;
     heap := heap w; timers := f (timers w); logs := logs w; wire := wire w;
     relays := relays w; calls := calls w |}.

Definition withLogs (f : list LogEntry -> list LogEntry) (w : World) : World :=
  {| wsClients := wsClients w; wsClientMap := wsClientMap w;
     protoFlags := protoFlags w; waClients := waClients w;
     heap := heap w; timers := timers w; logs := f (logs w); wire := wire w;
     relays := relays w; calls := calls w |}.

Definition withWire (f : list (string * jsval) -> list (string * jsval)) (w : World) : World :=
  {| wsClients := wsClients w; wsClientMap := wsClientMap w;
     protoFlags := protoFlags w; waClients := waClients w;
     heap := heap w; timers := timers w; logs := logs w; wire := f (wire w);
     relays := relays w; calls := calls w |}.

Definition withRelays (f : list (string * jsval) -> list (string * jsval)) (w : World) : World :=
  {| wsClients := wsClients w; wsClientMap := wsClientMap w;
     protoFlags := protoFlags w; waClients := waClients w;
     heap := heap w; timers := timers w; logs := logs w; wire := wire w;
     relays := f (relays w); calls := calls w |}.

Definition withCalls (f : list (string * BackendCall) -> list (string * BackendCall)) (w : World) : World :=
  {| wsClients := wsClients w; wsClientMap := wsClientMap w;
     protoFlags := protoFlags w; waClients := waClients w;
     heap := heap w; timers := timers w; logs := logs w; wire := wire w;
     relays := relays w; calls := f (calls w) |}.

(** ** Computations: state passing with exceptions

    The effects of a computation that throws are kept, as in JavaScript. *)

Inductive Outcome (A : Type) : Type :=
| Ret (a : A)
| Throw (e : exn).
Arguments Ret {A} a.
Arguments Throw {A} e.

Definition M (A : Type) : Type := World -> Outcome A * World.

#[global] Instance M_ret : MRet M := fun A a w => (Ret a, w).

#[global] Instance M_bind : MBind M := fun A B f m w =>
  match m w with
  | (Ret a, w') => f a w'
  | (Throw e, w') => (Throw e, w')
  end.

Definition throw {A : Type} (e : exn) : M A := fun w => (Throw e, w).

(** [try { body } catch (error) { handler }] *)
Definition tryCatch {A : Type} (body : M A) (handler : exn -> M A) : M A := fun w =>
  match body w with
  | (Ret a, w') => (Ret a, w')
  | (Throw e, w') => handler e w'
  end.

Definition get : M World := fun w => (Ret w, w).
Definition modify (f : World -> World) : M unit := fun w => (Ret tt, f w).

(** The state after a computation, and its outcome. *)
Definition exec {A : Type} (m : M A) (w : World) : World := snd (m w).
Definition outcome {A : Type} (m : M A) (w : World) : Outcome A := fst (m w).

Definition logAt (lv : Level) (module function : string) (msg : list LogPart) : M unit :=
  modify (withLogs (fun l => l ++ [ {| lg_level := lv; lg_module := module;
                                       lg_function := function; lg_message := msg |} ])).

Definition logInfo := logAt INFO.
Definition logDebug := logAt DEBUG.
Definition logError := logAt ERROR.

(** An awaited backend call made for [userId]: recorded, then answered. *)
Definition backend {A : Type} (userId : string) (c : BackendCall) (r : Res A) : M A :=
  modify (withCalls (fun l => l ++ [(userId, c)])) ;;
  match r with
  | Ok a => mret a
  | Fails e => throw e
  end.

(** [for (const x of xs) { body(x) }] and [xs.forEach(body)] *)
Fixpoint forEach {A : Type} (xs : list A) (body : A -> M unit) : M unit :=
  match xs with
  | [] => mret tt
  | x :: rest => body x ;; forEach rest body
  end.

(** ** [waWSserver.js]: the relay *)

(** The value of [userIds[k]] when [userIds] stores nothing under [k], as
    far as its truthiness goes; [None] is [undefined]. The names that every
    object inherits have an object or a function as value. Once a delivery
    flag has been written through the name [__proto__], that is on
    [Object.prototype] itself, every object inherits a property
    [sendMessages] as well, whose value is that flag. *)
Definition inheritedValue (flags : gmap string bool) (k : string) : option bool :=
  if inherited k then Some true
  else if String.eqb k "sendMessages" then flags !! "__proto__"
  else None.

Definition inheritedTruthy (flags : gmap string bool) (k : string) : bool :=
  match inheritedValue flags k with Some b => b | None => false end.

(** [wsClientMap[wsid].userIds && wsClientMap[wsid].userIds[userId]], the
    callback of the filter over [Object.keys(wsClientMap)]. *)
Definition isSubscribed (flags : gmap string bool) (m : list (string * Entry))
    (userId wsid : string) : bool :=
  match AList.lookup wsid m with
  | Some e => bool_decide (is_Some (userIds e !! userId)) || inheritedTruthy flags userId
  | None => false
  end.

Definition subscribers (flags : gmap string bool) (m : list (string * Entry))
    (userId : string) : list string :=
  List.filter (isSubscribed flags m userId) (AList.keys m).

(** [v.sendMessages] for the value [v] that the name [k] inherits: the
    property set on [v] itself, or else the one that [v] inherits from
    [Object.prototype], which is the value inherited under [__proto__];
    [undefined] is falsy. *)
Definition inheritedFlag (flags : gmap string bool) (k : string) : bool :=
  match flags !! k with
  | Some b => b
  | None =>
      if String.eqb k "__proto__" then false
      else match flags !! "__proto__" with Some b => b | None => false end
  end.

(** [wsClientMap[wsid].userIds[userId].sendMessages]; reading through a
    missing record is a [TypeError]. *)
Definition deliveryFlag (flags : gmap string bool) (m : list (string * Entry))
    (userId wsid : string) : Res bool :=
  match AList.lookup wsid m with
  | None => Fails (TypeError "Cannot read properties of undefined (reading 'userIds')")
  | Some e =>
      match userIds e !! userId with
      | Some s => Ok (sendMessages s)
      | None =>
          match inheritedValue flags userId with
          | Some _ => Ok (inheritedFlag flags userId)
          | None =>
              Fails (TypeError "Cannot read properties of undefined (reading 'sendMessages')")
          end
      end
  end.

(** [targetClients.filter(wsid => wsClientMap[wsid].userIds[userId].sendMessages)] *)
Fixpoint deliveryFilter (flags : gmap string bool) (m : list (string * Entry))
    (userId : string) (targets : list string) : Res (list string) :=
  match targets with
  | [] => Ok []
  | wsid :: rest =>
      match deliveryFlag flags m userId wsid with
      | Fails e => Fails e
      | Ok b =>
          match deliveryFilter flags m userId rest with
          | Fails e => Fails e
          | Ok rest' => Ok (if b then wsid :: rest' else rest')
          end
      end
  end.

(** [message.event === 'message'] *)
Definition isMessageEvent (message : jsval) : bool :=
  match field "event" message with
  | JStr s => String.eqb s "message"
  | _ => false
  end.

(** The connections a relay is written to: lines 141-150 of
    [sendMessageToClients], before the emptiness tests. An empty array given
    as [specificClients] is truthy and is used as it is. *)
Definition resolveTargets (flags : gmap string bool) (m : list (string * Entry))
    (userId : string) (message : jsval) (specificClients : option (list string))
    : Res (list string) :=
  let targetClients :=
    match specificClients with
    | Some l => l
    | None => subscribers flags m userId
    end in
  if isMessageEvent message then deliveryFilter flags m userId targetClients
  else Ok targetClients.

Definition await {A : Type} (r : Res A) : M A :=
  match r with
  | Ok a => mret a
  | Fails e => throw e
  end.

(** [client && client.readyState === WebSocket.OPEN] *)
Definition isOpen (w : World) (wsid : string) : bool :=
  match wsClients w !! wsid with
  | Some client => Nat.eqb (readyState client) OPEN
  | None => false
  end.

(** [delete wsClientMap[wsid].userIds[userId]] *)
Definition deleteSubscription (wsid userId : string) : M unit :=
  w ← get;
  match AList.lookup wsid (wsClientMap w) with
  | None => throw (TypeError "Cannot read properties of undefined (reading 'userIds')")
  | Some e =>
      modify (withWsClientMap (AList.set wsid {| userIds := delete userId (userIds e) |}))
  end.

(** The body of [targetClients.forEach] in [sendMessageToClients]. What is
    written is the text [JSON.stringify(message)], kept as the value it
    denotes. *)
Definition sendToClient (userId : string) (message : jsval) (wsid : string) : M unit :=
  w ← get;
  if isOpen w wsid then
    modify (withWire (fun l => l ++ [(wsid, stringified message)])) ;;
    logInfo "waWSserver" "sendMessageToClients"
      [LStr "Sent message to wsid "; LStr wsid; LStr " for userId "; LStr userId;
       LStr ": "; LJsonSlice message 200; LStr "..."]
  else
    logError "waWSserver" "sendMessageToClients"
      [LStr "Client wsid "; LStr wsid; LStr " for userId "; LStr userId;
       LStr " is not connected. Removing from list."] ;;
    deleteSubscription wsid userId.

(** Lines 152-167: the second emptiness test and the fan-out. *)
Definition fanOut (userId : string) (message : jsval) (targetClients : list string) : M unit :=
  match targetClients with
  | [] =>
      logError "waWSserver" "sendMessageToClients"
        [LStr "No active clients found for userId "; LStr userId]
  | _ => forEach targetClients (sendToClient userId message)
  end.

Definition sendMessageToClients (userId : string) (message : jsval)
    (specificClients : option (list string)) : M unit :=
  logInfo "waWSserver" "sendMessageToClients"
    [LStr "Sending message to "; LStr userId; LStr ", message type: ";
     LJson (field "event" message)] ;;
  modify (withRelays (fun l => l ++ [(userId, message)])) ;;
  w ← get;
  targetClients ← await (resolveTargets (protoFlags w) (wsClientMap w) userId message
                           specificClients);
  if isMessageEvent message then
    match targetClients with
    | [] =>
        logInfo "waWSserver" "sendMessageToClients"
          [LStr "No active clients found for userId "; LStr userId; LStr " messges"]
    | _ => fanOut userId message targetClients
    end
  else fanOut userId message targetClients.

(** [handleClientDisconnection] *)
Definition handleClientDisconnection (wsid : string) : M unit :=
  modify (withWsClients (delete wsid)) ;;
  modify (withWsClientMap (AList.remove wsid)) ;;
  logInfo "waWSserver" "handleClientDisconnection"
    [LStr "Client wsid "; LStr wsid; LStr " fully disconnected."].

(** ** [waIntegration.js] *)

(** What a backend event carries: nothing, a text (the QR code, the reason,
    the error message) or a message object. *)
Inductive EventData : Type :=
| DNone
| DStr (s : string)
| DMsg (msg : Msg).

Definition rawMessage (msg : Msg) : jsval :=
  JObj [ ("id", JObj [("_serialized", JStr (m_id msg))]);
         ("isGroupMsg", optBool (m_isGroupMsg msg));
         ("timestamp", JNum (m_timestamp msg));
         ("author", optStr (m_author msg));
         ("from", JStr (m_from msg));
         ("body", JStr (m_body msg));
         ("type", JStr (m_type msg));
         ("quotedMsgId", optStr (m_quotedMsgId msg)) ].

Definition dataValue (data : EventData) : jsval :=
  match data with
  | DNone => JNull
  | DStr s => JStr s
  | DMsg msg => rawMessage msg
  end.

Definition handleWhatsAppEvent (userId event : string) (data : EventData) : M unit :=
  logDebug "waIntegration" "handleWhatsAppEvent"
    [LStr "Event received: "; LStr event; LStr " for userId "; LStr userId] ;;
  if String.eqb event "qr" then
    sendMessageToClients userId
      (JObj [("event", JStr "qr"); ("userid", JStr userId); ("qr_code", dataValue data)]) None
  else if String.eqb event "authenticated" then
    sendMessageToClients userId
      (JObj [("event", JStr "authenticated"); ("userid", JStr userId)]) None
  else if String.eqb event "ready" then
    sendMessageToClients userId
      (JObj [("event", JStr "ready"); ("userid", JStr userId)]) None
  else if String.eqb event "disconnected" then
    sendMessageToClients userId
      (JObj [("event", JStr "disconnected"); ("userid", JStr userId)]) None
  else if String.eqb event "error" then
    sendMessageToClients userId
      (JObj [("event", JStr "error"); ("userid", JStr userId); ("message", dataValue data)]) None
  else if String.eqb event "message" then
    match data with
    | DMsg msg =>
        sendMessageToClients userId
          (JObj [("event", JStr "message"); ("userid", JStr userId);
                 ("message", parsedMessage msg)]) None
    | DNone => throw (TypeError "Cannot read properties of null (reading 'id')")
    | DStr _ => throw (TypeError "Cannot read properties of undefined (reading '_serialized')")
    end
  else
    sendMessageToClients userId
      (JObj [("event", JStr event); ("userid", JStr userId); ("data", dataValue data)]) None.

(** [waClients[userId]]: the address stored for the user and the object at
    that address. Where the code reads [waClients[userId]] for a user
    identity that is an inherited name and has no stored client, it gets the
    inherited value and fails on the first method it calls on it, inside the
    [try] block that follows the read, and goes on as for a missing record;
    the log lines of that detour are not modelled. A client stored under
    the identity [__proto__] is outside the model. *)
Definition clientOf (w : World) (userId : string) : option (nat * Client) :=
  addr ← waClients w !! userId;
  c ← heap w !! addr;
  Some (addr, c).

Definition updateClient (addr : nat) (f : Client -> Client) : M unit :=
  modify (withHeap (fun h =>
    match h !! addr with
    | Some c => <[addr := f c]> h
    | None => h
    end)).

Definition setQRrequest (n : nat) (c : Client) : Client :=
  {| c_userId := c_userId c; c_QRrequest := n; c_firstConnection := c_firstConnection c;
     c_messageListenerAttached := c_messageListenerAttached c; c_backend := c_backend c |}.

Definition setFirstConnection (b : bool) (c : Client) : Client :=
  {| c_userId := c_userId c; c_QRrequest := c_QRrequest c; c_firstConnection := b;
     c_messageListenerAttached := c_messageListenerAttached c; c_backend := c_backend c |}.

Definition setMessageListenerAttached (b : bool) (c : Client) : Client :=
  {| c_userId := c_userId c; c_QRrequest := c_QRrequest c;
     c_firstConnection := c_firstConnection c;
     c_messageListenerAttached := b; c_backend := c_backend c |}.

Definition setBackend (b : Backend) (c : Client) : Client :=
  {| c_userId := c_userId c; c_QRrequest := c_QRrequest c;
     c_firstConnection := c_firstConnection c;
     c_messageListenerAttached := c_messageListenerAttached c; c_backend := b |}.

Definition getConnectedClient (userId : string) : M (option (nat * Client)) :=
  w ← get;
  match clientOf w userId with
  | None =>
      logError "waIntegration" "getConnectedClient"
        [LStr "No client found for userId "; LStr userId] ;;
      mret None
  | Some (addr, client) =>
      tryCatch
        (state ← backend userId CallGetState (getState (c_backend client));
         if negb (String.eqb state "CONNECTED") then
           logError "waIntegration" "getConnectedClient"
             [LStr "Client state for userId "; LStr userId; LStr " is "; LStr state] ;;
           mret None
         else mret (Some (addr, client)))
        (fun error =>
           logError "waIntegration" "getConnectedClient"
             [LStr "Error checking state for userId "; LStr userId; LStr ": ";
              LStr (messageOf error)] ;;
           mret None)
  end.

Definition terminateWhatsAppClient (userId : string) : M unit :=
  w ← get;
  match clientOf w userId with
  | None =>
      logDebug "waIntegration" "terminateWhatsAppClient"
        [LStr "No active client to terminate for userId "; LStr userId]
  | Some (addr, client) =>
      tryCatch
        (let page := pupPage (c_backend client) in
         backend userId CallDestroy (destroy (c_backend client)) ;;
         modify (withWaClients (delete userId)) ;;
         match page with
         | Some p => backend userId CallPageClose (pageClose p)
         | None => mret tt
         end ;;
         logDebug "waIntegration" "terminateWhatsAppClient"
           [LStr "Successfully terminated WhatsApp client for userId "; LStr userId])
        (fun error =>
           logError "waIntegration" "terminateWhatsAppClient"
             [LStr "Error terminating client for userId "; LStr userId; LStr ": ";
              LStr (messageOf error)])
  end.

(** The two halves of [initializeWhatsAppClient]: the check of an existing
    client, whose result is [Some b] when the function returns [b] there, and
    the creation of a new one. [spawn userId addr] describes the backend
    instance that [new Client(...)] yields. *)
Definition reuseExistingClient (userId : string) : M (option bool) :=
  w ← get;
  match clientOf w userId with
  | None => mret None
  | Some (addr, existingClient) =>
      tryCatch
        (state ← backend userId CallGetState (getState (c_backend existingClient));
         if String.eqb state "CONNECTED" then
           logDebug "waIntegration" "initializeWhatsAppClient"
             [LStr "Client for userId "; LStr userId; LStr " already connected."] ;;
           handleWhatsAppEvent userId "ready" DNone ;;
           mret (Some true)
         else
           logDebug "waIntegration" "initializeWhatsAppClient"
             [LStr "Client for userId "; LStr userId; LStr " exists but state is ";
              LStr state; LStr ". Attempting reconnection."] ;;
           backend userId CallInitialize (initialize (c_backend existingClient)) ;;
           mret (Some true))
        (fun error =>
           logError "waIntegration" "initializeWhatsAppClient"
             [LStr "Error checking state for userId "; LStr userId; LStr ": ";
              LStr (messageOf error); LStr ". Reinitializing new client."] ;;
           modify (withWaClients (delete userId)) ;;
           mret None)
  end.

Definition createClient (spawn : string -> nat -> Backend) (userId : string) : M bool :=
  logDebug "waIntegration" "initializeWhatsAppClient"
    [LStr "Creating new client for userId "; LStr userId] ;;
  modify (withCalls (fun l => l ++ [(userId, CallNewClient)])) ;;
  w ← get;
  let addr := length (heap w) in
  let client := {| c_userId := userId; c_QRrequest := 0; c_firstConnection := false;
                   c_messageListenerAttached := false; c_backend := spawn userId addr |} in
  modify (withHeap (fun h => h ++ [client])) ;;
  modify (withWaClients (insert userId addr)) ;;
  (* setupClientListeners(client, userId) *)
  logDebug "waIntegration" "setupClientListeners"
    [LStr "Setting up listeners for userId "; LStr userId] ;;
  tryCatch
    (logDebug "waIntegration" "initializeWhatsAppClient"
       [LStr "Calling client.initialize() for userId "; LStr userId] ;;
     backend userId CallInitialize (initialize (c_backend client)) ;;
     logDebug "waIntegration" "initializeWhatsAppClient"
       [LStr "Client initialized successfully for userId "; LStr userId] ;;
     state ← backend userId CallGetState (getState (c_backend client));
     logDebug "waIntegration" "initializeWhatsAppClient"
       [LStr "After initialization, state for userId "; LStr userId; LStr ": "; LStr state] ;;
     mret true)
    (fun error =>
       logError "waIntegration" "initializeWhatsAppClient"
         [LStr "Initialization failed for userId "; LStr userId; LStr ": ";
          LStr (messageOf error)] ;;
       modify (withWaClients (delete userId)) ;;
       mret false).

Definition initializeWhatsAppClient (spawn : string -> nat -> Backend)
    (userId : string) : M bool :=
  r ← reuseExistingClient userId;
  match r with
  | Some b => mret b
  | None => createClient spawn userId
  end.

(** [restartWhatsAppClient]; the task given to [setTimeout] is kept in
    [timers] until it fires. *)
Definition restartWhatsAppClient (userId : string) : M unit :=
  logDebug "waIntegration" "restartWhatsAppClient"
    [LStr "Restarting WhatsApp client for userId "; LStr userId] ;;
  w ← get;
  returned ←
    match clientOf w userId with
    | None => mret false
    | Some (addr, client) =>
        tryCatch
          (state ← backend userId CallGetState (getState (c_backend client));
           if String.eqb state "LOGGED_OUT" || String.eqb state "UNPAIRED" then
             logError "waIntegration" "restartWhatsAppClient"
               [LStr "Client for userId "; LStr userId;
                LStr " was logged out. Terminating session."] ;;
             terminateWhatsAppClient userId ;;
             sendMessageToClients userId
               (JObj [("event", JStr "error"); ("userid", JStr userId);
                      ("message", JStr "WhatsApp session expired. Please re-login.")]) None ;;
             mret true
           else mret false)
          (fun error =>
             logError "waIntegration" "restartWhatsAppClient"
               [LStr "Error checking client state before restart: "; LStr (messageOf error)] ;;
             mret false)
    end;
  if (returned : bool) then mret tt
  else modify (withTimers (fun l => l ++ [userId])).

(** The listeners of [setupClientListeners], for the client at [addr]. A
    listener of an address that holds no client never runs. *)
Definition onQr (addr : nat) (qr : string) : M unit :=
  w ← get;
  match heap w !! addr with
  | None => mret tt
  | Some c =>
      let userId := c_userId c in
      let QRrequest := S (c_QRrequest c) in
      updateClient addr (setQRrequest QRrequest) ;;
      logDebug "waIntegration" "setupClientListeners"
        [LStr "QR code received for userId "; LStr userId; LStr ", attempt ";
         LNum (Z.of_nat QRrequest); LStr "/10"] ;;
      updateClient addr (setFirstConnection true) ;;
      handleWhatsAppEvent userId "qr" (DStr qr) ;;
      if (10 <=? QRrequest)%nat then
        logError "waIntegration" "setupClientListeners"
          [LStr "Too many QR requests (10) for userId "; LStr userId;
           LStr ". Terminating client."] ;;
        terminateWhatsAppClient userId
      else mret tt
  end.

Definition onAuthenticated (addr : nat) : M unit :=
  w ← get;
  match heap w !! addr with
  | None => mret tt
  | Some c =>
      logDebug "waIntegration" "setupClientListeners"
        [LStr "User "; LStr (c_userId c); LStr " authenticated"] ;;
      handleWhatsAppEvent (c_userId c) "authenticated" DNone
  end.

Definition onReady (addr : nat) : M unit :=
  w ← get;
  match heap w !! addr with
  | None => mret tt
  | Some c =>
      logDebug "waIntegration" "setupClientListeners"
        [LStr "WhatsApp client for userId "; LStr (c_userId c); LStr " is ready"] ;;
      handleWhatsAppEvent (c_userId c) "ready" DNone
  end.

(** The ['message'] listener calls [require('./waLogic').handleWhatsAppEvent],
    which [waLogic.js] does not export: the call is a [TypeError]. *)
Definition onMessage (addr : nat) (msg : Msg) : M unit :=
  w ← get;
  match heap w !! addr with
  | None => mret tt
  | Some c =>
      logDebug "waIntegration" "setupClientListeners"
        [LStr "Message received from userId "; LStr (c_userId c); LStr ": ";
         LStr (String.substring 0 100 (m_body msg))] ;;
      throw (TypeError "require(...).handleWhatsAppEvent is not a function")
  end.

Definition onDisconnected (addr : nat) (reason : string) : M unit :=
  w ← get;
  match heap w !! addr with
  | None => mret tt
  | Some c =>
      logDebug "waIntegration" "setupClientListeners"
        [LStr "WhatsApp client for userId "; LStr (c_userId c); LStr " disconnected: ";
         LStr reason] ;;
      handleWhatsAppEvent (c_userId c) "disconnected" (DStr reason) ;;
      restartWhatsAppClient (c_userId c)
  end.

Definition onError (addr : nat) (errorMessage : string) : M unit :=
  w ← get;
  match heap w !! addr with
  | None => mret tt
  | Some c =>
      logError "waIntegration" "setupClientListeners"
        [LStr "Error for userId "; LStr (c_userId c); LStr ": "; LStr errorMessage] ;;
      handleWhatsAppEvent (c_userId c) "error" (DStr errorMessage)
  end.

(** ** [waLogic.js] *)

(** An inbound record, and the request objects built from it:
    [{event, user_id, recipient?, message?, group_id?, startTime?, endTime?}].
    The identifiers, the tag and the two times are texts or absent; the
    recipient and the message of a send request are any JSON value. *)
Record Request : Type := {
  r_event : option string;
  r_user_id : option string;
  r_recipient : Field;
  r_message : Field;
  r_group_id : option string;
  r_startTime : option string;
  r_endTime : option string
}.

Definition requestValue (r : Request) : jsval :=
  JObj [ ("event", optStr (r_event r)); ("user_id", optStr (r_user_id r));
         ("recipient", fieldValue (r_recipient r)); ("message", fieldValue (r_message r));
         ("group_id", optStr (r_group_id r)); ("startTime", optStr (r_startTime r));
         ("endTime", optStr (r_endTime r)) ].

(** [{ event: e }] *)
Definition requestOf (e : string) : Request :=
  {| r_event := Some e; r_user_id := None; r_recipient := FAbsent; r_message := FAbsent;
     r_group_id := None; r_startTime := None; r_endTime := None |}.

Definition errorRelay (userId msg : string) : jsval :=
  JObj [("event", JStr "error"); ("userid", JStr userId); ("message", JStr msg)].

(** [chatsJSON] and [groups] of [getWhatsAppGroups]. *)
Definition isListedGroup (chat : GroupChat) : bool :=
  String.eqb (gc_server chat) "g.us" &&
  negb (match gc_archived chat with Some b => b | None => false end).

Definition groupValue (chat : GroupChat) : jsval :=
  JObj [ ("id", strOrNull (gc_id chat));
         ("name", JStr (match orStr (gc_name chat) (Some "Unknown") with
                        | Some n => n | None => "Unknown" end));
         ("timestamp", match gc_timestamp chat with
                       | Some t => if (t =? 0)%Z then JNull else JNum t
                       | None => JNull
                       end) ].

Definition getWhatsAppGroups (userId : string) : M unit :=
  tryCatch
    (logDebug "waLogic" "getWhatsAppGroups" [LStr "Fetching groups for userId "; LStr userId] ;;
     c ← getConnectedClient userId;
     match c with
     | None => throw (Error ("WhatsApp client not connected for userId " +:+ userId))
     | Some (addr, client) =>
         match pupPage (c_backend client) with
         | None => throw (TypeError "Cannot read properties of undefined (reading 'waitForSelector')")
         | Some page => backend userId CallWaitForSelector (waitForSelector page)
         end ;;
         logDebug "waLogic" "getWhatsAppGroups" [LStr "finish waiting for == waitForSelector"] ;;
         chats ← backend userId CallGetGroupChats (getGroupChats (c_backend client));
         logDebug "waLogic" "getWhatsAppGroups"
           [LStr "[DEBUG] Total chats retrieved: "; LNum (Z.of_nat (length chats))] ;;
         let groups := map groupValue (List.filter isListedGroup chats) in
         logDebug "waLogic" "getWhatsAppGroups"
           [LStr "[DEBUG] Filtered non-archived groups: "; LNum (Z.of_nat (length groups));
            LStr " groups"] ;;
         sendMessageToClients userId
           (JObj [("event", JStr "group_list"); ("userid", JStr userId);
                  ("groups", JArr groups)]) None ;;
         logDebug "waLogic" "getWhatsAppGroups"
           [LStr "Groups fetched and sent for user "; LStr userId]
     end)
    (fun error =>
       logError "waLogic" "getWhatsAppGroups"
         [LStr "Error fetching groups for userId "; LStr userId; LStr ": ";
          LStr (messageOf error)] ;;
       sendMessageToClients userId (errorRelay userId (messageOf error)) None).

(** [(t && isNaN(t))] *)
Definition invalidTimestamp (t : option jsnum) : bool :=
  truthyNum t && match t with Some n => isNaN n | None => false end.

(** The loop over [fetchLimits]; the result is [(allMessages, fetched)]. *)
Fixpoint fetchLoop (userId : string) (chat : Chat) (startTimestamp : option jsnum)
    (fetchLimits : list nat) : M (list Msg * bool) :=
  match fetchLimits with
  | [] => mret ([], false)
  | limit :: rest =>
      messages ← backend userId (CallFetchMessages limit) (fetchMessages chat limit);
      if oldestPrecedes startTimestamp messages then
        logDebug "waLogic" "getGroupMessages"
          [LStr "Fetched "; LNum (Z.of_nat (length messages)); LStr " messages with limit ";
           LNum (Z.of_nat limit); LStr "."] ;;
        mret (messages, true)
      else fetchLoop userId chat startTimestamp rest
  end.

Definition fetchLimits : list nat := [50; 200; 500]%nat.

(** The [group_messages] relay built from the filtered and sorted messages. *)
Definition groupMessagesRelay (userId : string) (groupId startTime : option string)
    (filteredMessages : list Msg) : jsval :=
  JObj [ ("event", JStr "group_messages");
         ("userid", JStr userId);
         ("group_id", optStr groupId);
         ("messages", JArr (map historyPayload filteredMessages));
         ("date", match startTime with
                  | Some s => if String.eqb s EmptyString then JNull else JStr (beforeT s)
                  | None => JNull
                  end) ].

Section Runtime.

(** [new Date(s).getTime()] for a text [s], and the backend instance that
    [new Client(...)] yields for a user at a fresh address. *)
Variable dateGetTime : string -> jsnum.
Variable spawn : string -> nat -> Backend.

(** [t ? new Date(t).getTime() : null] *)
Definition timestampOf (t : option string) : option jsnum :=
  match t with
  | Some s => if truthyStr t then Some (dateGetTime s) else None
  | None => None
  end.

Definition getGroupMessages (userId : string) (groupId startTime endTime : option string)
    : M unit :=
  tryCatch
    (logDebug "waLogic" "getGroupMessages"
       [LStr "Fetching messages for userId "; LStr userId; LStr ", groupId ";
        LStr (showOpt groupId)] ;;
     c ← getConnectedClient userId;
     match c with
     | None => throw (Error ("WhatsApp client not connected for userId " +:+ userId))
     | Some (addr, client) =>
         chat ← backend userId (CallGetChatById groupId) (getChatById (c_backend client) groupId);
         match chat with
         | None => throw (Error ("Chat not found for group " +:+ showOpt groupId))
         | Some chat =>
             let startTimestamp := timestampOf startTime in
             let endTimestamp := timestampOf endTime in
             if invalidTimestamp startTimestamp || invalidTimestamp endTimestamp then
               throw (Error "Invalid startTime or endTime format")
             else
               r ← fetchLoop userId chat startTimestamp fetchLimits;
               let allMessages := fst r in
               let fetched := snd r in
               (if negb fetched then
                  logDebug "waLogic" "getGroupMessages"
                    [LStr "Unable to fetch messages older than the start time."]
                else mret tt) ;;
               let kept := List.filter (inTimeframe startTimestamp endTimestamp) allMessages in
               (if (length kept =? 0)%nat then
                  logDebug "waLogic" "getGroupMessages"
                    [LStr "No messages found within the specified timeframe."]
                else mret tt) ;;
               let filteredMessages := sortByTimestamp kept in
               logDebug "waLogic" "getGroupMessages"
                 [LStr "Filtered "; LNum (Z.of_nat (length filteredMessages)); LStr " messages."] ;;
               sendMessageToClients userId
                 (groupMessagesRelay userId groupId startTime filteredMessages) None ;;
               logDebug "waLogic" "getGroupMessages"
                 [LStr "Successfully sent filtered messages for userId "; LStr userId;
                  LStr ", group "; LStr (showOpt groupId)]
         end
     end)
    (fun error =>
       logError "waLogic" "getGroupMessages"
         [LStr "Error fetching messages for userId "; LStr userId; LStr ", groupId ";
          LStr (showOpt groupId); LStr ": "; LStr (messageOf error)] ;;
       sendMessageToClients userId (errorRelay userId (messageOf error)) None).

(** [recipientId] for a recipient that is a text or absent: for an absent
    one the pattern is tested on the text "undefined" and fails. *)
Definition recipientIdOpt (recipient : option string) : option string :=
  match recipient with
  | Some r => Some (recipientIdOf r)
  | None => None
  end.

(** Lines 235-241 for any recipient, [shown] being the text of the
    recipient: the pattern is tested on that text, and a value that is not a
    string has no [startsWith] method for [convertPhoneNumberToWaId] to
    call. *)
Definition recipientIdFor (recipient : Field) (shown : string) : Res Field :=
  if isBarePhone shown then
    match recipient with
    | FText r => Ok (FText (convertPhoneNumberToWaId r))
    | _ => Fails (TypeError "phoneNumber.startsWith is not a function")
    end
  else Ok recipient.

(** The template literal of line 234 and lines 235-241 are outside the
    [try] block. *)
Definition UserSendMessage (userId : string) (recipient msg : Field) : M unit :=
  c ← getConnectedClient userId;
  match c with
  | None =>
      logError "waLogic" "UserSendMessage"
        [LStr "No active WhatsApp client for userId "; LStr userId] ;;
      sendMessageToClients userId (errorRelay userId "WhatsApp client not connected") None
  | Some (addr, client) =>
      shownRecipient ← await (fieldText recipient);
      shownMessage ← await (fieldText msg);
      logDebug "waLogic" "UserSendMessage"
        [LStr "Request to send from "; LStr userId; LStr " to "; LStr shownRecipient;
         LStr " message: "; LStr shownMessage] ;;
      recipientId ← await (recipientIdFor recipient shownRecipient);
      tryCatch
        (backend userId (CallSendMessage recipientId msg)
           (sendMessage (c_backend client) recipientId msg) ;;
         shownId ← await (fieldText recipientId);
         logDebug "waLogic" "UserSendMessage"
           [LStr "Message sent to "; LStr shownId; LStr " by user "; LStr userId] ;;
         sendMessageToClients userId
           (JObj [("event", JStr "message_sent"); ("userid", JStr userId);
                  ("recipientId", fieldValue recipientId); ("message", fieldValue msg)]) None)
        (fun error =>
           logError "waLogic" "UserSendMessage"
             [LStr "Failed to send message from userId "; LStr userId; LStr ": ";
              LStr (messageOf error)] ;;
           sendMessageToClients userId (errorRelay userId (messageOf error)) None)
  end.

Definition enableReceivingMessages (userId : string) : M unit :=
  c ← getConnectedClient userId;
  match c with
  | None =>
      logError "waLogic" "enableReceivingMessages"
        [LStr "No active WhatsApp client for userId "; LStr userId]
  | Some (addr, client) =>
      if negb (c_messageListenerAttached client) then
        updateClient addr (setMessageListenerAttached true) ;;
        logDebug "waLogic" "enableReceivingMessages"
          [LStr "Enabled message reception for userId "; LStr userId]
      else
        logDebug "waLogic" "enableReceivingMessages"
          [LStr "Message listener already attached for userId "; LStr userId]
  end.

Definition handleClientRequest (userId : string) (requestData : Request) : M unit :=
  logDebug "waLogic" "handleClientRequest"
    [LStr "Received request: "; LJson (requestValue requestData)] ;;
  match r_event requestData with
  | Some event =>
      if String.eqb event "initiate" then
        initializeWhatsAppClient spawn userId ;; mret tt
      else if String.eqb event "fetch_groups" then
        getWhatsAppGroups userId
      else if String.eqb event "fetch_messages" then
        getGroupMessages userId (r_group_id requestData)
          (orStr (r_startTime requestData) None) (orStr (r_endTime requestData) None)
      else if String.eqb event "send_message" then
        UserSendMessage userId (r_recipient requestData) (r_message requestData)
      else if String.eqb event "get_messages" then
        enableReceivingMessages userId
      else
        logError "waLogic" "handleClientRequest" [LStr "Unhandled event: "; LStr event]
  | None =>
      logError "waLogic" "handleClientRequest" [LStr "Unhandled event: "; LStr "undefined"]
  end.

(** ** [waWSserver.js]: the request router *)

(** What [JSON.parse(message)] makes of a frame: a [SyntaxError], [null], or
    a record. *)
Inductive Incoming : Type :=
| Unparseable
| ParsedNull
| Parsed (data : Request).

(** The ['initiate'] case on the registry: lines 62-67. The test
    [!wsClientMap[wsid].userIds[userId]] is false for a stored record and
    for a name whose inherited value is truthy. *)
Definition subscribe (flags : gmap string bool) (wsid userId : string)
    (m : list (string * Entry)) : list (string * Entry) :=
  let m1 :=
    match AList.lookup wsid m with
    | None => AList.set wsid {| userIds := ∅ |} m
    | Some _ => m
    end in
  match AList.lookup wsid m1 with
  | Some e =>
      match userIds e !! userId with
      | None =>
          if inheritedTruthy flags userId then m1
          else
            AList.set wsid
              {| userIds := <[userId := {| sendMessages := false |}]> (userIds e) |} m1
      | Some _ => m1
      end
  | None => m1
  end.

(** [wsClientMap[wsid].userIds[userId].sendMessages = b]: on the stored
    record; when there is none, on the object or function that the name
    inherits; on an inherited [true] or [false] the assignment does nothing
    (the module is not in strict mode); on [undefined] it is a
    [TypeError]. *)
Definition setDelivery (wsid userId : string) (b : bool) : M unit :=
  w ← get;
  match AList.lookup wsid (wsClientMap w) with
  | None => throw (TypeError "Cannot read properties of undefined (reading 'userIds')")
  | Some e =>
      match userIds e !! userId with
      | None =>
          if inherited userId then modify (withProtoFlags (<[userId := b]>))
          else
            match inheritedValue (protoFlags w) userId with
            | Some _ => mret tt
            | None =>
                throw (TypeError "Cannot set properties of undefined (setting 'sendMessages')")
            end
      | Some _ =>
          modify (withWsClientMap
            (AList.set wsid {| userIds := <[userId := {| sendMessages := b |}]> (userIds e) |}))
      end
  end.

(** A call of an [async] function that is not awaited: what it throws is
    not seen by the caller. *)
Definition detached {A : Type} (m : M A) : M unit := fun w => (Ret tt, exec m w).

(** [JSON.parse(message)] followed by the reads of [data.user_id] and
    [data.event]. *)
Definition parseFrame (message : Incoming) : M Request :=
  match message with
  | Unparseable => throw (SyntaxError "Unexpected token in JSON")
  | ParsedNull => throw (TypeError "Cannot read properties of null (reading 'user_id')")
  | Parsed data => mret data
  end.

(** The [try] block of [handleIncomingMessage]. *)
Definition routeMessage (wsid : string) (message : Incoming) : M unit :=
  data ← parseFrame message;
  match r_user_id data, r_event data with
  | Some userId, Some event =>
      if negb (truthyStr (r_user_id data)) || negb (truthyStr (r_event data)) then
        throw (Error "Invalid message format. Must contain user_id and event.")
      else if String.eqb event "initiate" then
        logInfo "waWSserver" "handleIncomingMessage"
          [LStr "Client "; LStr wsid; LStr " mapped to userId "; LStr userId] ;;
        modify (fun w => withWsClientMap (subscribe (protoFlags w) wsid userId) w) ;;
        detached (handleClientRequest userId (requestOf "initiate"))
      else if String.eqb event "get_messages" then
        setDelivery wsid userId true ;;
        logInfo "waWSserver" "handleIncomingMessage"
          [LStr "Client "; LStr wsid; LStr " enabled message reception for userId "; LStr userId]
      else if String.eqb event "stop_messages" then
        setDelivery wsid userId false ;;
        logInfo "waWSserver" "handleIncomingMessage"
          [LStr "Client "; LStr wsid; LStr " disabled message reception for userId "; LStr userId]
      else if String.eqb event "get_groups" then
        logInfo "waWSserver" "handleIncomingMessage"
          [LStr "Client "; LStr wsid; LStr " requested groups for userId "; LStr userId] ;;
        detached (handleClientRequest userId (requestOf "fetch_groups"))
      else if String.eqb event "send_message" then
        logInfo "waWSserver" "handleIncomingMessage"
          [LStr "Client "; LStr wsid; LStr " requested send_message for userId "; LStr userId] ;;
        detached (handleClientRequest userId
          {| r_event := Some "send_message"; r_user_id := None;
             r_recipient := r_recipient data; r_message := r_message data;
             r_group_id := None; r_startTime := None; r_endTime := None |})
      else if String.eqb event "get_group_messages" then
        if negb (truthyStr (r_group_id data)) then
          throw (Error "Missing 'group_id' for get_group_messages request.")
        else
          logInfo "waWSserver" "handleIncomingMessage"
            [LStr "Client "; LStr wsid; LStr " requested messages for group ";
             LStr (showOpt (r_group_id data)); LStr " of userId "; LStr userId] ;;
          let startTime := orStr (r_startTime data) None in
          let endTime := orStr (r_endTime data) None in
          detached (handleClientRequest userId
            {| r_event := Some "fetch_messages"; r_user_id := None;
               r_recipient := FAbsent; r_message := FAbsent;
               r_group_id := r_group_id data; r_startTime := startTime; r_endTime := endTime |})
      else if String.eqb event "disconnect" then
        sendMessageToClients userId
          (JObj [("event", JStr "disconnected"); ("userid", JStr userId)]) (Some [wsid]) ;;
        deleteSubscription wsid userId ;;
        logInfo "waWSserver" "handleIncomingMessage"
          [LStr "Client "; LStr wsid; LStr " disconnected from userId "; LStr userId]
      else
        logInfo "waWSserver" "handleIncomingMessage"
          [LStr "Received event '"; LStr event; LStr "' from userId "; LStr userId;
           LStr " (wsid: "; LStr wsid; LStr ")"] ;;
        detached (handleClientRequest userId data)
  | _, _ => throw (Error "Invalid message format. Must contain user_id and event.")
  end.

(** In the [catch] block the name [data] is not bound: it is declared with
    [const] inside the [try] block. [typeof data] is therefore ['undefined']
    there, whatever the frame was. *)
Definition dataInCatchScope : option Request := None.

Definition handleIncomingMessage (wsid : string) (ws : Socket) (message : Incoming) : M unit :=
  tryCatch (routeMessage wsid message)
    (fun error =>
       logError "waWSserver" "handleIncomingMessage"
         [LStr "Failed to process message: "; LStr (messageOf error)] ;;
       match dataInCatchScope with
       | Some data =>
           match r_user_id data with
           | Some userId =>
               if truthyStr (r_user_id data) then
                 sendMessageToClients userId
                   (JObj [("status", JStr "error"); ("message", JStr (messageOf error))]) None
               else
                 logError "waWSserver" "handleIncomingMessage"
                   [LStr "Cannot send error response - user_id is undefined."]
           | None =>
               logError "waWSserver" "handleIncomingMessage"
                 [LStr "Cannot send error response - user_id is undefined."]
           end
       | None =>
           logError "waWSserver" "handleIncomingMessage"
             [LStr "Cannot send error response - user_id is undefined."]
       end).

(** ** The event loop

    What reaches the process: connections, frames and closes on the socket
    server, events of the backend clients, the firing of a restart timer, and
    changes of the environment (the state of a socket, the behaviour of a
    backend instance). A handler that throws leaves the state as it is at
    the throw. The listeners of a connection are closures over its id, so a
    frame or a close is handled whether or not that id is registered. The
    ids are those of [generateWsId] ([ws_<time>_<number>]), none of which
    is an inherited name. *)
Inductive Event : Type :=
| WsConnection (wsid : string) (ws : Socket)
| WsMessage (wsid : string) (message : Incoming)
| WsClose (wsid : string)
| WsReadyState (wsid : string) (state : nat)
| ClientQr (addr : nat) (qr : string)
| ClientAuthenticated (addr : nat)
| ClientReady (addr : nat)
| ClientMessage (addr : nat) (msg : Msg)
| ClientDisconnected (addr : nat) (reason : string)
| ClientError (addr : nat) (errorMessage : string)
| ClientBackend (addr : nat) (b : Backend)
| TimerFires (userId : string).

(** Removes the first pending task for [userId]. *)
Fixpoint takeTimer (userId : string) (l : list string) : option (list string) :=
  match l with
  | [] => None
  | u :: rest =>
      if decide (u = userId) then Some rest
      else match takeTimer userId rest with
           | Some rest' => Some (u :: rest')
           | None => None
           end
  end.

Definition handle (ev : Event) : M unit :=
  match ev with
  | WsConnection wsid ws =>
      logInfo "waWSserver" "onConnection" [LStr "New WebSocket client connected"] ;;
      modify (withWsClients (insert wsid ws)) ;;
      modify (withWsClientMap (AList.set wsid {| userIds := ∅ |}))
  | WsMessage wsid msg => handleIncomingMessage wsid {| readyState := OPEN |} msg
  | WsClose wsid => handleClientDisconnection wsid
  | WsReadyState wsid st =>
      modify (withWsClients (fun m =>
        match m !! wsid with
        | Some _ => <[wsid := {| readyState := st |}]> m
        | None => m
        end))
  | ClientQr addr qr => onQr addr qr
  | ClientAuthenticated addr => onAuthenticated addr
  | ClientReady addr => onReady addr
  | ClientMessage addr msg => onMessage addr msg
  | ClientDisconnected addr reason => onDisconnected addr reason
  | ClientError addr errorMessage => onError addr errorMessage
  | ClientBackend addr b => updateClient addr (setBackend b)
  | TimerFires userId =>
      w ← get;
      match takeTimer userId (timers w) with
      | Some rest =>
          modify (withTimers (fun _ => rest)) ;;
          initializeWhatsAppClient spawn userId ;; mret tt
      | None => mret tt
      end
  end.

Definition step (w : World) (ev : Event) : World := exec (handle ev) w.

Definition run (w : World) (evs : list Event) : World := fold_left step evs w.

End Runtime.

(** ** Notions used in the statements *)

(** A text of ten or more characters, all of them ASCII digits. *)
Definition bareNumeric (r : string) : Prop :=
  (10 <= String.length r)%nat /\
  forall c, In c (list_ascii_of_string r) -> (48 <= nat_of_ascii c <= 57)%nat.

(** The subscription record of a (connection, user) pair, if there is one. *)
Definition subscription (m : list (string * Entry)) (wsid userId : string) : option Sub :=
  e ← AList.lookup wsid m;
  userIds e !! userId.

(** Whether a content message for [userId] is delivered to [wsid]: the flag
    of the stored record, or else the flag found through an inherited
    name. *)
Definition deliveryOn (flags : gmap string bool) (m : list (string * Entry))
    (userId wsid : string) : bool :=
  match subscription m wsid userId with
  | Some s => sendMessages s
  | None =>
      match inheritedValue flags userId with
      | Some _ => inheritedFlag flags userId
      | None => false
      end
  end.

(** A time bound given in milliseconds, as the value the code computes for
    it. *)
Definition boundOf (b : option Z) : option jsnum :=
  match b with Some z => Some (Num z) | None => None end.

(** [lo <= t <= hi], an absent bound imposing nothing. *)
Definition inRange (lo hi : option Z) (t : Z) : Prop :=
  (forall s, lo = Some s -> (s <= t)%Z) /\ (forall e, hi = Some e -> (t <= e)%Z).

Definition ascending (l : list Msg) : Prop :=
  StronglySorted (fun a b => (m_timestamp a <= m_timestamp b)%Z) l.

(** The backend calls made for one user identity. *)
Definition callsFor (u : string) (w : World) : list (string * BackendCall) :=
  List.filter (fun p => bool_decide (fst p = u)) (calls w).

Definition isSendCall (p : string * BackendCall) : bool :=
  match snd p with
  | CallSendMessage _ _ => true
  | _ => false
  end.

(** What lines 234-241 of [UserSendMessage] come to for a recipient and a
    message: the [recipientId], or the [TypeError] thrown there. *)
Definition sendPlan (recipient msg : Field) : Res Field :=
  match fieldText recipient with
  | Fails e => Fails e
  | Ok shown =>
      match fieldText msg with
      | Fails e => Fails e
      | Ok _ => recipientIdFor recipient shown
      end
  end.

(** A session that [getConnectedClient] hands out: a registered client whose
    state is [CONNECTED]. *)
Definition readySession (w : World) (u : string) : Prop :=
  exists addr c, clientOf w u = Some (addr, c) /\ getState (c_backend c) = Ok "CONNECTED".

(** Frames that the router rejects. *)
Definition malformed (message : Incoming) : Prop :=
  match message with
  | Unparseable => True
  | ParsedNull => True
  | Parsed data =>
      truthyStr (r_user_id data) = false \/
      truthyStr (r_event data) = false \/
      (r_event data = Some "get_group_messages" /\ truthyStr (r_group_id data) = false)
  end.



(** *** Data for the examples *)

Definition msgAt (t : Z) : Msg :=
  {| m_id := "msg"; m_timestamp := t; m_author := Some "alice@c.us";
     m_from := "group@g.us"; m_body := "hello"; m_type := "chat";
     m_quotedMsgId := None; m_isGroupMsg := None |}.

(** The [Date] parser on the ISO texts that the examples use. *)
Definition parseIso (s : string) : jsnum :=
  if String.eqb s "1970-01-01T00:02:30.000Z" then Num 150000
  else if String.eqb s "1970-01-01T00:05:50.000Z" then Num 350000
  else if String.eqb s "1970-01-01T00:00:00.000Z" then Num 0
  else NaN.

(** A group chat with fewer messages than any fetch limit: every fetch
    returns the whole history, oldest first. *)
Definition chatOf (history : list Msg) : Chat :=
  {| fetchMessages := fun _ => Ok history |}.

Definition demoBackend (state : string) (history : list Msg) : Backend :=
  {| getState := Ok state;
     initialize := Ok tt;
     destroy := Ok tt;
     pupPage := None;
     getChatById := fun _ => Ok (Some (chatOf history));
     getGroupChats := Ok [];
     sendMessage := fun _ _ => Ok tt |}.

Definition clientFor (u state : string) (history : list Msg) : Client :=
  {| c_userId := u; c_QRrequest := 0; c_firstConnection := false;
     c_messageListenerAttached := false; c_backend := demoBackend state history |}.

(** One open connection [ws1] subscribed to the user [u1], whose client is
    at address 0. *)
Definition demoWorld (state : string) (history : list Msg) : World :=
  {| wsClients := {[ "ws1" := {| readyState := OPEN |} ]};
     wsClientMap := [("ws1", {| userIds := {[ "u1" := {| sendMessages := false |} ]} |})];
     protoFlags := ∅;
     waClients := {[ "u1" := 0 ]};
     heap := [clientFor "u1" state history];
     timers := []; logs := []; wire := []; relays := []; calls := [] |}.

Definition spawnDemo (u : string) (addr : nat) : Backend := demoBackend "OPENING" [].

(** A message that quotes another one. *)
Definition replyMsg : Msg :=
  {| m_id := "msg2"; m_timestamp := 500; m_author := None;
     m_from := "bob@c.us"; m_body := "yes"; m_type := "chat";
     m_quotedMsgId := Some "msg"; m_isGroupMsg := Some false |}.

(** The schema as the specification words it, and what it is for a payload
    to use no key outside a schema. *)
Definition normalizedSchema : list string :=
  ["id"; "timestamp"; "sender"; "body"; "type"; "replyToId"].

Definition conformsTo (schema : list string) (v : jsval) : Prop :=
  forall k, In k (keys v) -> In k schema.


(** A frame with a user identifier and no event tag, and a [send_message]
    request. *)
Definition frameWithoutEvent : Request :=
  {| r_event := None; r_user_id := Some "u1"; r_recipient := FAbsent; r_message := FAbsent;
     r_group_id := None; r_startTime := None; r_endTime := None |}.


(** A history request for the group [g1] from 150 s on. *)
Definition historyFrame : Request :=
  {| r_event := Some "get_group_messages"; r_user_id := Some "u1";
     r_recipient := FAbsent; r_message := FAbsent; r_group_id := Some "g1";
     r_startTime := Some "1970-01-01T00:02:30.000Z"; r_endTime := None |}.

(** A frame with an event tag and a user identifier and nothing else. *)
Definition requestFor (event u : string) : Request :=
  {| r_event := Some event; r_user_id := Some u; r_recipient := FAbsent; r_message := FAbsent;
     r_group_id := None; r_startTime := None; r_endTime := None |}.

(** A send request whose recipient is the JSON number 972501234567. *)
Definition numericSendFrame : Request :=
  {| r_event := Some "send_message"; r_user_id := Some "u1";
     r_recipient := FOther (JNum 972501234567) (Some "972501234567");
     r_message := FText "hi";
     r_group_id := None; r_startTime := None; r_endTime := None |}.

Definition toggleFrame (u : string) (b : bool) : Request :=
  {| r_event := Some (if b then "get_messages" else "stop_messages");
     r_user_id := Some u; r_recipient := FAbsent; r_message := FAbsent;
     r_group_id := None; r_startTime := None; r_endTime := None |}.




(** ** Notions used in the proofs *)

(** The state after one log line. *)
Definition logged (lv : Level) (a b : string) (c : list LogPart) (w : World) : World :=
  withLogs (fun l => l ++ [ {| lg_level := lv; lg_module := a; lg_function := b;
                               lg_message := c |} ]) w.

(** A relation between the state before and after that every step of a
    computation keeps. *)
Class Frame (R : World -> World -> Prop) : Prop := {
  frame_refl : forall w, R w w;
  frame_trans : forall a b c, R a b -> R b c -> R a c
}.

Definition Pres (R : World -> World -> Prop) {A : Type} (m : M A) : Prop :=
  forall w, R w (exec m w).

(** The relation that keeps one observation of the state. *)
Definition same {X : Type} (p : World -> X) : World -> World -> Prop :=
  fun w w' => p w' = p w.

#[global] Instance same_frame {X} (p : World -> X) : Frame (same p).
Proof. split; unfold same; [done | intros a b c H1 H2; congruence]. Qed.

(** What the relay never touches. *)
Definition sessionSide (w : World) :=
  (waClients w, heap w, calls w, timers w, wsClients w).

Definition userSide (u : string) (w : World) := (waClients w !! u, callsFor u w).

Definition quietFor (u : string) : World -> World -> Prop :=
  fun w w' => waClients w !! u = None -> userSide u w' = userSide u w.

#[global] Instance quietFor_frame u : Frame (quietFor u).
Proof.
  split; unfold quietFor; [done|].
  intros a b c Hab Hbc Ha. specialize (Hab Ha).
  rewrite <- Hab. apply Hbc. unfold userSide in Hab. by injection Hab as -> _.
Qed.



(** *** Further notions and examples *)






(** The relay message carries one of the given event tags. *)
Definition hasEvent (names : list string) (msg : jsval) : Prop :=
  exists n, In n names /\ field "event" msg = JStr n.

(** A computation that returns normally, having called the relay exactly
    once, for the user [u] and with a message of kind [K]. *)
Definition repliesOnce (u : string) (K : jsval -> Prop) {A : Type} (m : M A) : Prop :=
  forall w, exists a msg,
    outcome m w = Ret a /\ relays (exec m w) = relays w ++ [(u, msg)] /\ K msg.

(** A computation that either throws before any call of the relay, or
    behaves as [repliesOnce] says. *)
Definition throwsOrReplies (u : string) (K : jsval -> Prop) {A : Type} (m : M A) : Prop :=
  forall w,
    (exists e, outcome m w = Throw e /\ relays (exec m w) = relays w) \/
    (exists a msg, outcome m w = Ret a /\ relays (exec m w) = relays w ++ [(u, msg)] /\ K msg).

(** A computation that returns normally without calling the relay. *)
Definition silent {A : Type} (m : M A) : Prop :=
  forall w, exists a, outcome m w = Ret a /\ relays (exec m w) = relays w.

(** A session whose page is present and whose chat list is [chats]. *)
Definition listingBackend (chats : list GroupChat) : Backend :=
  {| getState := Ok "CONNECTED";
     initialize := Ok tt;
     destroy := Ok tt;
     pupPage := Some {| waitForSelector := Ok tt; pageClose := Ok tt |};
     getChatById := fun _ => Ok None;
     getGroupChats := Ok chats;
     sendMessage := fun _ _ => Ok tt |}.

Definition listingClient (chats : list GroupChat) : Client :=
  {| c_userId := "u1"; c_QRrequest := 0; c_firstConnection := false;
     c_messageListenerAttached := false; c_backend := listingBackend chats |}.

Definition listingWorld (chats : list GroupChat) : World :=
  {| wsClients := {[ "ws1" := {| readyState := OPEN |} ]};
     wsClientMap := [("ws1", {| userIds := {[ "u1" := {| sendMessages := false |} ]} |})];
     protoFlags := ∅;
     waClients := {[ "u1" := 0 ]};
     heap := [listingClient chats];
     timers := []; logs := []; wire := []; relays := []; calls := [] |}.

(** A group, an archived group and a broadcast list. *)
Definition sampleChats : list GroupChat :=
  [ {| gc_id := Some "1@g.us"; gc_server := "g.us"; gc_name := Some "family";
       gc_archived := None; gc_timestamp := Some 1700000000%Z |};
    {| gc_id := Some "2@g.us"; gc_server := "g.us"; gc_name := Some "old";
       gc_archived := Some true; gc_timestamp := None |};
    {| gc_id := Some "3@broadcast"; gc_server := "broadcast"; gc_name := None;
       gc_archived := Some false; gc_timestamp := None |} ].




(** The event tags of the messages that the server sends. *)
Definition knownEvents : list string :=
  ["qr"; "authenticated"; "ready"; "disconnected"; "error";
   "group_list"; "group_messages"; "message_sent"].

(** A message with a known event tag which, when the tag is
    [group_messages], is the message that [getGroupMessages] builds. *)
Definition wellShaped (msg : jsval) : Prop :=
  hasEvent knownEvents msg /\
  (field "event" msg = JStr "group_messages" ->
   exists u groupId startTime kept, msg = groupMessagesRelay u groupId startTime kept).

(** Between [w] and [w'] relays and frames were only added; each added relay
    carries a message of kind [K], and each added frame is the text of
    one. *)
Definition emits (K : jsval -> Prop) (w w' : World) : Prop :=
  (exists l, relays w' = relays w ++ l /\ Forall (fun p => K (snd p)) l) /\
  (exists l, wire w' = wire w ++ l /\
             Forall (fun p => exists msg, snd p = stringified msg /\ K msg) l).

#[global] Instance emits_frame K : Frame (emits K).
Proof.
  split.
  - intros w. split; exists []; by rewrite app_nil_r.
  - intros a b c [(l1 & H1 & F1) (m1 & G1 & K1)] [(l2 & H2 & F2) (m2 & G2 & K2)]. split.
    + exists (l1 ++ l2). rewrite H2, H1, app_assoc. split; [done|]. by apply Forall_app.
    + exists (m1 ++ m2). rewrite G2, G1, app_assoc. split; [done|]. by apply Forall_app.
Qed.

(** The client object at [addr], if there is one, stays there with its user
    and its count of QR events. *)
Definition counted (addr : nat) (w w' : World) : Prop :=
  forall c, heap w !! addr = Some c ->
    exists c', heap w' !! addr = Some c' /\ c_userId c' = c_userId c /\
               c_QRrequest c' = c_QRrequest c.

#[global] Instance counted_frame addr : Frame (counted addr).
Proof.
  split.
  - intros w c Hc. by exists c.
  - intros a b c Hab Hbc x Hx. destruct (Hab x Hx) as (y & Hy & Hu & Hk).
    destruct (Hbc y Hy) as (z & Hz & Hu' & Hk'). exists z. split; [done|]. split; congruence.
Qed.

(** A computation that returns normally from every state. *)
Definition returns {A : Type} (m : M A) : Prop := forall w, exists a, outcome m w = Ret a.

(** The events whose handler is the [message] listener of a live client. *)
Definition isContentEvent (w : World) (ev : Event) : Prop :=
  match ev with
  | ClientMessage addr _ => is_Some (heap w !! addr)
  | _ => False
  end.

(** The two registries of [waWSserver.js] hold the same connection ids. *)
Definition inSync (w : World) : Prop :=
  forall t, is_Some (wsClients w !! t) <-> is_Some (AList.lookup t (wsClientMap w)).

(** The connection ids of both registries are kept; and the same under the
    condition that [wsid] is registered to begin with. *)
Definition keysKept (w w' : World) : Prop :=
  (forall t, is_Some (wsClients w' !! t) <-> is_Some (wsClients w !! t)) /\
  AList.keys (wsClientMap w') = AList.keys (wsClientMap w).

Definition keysKeptFor (wsid : string) (w w' : World) : Prop :=
  is_Some (AList.lookup wsid (wsClientMap w)) -> keysKept w w'.

(** The sockets and the inherited flags are what they were, and so are the
    subscriptions of every connection whose socket is open. *)
Definition openKept (w w' : World) : Prop :=
  wsClients w' = wsClients w /\ protoFlags w' = protoFlags w /\
  forall t u, isOpen w t = true ->
    subscription (wsClientMap w') t u = subscription (wsClientMap w) t u.

#[global] Instance openKept_frame : Frame openKept.
Proof.
  split.
  - intros w. by split.
  - intros a b c (Hws1 & Hf1 & H1) (Hws2 & Hf2 & H2).
    split; [congruence|]. split; [congruence|].
    intros t u Ho. rewrite H2, H1; [done | done |].
    unfold isOpen in *. by rewrite Hws1.
Qed.

(** Every frame of the sequence arrives on a connection that is registered
    when it arrives. *)
Fixpoint framesOfRegistered (dateGetTime : string -> jsnum) (spawn : string -> nat -> Backend)
    (w : World) (evs : list Event) : Prop :=
  match evs with
  | [] => True
  | ev :: rest =>
      match ev with
      | WsMessage wsid _ => is_Some (wsClients w !! wsid)
      | _ => True
      end /\
      framesOfRegistered dateGetTime spawn (step dateGetTime spawn w ev) rest
  end.

(** Two connections that were given the same id; one closes, the other
    sends [initiate]. *)
Definition collidingRun : list Event :=
  [WsConnection "ws9" {| readyState := OPEN |};
   WsConnection "ws9" {| readyState := OPEN |};
   WsClose "ws9";
   WsMessage "ws9" (Parsed (requestFor "initiate" "u9"))].

(** A connection, a subscription and a close. *)
Definition sessionOfOneConnection : list Event :=
  [WsConnection "ws9" {| readyState := OPEN |};
   WsMessage "ws9" (Parsed (requestFor "initiate" "u9"));
   WsClose "ws9"].

(** The event tags that the router or [handleClientRequest] act upon. *)
Definition routedEvents : list string :=
  ["initiate"; "get_messages"; "stop_messages"; "get_groups"; "send_message";
   "get_group_messages"; "disconnect"; "fetch_groups"; "fetch_messages"].

(** * Properties *)

(** ** Association lists *)

Section AListFacts.
Context {V : Type}.
Implicit Types (m : list (string * V)) (k : string) (v : V).

Lemma alookup_set_eq m k v : AList.lookup k (AList.set k v m) = Some v.
Proof.
  induction m as [|[k' v'] m IH]; simpl.
  - by rewrite decide_True.
  - destruct (decide (k = k')) as [->|Hne]; simpl.
    + by rewrite decide_True.
    + by rewrite decide_False.
Qed.

Lemma alookup_set_ne m k k' v : k <> k' -> AList.lookup k' (AList.set k v m) = AList.lookup k' m.
Proof.
  intros Hne. induction m as [|[k0 v0] m IH]; simpl.
  - by rewrite decide_False.
  - destruct (decide (k = k0)) as [->|Hk]; simpl.
    + by rewrite !decide_False.
    + destruct (decide (k' = k0)); [done | apply IH].
Qed.

Lemma aset_set m k v v' : AList.set k v (AList.set k v' m) = AList.set k v m.
Proof.
  induction m as [|[k0 v0] m IH]; simpl.
  - by rewrite decide_True.
  - destruct (decide (k = k0)) as [->|Hk]; simpl.
    + by rewrite decide_True.
    + rewrite decide_False by done. by rewrite IH.
Qed.

Lemma aset_same m k v : AList.lookup k m = Some v -> AList.set k v m = m.
Proof.
  induction m as [|[k0 v0] m IH]; simpl; [done|].
  destruct (decide (k = k0)) as [->|Hk].
  - by intros [= ->].
  - intros H. by rewrite IH.
Qed.

Lemma akeys_set_present m k v :
  is_Some (AList.lookup k m) -> AList.keys (AList.set k v m) = AList.keys m.
Proof.
  unfold AList.keys. induction m as [|[k0 v0] m IH]; simpl.
  - by intros [? ?].
  - destruct (decide (k = k0)) as [->|Hk]; simpl; [done|].
    intros H. f_equal. by apply IH.
Qed.

Lemma alookup_in_keys m k : In k (AList.keys m) <-> is_Some (AList.lookup k m).
Proof.
  unfold AList.keys. induction m as [|[k0 v0] m IH]; simpl.
  - split; [done | by intros [? ?]].
  - destruct (decide (k = k0)) as [->|Hk].
    + split; [by eauto | by left].
    + rewrite <- IH. split; [intros [?|?]; [congruence | done] | by right].
Qed.

End AListFacts.

(** ** Sorting by time stamp *)

Lemma insertByTimestamp_perm msg l : Permutation (insertByTimestamp msg l) (msg :: l).
Proof.
  induction l as [|x l IH]; simpl; [done|].
  destruct (m_timestamp msg <=? m_timestamp x)%Z; [done|].
  rewrite IH. apply perm_swap.
Qed.

Lemma sortByTimestamp_perm l : Permutation (sortByTimestamp l) l.
Proof.
  induction l as [|x l IH]; simpl; [done|].
  rewrite insertByTimestamp_perm. by constructor.
Qed.

Lemma insertByTimestamp_ascending msg l : ascending l -> ascending (insertByTimestamp msg l).
Proof.
  unfold ascending. induction 1 as [|x l Hl IH Hx]; simpl.
  - repeat constructor.
  - destruct (m_timestamp msg <=? m_timestamp x)%Z eqn:Hle.
    + apply Z.leb_le in Hle. constructor; [by constructor|].
      constructor; [done|].
      eapply Forall_impl; [exact Hx|]. simpl. intros; lia.
    + apply Z.leb_gt in Hle. constructor; [done|].
      rewrite insertByTimestamp_perm. constructor; [lia | done].
Qed.

Lemma sortByTimestamp_ascending l : ascending (sortByTimestamp l).
Proof.
  induction l as [|x l IH]; simpl; [constructor|].
  by apply insertByTimestamp_ascending.
Qed.

Lemma in_sortByTimestamp msg l : In msg (sortByTimestamp l) <-> In msg l.
Proof.
  split; apply Permutation_in; [|symmetry]; apply sortByTimestamp_perm.
Qed.

(** The time window test, for bounds that are absent or different from 0. *)
Lemma lower_bound_test lo t :
  lo <> Some 0%Z ->
  negb (truthyNum (boundOf lo)) ||
    match boundOf lo with Some (Num s) => (s <=? t)%Z | _ => false end = true
  <-> (forall s, lo = Some s -> (s <= t)%Z).
Proof.
  intros Hlo. destruct lo as [s|]; simpl.
  - destruct (Z.eqb_spec s 0) as [->|Hs]; [congruence|]. simpl.
    rewrite Z.leb_le. split; [by intros H s' [= <-] | intros H; by apply H].
  - split; [by intros _ s' | done].
Qed.

Lemma upper_bound_test hi t :
  hi <> Some 0%Z ->
  negb (truthyNum (boundOf hi)) ||
    match boundOf hi with Some (Num e) => (t <=? e)%Z | _ => false end = true
  <-> (forall e, hi = Some e -> (t <= e)%Z).
Proof.
  intros Hhi. destruct hi as [e|]; simpl.
  - destruct (Z.eqb_spec e 0) as [->|He]; [congruence|]. simpl.
    rewrite Z.leb_le. split; [by intros H e' [= <-] | intros H; by apply H].
  - split; [by intros _ e' | done].
Qed.

Lemma inTimeframe_inRange lo hi msg :
  lo <> Some 0%Z -> hi <> Some 0%Z ->
  inTimeframe (boundOf lo) (boundOf hi) msg = true <-> inRange lo hi (msgTimestamp msg).
Proof.
  intros Hlo Hhi. unfold inTimeframe, inRange. cbv zeta.
  rewrite andb_true_iff, lower_bound_test, upper_bound_test by done. done.
Qed.

(** The filter and sort of [getGroupMessages], on an accepted batch: for
    bounds that are absent or different from 0 the result holds exactly the
    messages of the batch inside the window, as often as the batch does, in
    ascending order of time stamp. *)
Lemma filterAndSort_window allMessages lo hi :
  lo <> Some 0%Z -> hi <> Some 0%Z ->
  let result := filterAndSort allMessages (boundOf lo) (boundOf hi) in
  (forall msg, In msg result <-> In msg allMessages /\ inRange lo hi (msgTimestamp msg)) /\
  Permutation result (List.filter (inTimeframe (boundOf lo) (boundOf hi)) allMessages) /\
  ascending result.
Proof.
  intros Hlo Hhi. unfold filterAndSort. simpl. split; [|split].
  - intros msg. rewrite in_sortByTimestamp, filter_In.
    by rewrite inTimeframe_inRange.
  - apply sortByTimestamp_perm.
  - apply sortByTimestamp_ascending.
Qed.

Example filterAndSort_example :
  map m_timestamp
    (filterAndSort [msgAt 400; msgAt 100; msgAt 300; msgAt 200]
       (Some (Num 150000)) (Some (Num 350000))) = [200; 300]%Z.
Proof. reflexivity. Qed.

(** ** Outbound-send canonicalization *)

Lemma allDigits_spec r :
  allDigits r = true <->
  forall c, In c (list_ascii_of_string r) -> (48 <= nat_of_ascii c <= 57)%nat.
Proof.
  induction r as [|c r IH]; simpl.
  - split; [by intros _ c [] | done].
  - rewrite andb_true_iff, IH. unfold isDigit.
    rewrite andb_true_iff, !Nat.leb_le. split.
    + intros [Hc Hr] c' [<-|Hin]; [lia | by apply Hr].
    + intros H. split; [apply H; by left | intros c' Hin; apply H; by right].
Qed.

Lemma isBarePhone_spec r : isBarePhone r = true <-> bareNumeric r.
Proof.
  unfold isBarePhone, bareNumeric.
  by rewrite andb_true_iff, Nat.leb_le, allDigits_spec.
Qed.

Lemma isBarePhone_false r : ~ bareNumeric r -> isBarePhone r = false.
Proof.
  intros H. destruct (isBarePhone r) eqn:E; [|done].
  by apply isBarePhone_spec in E.
Qed.

Lemma convert_trunk_prefix rest :
  convertPhoneNumberToWaId (String "0"%char rest) = "972" +:+ rest +:+ "@c.us".
Proof. by destruct rest. Qed.

(** ** The registry: subscribing *)

Lemma inherited_spec k : inherited k = true <-> In k inheritedNames.
Proof.
  unfold inherited. rewrite existsb_exists. split.
  - intros (x & Hin & Heq). apply String.eqb_eq in Heq. by subst.
  - intros Hin. exists k. split; [done | apply String.eqb_refl].
Qed.

Lemma inheritedTruthy_value flags k :
  inheritedValue flags k = None -> inheritedTruthy flags k = false.
Proof. unfold inheritedTruthy. by intros ->. Qed.

Lemma inheritedValue_inherited flags k : inherited k = true -> inheritedValue flags k = Some true.
Proof. unfold inheritedValue. by intros ->. Qed.

Lemma inheritedTruthy_inherited flags k : inherited k = true -> inheritedTruthy flags k = true.
Proof. intros H. unfold inheritedTruthy. by rewrite inheritedValue_inherited. Qed.

(** A name that no object inherits, whatever flags have been written. *)
Lemma inheritedValue_plain flags k :
  inherited k = false -> k <> "sendMessages" -> inheritedValue flags k = None.
Proof.
  intros Hk Hne. unfold inheritedValue. rewrite Hk.
  by apply String.eqb_neq in Hne as ->.
Qed.

Lemma inheritedValue_inv flags k :
  inheritedValue flags k = None -> inherited k = false.
Proof. unfold inheritedValue. by destruct (inherited k). Qed.

Lemma subscription_subscribe flags m wsid u :
  inheritedTruthy flags u = false ->
  exists s, subscription (subscribe flags wsid u m) wsid u = Some s /\
    (subscription m wsid u = None -> s = {| sendMessages := false |}) /\
    (forall s', subscription m wsid u = Some s' -> s = s').
Proof.
  intros Hu. unfold subscription, subscribe.
  destruct (AList.lookup wsid m) as [e|] eqn:Hm; simpl.
  - rewrite Hm. destruct (userIds e !! u) as [s|] eqn:Hs; simpl.
    + rewrite Hm. simpl. rewrite Hs. exists s. by split; [|split; [|intros ? [= <-]]].
    + rewrite Hu, alookup_set_eq. simpl. rewrite lookup_insert_eq.
      eexists. by split; [|split].
  - rewrite alookup_set_eq. simpl. rewrite lookup_empty, Hu.
    rewrite alookup_set_eq. simpl. rewrite lookup_insert_eq.
    eexists. by split; [|split].
Qed.

Lemma subscribe_present flags m wsid u s :
  subscription m wsid u = Some s -> subscribe flags wsid u m = m.
Proof.
  unfold subscription, subscribe.
  destruct (AList.lookup wsid m) as [e|] eqn:Hm; simpl; [|done].
  rewrite Hm. by intros ->.
Qed.

(** For a name with a truthy inherited value the test of line 65 fails: a
    registered connection gets no record. *)
Lemma subscribe_inherited flags m wsid u e :
  inheritedTruthy flags u = true -> AList.lookup wsid m = Some e ->
  subscribe flags wsid u m = m.
Proof.
  intros Hu Hm. unfold subscribe. rewrite Hm. cbv zeta. rewrite Hm, Hu.
  by destruct (userIds e !! u).
Qed.

(** ** The relay: target resolution *)

Lemma isSubscribed_spec flags m u wsid :
  isSubscribed flags m u wsid = true <->
  is_Some (subscription m wsid u) \/
  (inheritedTruthy flags u = true /\ is_Some (AList.lookup wsid m)).
Proof.
  unfold isSubscribed, subscription.
  destruct (AList.lookup wsid m) as [e|]; simpl.
  - rewrite orb_true_iff, bool_decide_eq_true. split.
    + intros [?|?]; [by left | right; split; [done | by eexists]].
    + intros [?|[? _]]; [by left | by right].
  - split; [done | intros [[? ?]|[_ [? ?]]]; done].
Qed.

Lemma isSubscribed_subscription flags m u wsid :
  inheritedTruthy flags u = false ->
  isSubscribed flags m u wsid = true <-> is_Some (subscription m wsid u).
Proof.
  intros Hu. rewrite isSubscribed_spec, Hu. split; [|by left].
  by intros [?|[? _]].
Qed.

Lemma subscription_registered m t u :
  is_Some (subscription m t u) -> is_Some (AList.lookup t m).
Proof.
  unfold subscription. destruct (AList.lookup t m); [by eauto | by intros [? ?]].
Qed.

Lemma in_subscribers_spec flags m u wsid :
  In wsid (subscribers flags m u) <->
  is_Some (subscription m wsid u) \/
  (inheritedTruthy flags u = true /\ is_Some (AList.lookup wsid m)).
Proof.
  unfold subscribers. rewrite filter_In, isSubscribed_spec. split; [by intros [_ ?]|].
  intros H. split; [|done]. apply alookup_in_keys.
  destruct H as [H|[_ H]]; [by eapply subscription_registered | done].
Qed.

Lemma in_subscribers flags m u wsid :
  inheritedTruthy flags u = false ->
  In wsid (subscribers flags m u) <-> is_Some (subscription m wsid u).
Proof.
  intros Hu. rewrite in_subscribers_spec, Hu. split; [|by left].
  by intros [?|[? _]].
Qed.

Lemma in_subscribers_registered flags m u wsid :
  In wsid (subscribers flags m u) -> is_Some (AList.lookup wsid m).
Proof.
  rewrite in_subscribers_spec. intros [H|[_ H]]; [by eapply subscription_registered | done].
Qed.

(** For a name with a truthy inherited value every registered connection
    counts as subscribed. *)
Lemma subscribers_inherited flags m u :
  inheritedTruthy flags u = true -> subscribers flags m u = AList.keys m.
Proof.
  intros Hu. unfold subscribers.
  rewrite (filter_ext_in _ (fun _ => true)); [by rewrite filter_true|].
  intros t Ht. apply alookup_in_keys in Ht as [e He].
  unfold isSubscribed. rewrite He, Hu. apply orb_true_r.
Qed.

(** The restriction to the connections with the flag set, on targets that
    count as subscribed. *)
Lemma deliveryFilter_subscribed flags m u ts :
  (forall t, In t ts -> In t (subscribers flags m u)) ->
  deliveryFilter flags m u ts = Ok (List.filter (deliveryOn flags m u) ts).
Proof.
  induction ts as [|t ts IH]; intros Hts; simpl; [done|].
  rewrite IH by (intros; apply Hts; by right).
  pose proof (Hts t (or_introl eq_refl)) as Ht. apply in_subscribers_spec in Ht.
  unfold deliveryFlag, deliveryOn, subscription in *.
  destruct (AList.lookup t m) as [e|]; simpl in *; [|by destruct Ht as [[? ?]|[_ [? ?]]]].
  destruct (userIds e !! u) as [s|] eqn:Hs; simpl.
  - by destruct (sendMessages s).
  - destruct Ht as [[? ?]|[Hu _]]; [done|]. unfold inheritedTruthy in Hu.
    destruct (inheritedValue flags u) as [b|]; [|done].
    by destruct (inheritedFlag flags u).
Qed.

(** ** Content payloads *)

Lemma payload_keys msg :
  keys (historyPayload msg) = ["id"; "timestamp"; "sender"; "body"; "type"; "reply"] /\
  keys (parsedMessage msg) =
    ["id"; "isGroups"; "timestamp"; "sender"; "from"; "body"; "type"; "reply"].
Proof. by split. Qed.

(** ** Reasoning about computations *)

Lemma exec_bind {A B} (m : M A) (f : A -> M B) w :
  exec (m ≫= f) w =
  match outcome m w with
  | Ret a => exec (f a) (exec m w)
  | Throw _ => exec m w
  end.
Proof. unfold exec, outcome, mbind, M_bind. by destruct (m w) as [[a|e] w']. Qed.

Lemma outcome_bind {A B} (m : M A) (f : A -> M B) w :
  outcome (m ≫= f) w =
  match outcome m w with
  | Ret a => outcome (f a) (exec m w)
  | Throw e => Throw e
  end.
Proof. unfold exec, outcome, mbind, M_bind. by destruct (m w) as [[a|e] w']. Qed.

Lemma exec_tryCatch {A} (m : M A) (h : exn -> M A) w :
  exec (tryCatch m h) w =
  match outcome m w with
  | Ret _ => exec m w
  | Throw e => exec (h e) (exec m w)
  end.
Proof. unfold exec, outcome, tryCatch. by destruct (m w) as [[a|e] w']. Qed.

Lemma outcome_tryCatch {A} (m : M A) (h : exn -> M A) w :
  outcome (tryCatch m h) w =
  match outcome m w with
  | Ret a => Ret a
  | Throw e => outcome (h e) (exec m w)
  end.
Proof. unfold exec, outcome, tryCatch. by destruct (m w) as [[a|e] w']. Qed.

Lemma exec_eq {A} (m : M A) w o w' : m w = (o, w') -> exec m w = w'.
Proof. unfold exec. by intros ->. Qed.

Lemma outcome_eq {A} (m : M A) w o w' : m w = (o, w') -> outcome m w = o.
Proof. unfold outcome. by intros ->. Qed.

Lemma exec_modify_bind {B} (g : World -> World) (f : unit -> M B) w :
  exec (modify g ≫= f) w = exec (f tt) (g w).
Proof. reflexivity. Qed.

Lemma outcome_modify_bind {B} (g : World -> World) (f : unit -> M B) w :
  outcome (modify g ≫= f) w = outcome (f tt) (g w).
Proof. reflexivity. Qed.

Lemma exec_logDebug_bind {B} a b c (f : unit -> M B) w :
  exec (logDebug a b c ≫= f) w = exec (f tt) (logged DEBUG a b c w).
Proof. reflexivity. Qed.

Lemma exec_logInfo_bind {B} a b c (f : unit -> M B) w :
  exec (logInfo a b c ≫= f) w = exec (f tt) (logged INFO a b c w).
Proof. reflexivity. Qed.

Lemma exec_logError_bind {B} a b c (f : unit -> M B) w :
  exec (logError a b c ≫= f) w = exec (f tt) (logged ERROR a b c w).
Proof. reflexivity. Qed.

Lemma outcome_logDebug_bind {B} a b c (f : unit -> M B) w :
  outcome (logDebug a b c ≫= f) w = outcome (f tt) (logged DEBUG a b c w).
Proof. reflexivity. Qed.

Lemma outcome_logInfo_bind {B} a b c (f : unit -> M B) w :
  outcome (logInfo a b c ≫= f) w = outcome (f tt) (logged INFO a b c w).
Proof. reflexivity. Qed.

Lemma outcome_logError_bind {B} a b c (f : unit -> M B) w :
  outcome (logError a b c ≫= f) w = outcome (f tt) (logged ERROR a b c w).
Proof. reflexivity. Qed.

Lemma outcome_ret {A} (a : A) w : outcome (mret a) w = Ret a.
Proof. reflexivity. Qed.

Lemma exec_ret {A} (a : A) w : exec (mret a) w = w.
Proof. reflexivity. Qed.

Lemma outcome_throw {A} e w : outcome (@throw A e) w = Throw e.
Proof. reflexivity. Qed.

Lemma exec_throw {A} e w : exec (@throw A e) w = w.
Proof. reflexivity. Qed.

Lemma outcome_await_bind {A B} (r : Res A) (f : A -> M B) w :
  outcome (await r ≫= f) w = match r with Ok a => outcome (f a) w | Fails e => Throw e end.
Proof. by destruct r. Qed.

Lemma exec_await_bind {A B} (r : Res A) (f : A -> M B) w :
  exec (await r ≫= f) w = match r with Ok a => exec (f a) w | Fails e => w end.
Proof. by destruct r. Qed.

Section Preservation.
Context (R : World -> World -> Prop) `{!Frame R}.

Lemma Pres_ret {A} (a : A) : Pres R (mret a).
Proof. intros w. apply frame_refl. Qed.

Lemma Pres_throw {A} e : Pres R (@throw A e).
Proof. intros w. apply frame_refl. Qed.

Lemma Pres_await {A} (r : Res A) : Pres R (await r).
Proof. destruct r; [apply Pres_ret | apply Pres_throw]. Qed.

Lemma Pres_bind {A B} (m : M A) (f : A -> M B) :
  Pres R m -> (forall a, Pres R (f a)) -> Pres R (m ≫= f).
Proof.
  intros Hm Hf w. rewrite exec_bind. destruct (outcome m w); [|apply Hm].
  eapply frame_trans; [apply Hm | apply Hf].
Qed.

Lemma Pres_tryCatch {A} (m : M A) (h : exn -> M A) :
  Pres R m -> (forall e, Pres R (h e)) -> Pres R (tryCatch m h).
Proof.
  intros Hm Hh w. rewrite exec_tryCatch. destruct (outcome m w); [apply Hm|].
  eapply frame_trans; [apply Hm | apply Hh].
Qed.




Lemma Pres_read : Pres R get.
Proof. intros w. apply frame_refl. Qed.

Lemma Pres_modify (f : World -> World) : (forall w, R w (f w)) -> Pres R (modify f).
Proof. intros H w. apply H. Qed.

Lemma Pres_detached {A} (m : M A) : Pres R m -> Pres R (detached m).
Proof. intros H w. apply H. Qed.

Lemma Pres_forEach {A} (xs : list A) (body : A -> M unit) :
  (forall x, Pres R (body x)) -> Pres R (forEach xs body).
Proof.
  intros H. induction xs as [|x xs IH]; simpl; [apply Pres_ret|].
  apply Pres_bind; [apply H | intros _; apply IH].
Qed.

End Preservation.

(** Goals [R w (exec m w)] read as [Pres R m], and the structural rules. *)
Ltac pres_at :=
  match goal with
  | |- ?R ?w (exec ?m ?w) => refine ((_ : Pres R m) w)
  end.

Ltac pres_struct leaf :=
  repeat first
    [ leaf
    | lazymatch goal with
      | |- Frame _ => typeclasses eauto
      | |- Pres _ get => apply Pres_read
      | |- Pres _ (mret _) => apply Pres_ret
      | |- Pres _ (throw _) => apply Pres_throw
      | |- Pres _ (await _) => apply Pres_await
      | |- Pres _ (mbind _ _) => apply Pres_bind; [.. | intros ?]
      | |- Pres _ (tryCatch _ _) => apply Pres_tryCatch; [.. | intros ?]
      | |- Pres _ (detached _) => apply Pres_detached
      | |- Pres _ (forEach _ _) => apply Pres_forEach; [.. | intros ?]
      | |- Pres _ (if ?b then _ else _) => destruct b eqn:?
      | |- Pres _ (match ?x with _ => _ end) => destruct x eqn:?
      end
    | progress cbv beta iota zeta ].

(** *** The relay leaves the session side alone *)

Ltac leaf_proj :=
  idtac;
  lazymatch goal with
  | |- Pres _ (modify _) => apply Pres_modify; intros ?; reflexivity
  | |- Pres _ (logInfo _ _ _) => apply Pres_modify; intros ?; reflexivity
  | |- Pres _ (logDebug _ _ _) => apply Pres_modify; intros ?; reflexivity
  | |- Pres _ (logError _ _ _) => apply Pres_modify; intros ?; reflexivity
  end.

Lemma deleteSubscription_session wsid u : Pres (same sessionSide) (deleteSubscription wsid u).
Proof. unfold deleteSubscription. pres_struct leaf_proj. Qed.

Lemma sendToClient_session u msg wsid : Pres (same sessionSide) (sendToClient u msg wsid).
Proof.
  unfold sendToClient.
  pres_struct ltac:(idtac; lazymatch goal with
    | |- Pres _ (deleteSubscription _ _) => apply deleteSubscription_session
    | _ => leaf_proj end).
Qed.

Lemma sendMessageToClients_session u msg sc :
  Pres (same sessionSide) (sendMessageToClients u msg sc).
Proof.
  unfold sendMessageToClients, fanOut.
  pres_struct ltac:(idtac; lazymatch goal with
    | |- Pres _ (sendToClient _ _ _) => apply sendToClient_session
    | _ => leaf_proj end).
Qed.


(** *** What a relay writes *)

Lemma sendToClient_run u msg t w e :
  AList.lookup t (wsClientMap w) = Some e ->
  exists w',
    sendToClient u msg t w = (Ret tt, w') /\
    wire w' = wire w ++ (if isOpen w t then [(t, stringified msg)] else []) /\
    wsClients w' = wsClients w /\
    (forall t', is_Some (AList.lookup t' (wsClientMap w')) <->
                is_Some (AList.lookup t' (wsClientMap w))).
Proof.
  intros He. unfold sendToClient, deleteSubscription, mbind, M_bind, get. simpl.
  destruct (isOpen w t); simpl.
  - eexists. split; [reflexivity|]. by simpl.
  - rewrite He. simpl. eexists. split; [reflexivity|]. simpl.
    rewrite app_nil_r. split; [done|]. split; [done|].
    intros t'. destruct (decide (t = t')) as [<-|Hne].
    + rewrite alookup_set_eq, He. by split; eauto.
    + by rewrite alookup_set_ne.
Qed.

Lemma forEach_send_run u msg ts : forall w,
  (forall t, In t ts -> is_Some (AList.lookup t (wsClientMap w))) ->
  exists w',
    forEach ts (sendToClient u msg) w = (Ret tt, w') /\
    wire w' = wire w ++ map (fun t => (t, stringified msg)) (List.filter (isOpen w) ts).
Proof.
  induction ts as [|t ts IH]; intros w Hts; simpl.
  - exists w. by rewrite app_nil_r.
  - destruct (Hts t (or_introl eq_refl)) as [e He].
    destruct (sendToClient_run u msg t w e He) as (w1 & Hrun & Hwire & Hws & Hreg).
    destruct (IH w1) as (w2 & Hrun2 & Hwire2).
    { intros t' Hin. apply Hreg, Hts. by right. }
    exists w2. unfold mbind, M_bind. rewrite Hrun. split; [done|].
    rewrite Hwire2, Hwire.
    assert (Hopen : forall x, isOpen w1 x = isOpen w x).
    { intros x. unfold isOpen. by rewrite Hws. }
    rewrite (filter_ext _ _ Hopen).
    destruct (isOpen w t); simpl; by rewrite <- ?app_assoc.
Qed.

Lemma resolveTargets_subscribed flags m u msg :
  exists ts,
    resolveTargets flags m u msg None = Ok ts /\
    ts = (if isMessageEvent msg
          then List.filter (deliveryOn flags m u) (subscribers flags m u)
          else subscribers flags m u) /\
    (forall t, In t ts -> is_Some (AList.lookup t m)).
Proof.
  unfold resolveTargets. destruct (isMessageEvent msg).
  - rewrite deliveryFilter_subscribed by done.
    eexists. split; [done|]. split; [done|].
    intros t [Hin _]%filter_In. by eapply in_subscribers_registered.
  - eexists. split; [done|]. split; [done|]. intros t. apply in_subscribers_registered.
Qed.

Lemma sendToClient_relays u msg t : Pres (same relays) (sendToClient u msg t).
Proof.
  unfold sendToClient, deleteSubscription. pres_struct leaf_proj.
Qed.

Lemma fanOut_run u msg ts w :
  (forall t, In t ts -> is_Some (AList.lookup t (wsClientMap w))) ->
  exists w',
    fanOut u msg ts w = (Ret tt, w') /\
    relays w' = relays w /\
    wire w' = wire w ++ map (fun t => (t, stringified msg)) (List.filter (isOpen w) ts).
Proof.
  intros Hts. unfold fanOut. destruct ts as [|t ts'].
  - eexists. split; [reflexivity|]. simpl. by rewrite app_nil_r.
  - destruct (forEach_send_run u msg (t :: ts') w Hts) as (w' & Hrun & Hwire).
    exists w'. split; [done|]. split; [|done].
    pose proof (Pres_forEach (same relays) (t :: ts') (sendToClient u msg)
                  (sendToClient_relays u msg) w) as HP.
    unfold same, exec in HP. by rewrite Hrun in HP.
Qed.

(** A relay to the subscribers of [u]: it does not throw, it is recorded
    once, and every resolved connection whose socket is open is written the
    message once, in the order of resolution. *)
Lemma sendMessageToClients_run u msg w :
  exists ts w',
    resolveTargets (protoFlags w) (wsClientMap w) u msg None = Ok ts /\
    sendMessageToClients u msg None w = (Ret tt, w') /\
    relays w' = relays w ++ [(u, msg)] /\
    wire w' = wire w ++ map (fun t => (t, stringified msg)) (List.filter (isOpen w) ts).
Proof.
  destruct (resolveTargets_subscribed (protoFlags w) (wsClientMap w) u msg)
    as (ts & Hres & _ & Hsub).
  exists ts.
  set (w0 := withRelays (fun l => l ++ [(u, msg)])
               (withLogs (fun l => l ++ [ {| lg_level := INFO; lg_module := "waWSserver";
                    lg_function := "sendMessageToClients";
                    lg_message := [LStr "Sending message to "; LStr u;
                                   LStr ", message type: "; LJson (field "event" msg)] |} ]) w)).
  destruct (fanOut_run u msg ts w0) as (w' & Hfan & Hrel & Hwire).
  { intros x Hx. apply Hsub, Hx. }
  change (isOpen w0) with (isOpen w) in Hwire.
  unfold sendMessageToClients, logInfo, logAt.
  cbv beta iota delta [mbind M_bind modify get await].
  fold w0. change (wsClientMap w0) with (wsClientMap w).
  change (protoFlags w0) with (protoFlags w). rewrite Hres.
  cbv beta iota delta [mret M_ret].
  destruct (isMessageEvent msg) eqn:Emsg.
  - destruct ts as [|t ts'] eqn:Ets.
    + eexists. split; [done|]. split; [reflexivity|]. simpl. by rewrite app_nil_r.
    + exists w'. by rewrite Hfan.
  - exists w'. by rewrite Hfan.
Qed.

(** *** [getConnectedClient] *)

Lemma getConnectedClient_ready w u addr c :
  clientOf w u = Some (addr, c) ->
  getState (c_backend c) = Ok "CONNECTED" ->
  getConnectedClient u w =
    (Ret (Some (addr, c)), withCalls (fun l => l ++ [(u, CallGetState)]) w).
Proof.
  intros Hc Hs. unfold getConnectedClient.
  cbv beta iota delta [mbind M_bind get]. rewrite Hc.
  unfold tryCatch, backend. cbv beta iota delta [mbind M_bind modify].
  by rewrite Hs.
Qed.

Lemma getConnectedClient_absent w u :
  ~ readySession w u ->
  exists w',
    getConnectedClient u w = (Ret None, w') /\
    wsClientMap w' = wsClientMap w /\ wsClients w' = wsClients w /\
    relays w' = relays w /\ wire w' = wire w /\
    waClients w' = waClients w /\ heap w' = heap w /\ timers w' = timers w /\
    (calls w' = calls w \/ calls w' = calls w ++ [(u, CallGetState)]).
Proof.
  intros Hnot. unfold getConnectedClient.
  cbv beta iota delta [mbind M_bind get].
  destruct (clientOf w u) as [[addr c]|] eqn:Hc.
  - unfold tryCatch, backend. cbv beta iota delta [mbind M_bind modify].
    destruct (getState (c_backend c)) as [state|e] eqn:Hs.
    + cbv beta iota delta [mret M_ret].
      destruct (String.eqb state "CONNECTED") eqn:Hst.
      * apply String.eqb_eq in Hst. subst state.
        destruct Hnot. by exists addr, c.
      * simpl. eexists. split; [reflexivity|]. simpl. tauto.
    + simpl. eexists. split; [reflexivity|]. simpl. tauto.
  - simpl. eexists. split; [reflexivity|]. simpl. tauto.
Qed.

Lemma getConnectedClient_flags u : Pres (same protoFlags) (getConnectedClient u).
Proof.
  unfold getConnectedClient.
  pres_struct ltac:(idtac; lazymatch goal with
    | |- Pres _ (backend _ _ _) => unfold backend
    | _ => leaf_proj end).
Qed.

Lemma filter_isSendCall_getState l u :
  List.filter isSendCall (l ++ [(u, CallGetState)]) = List.filter isSendCall l.
Proof. rewrite List.filter_app. simpl. by rewrite app_nil_r. Qed.

(** *** [UserSendMessage] *)

Lemma UserSendMessage_unavailable u recipient msg w :
  ~ readySession w u ->
  exists w',
    UserSendMessage u recipient msg w = (Ret tt, w') /\
    relays w' = relays w ++ [(u, errorRelay u "WhatsApp client not connected")] /\
    wire w' = wire w ++
      map (fun wsid => (wsid, errorRelay u "WhatsApp client not connected"))
        (List.filter (isOpen w) (subscribers (protoFlags w) (wsClientMap w) u)) /\
    (calls w' = calls w \/ calls w' = calls w ++ [(u, CallGetState)]).
Proof.
  intros Hnot.
  destruct (getConnectedClient_absent w u Hnot)
    as (w1 & Hget & Hmap & Hws & Hrel & Hwire & _ & _ & _ & Hcalls).
  pose proof (getConnectedClient_flags u w) as Hflags.
  unfold same, exec in Hflags. rewrite Hget in Hflags. simpl in Hflags.
  unfold UserSendMessage. cbv beta iota delta [mbind M_bind]. rewrite Hget.
  unfold logError, logAt. cbv beta iota delta [modify].
  match goal with |- context [sendMessageToClients _ ?m None ?w2] =>
    destruct (sendMessageToClients_run u m w2) as (ts & w' & Hres & Hrun & Hrel' & Hwire');
    pose proof (sendMessageToClients_session u m None w2) as Hsess
  end.
  exists w'. split; [exact Hrun|].
  unfold same, sessionSide, exec in Hsess. rewrite Hrun in Hsess. simpl in Hsess.
  injection Hsess as _ _ Hc _ _.
  simpl in Hrel', Hwire', Hres.
  unfold resolveTargets in Hres. simpl in Hres. injection Hres as <-.
  rewrite Hrel', Hrel, Hwire', Hwire, Hmap, Hflags.
  split; [done|]. split.
  - f_equal. f_equal. apply filter_ext. intros x. unfold isOpen. simpl. by rewrite Hws.
  - by rewrite Hc.
Qed.

Lemma Pres_weaken (R R' : World -> World -> Prop) {A} (m : M A) :
  (forall w w', R w w' -> R' w w') -> Pres R m -> Pres R' m.
Proof. intros Himp Hm w. apply Himp, Hm. Qed.

Lemma sendMessageToClients_calls u msg sc : Pres (same calls) (sendMessageToClients u msg sc).
Proof.
  eapply Pres_weaken; [|apply sendMessageToClients_session].
  unfold same, sessionSide. by intros w w' [= _ _ -> _ _].
Qed.

Lemma calls_pres {A} (m : M A) w : Pres (same calls) m -> calls (exec m w) = calls w.
Proof. intros H. apply H. Qed.

Lemma tryCatch_backend {A B} u c (r : Res A) (k : A -> M B) (h : exn -> M B) w :
  exec (tryCatch (backend u c r ≫= k) h) w =
  match r with
  | Ok a => exec (tryCatch (k a) h) (withCalls (fun l => l ++ [(u, c)]) w)
  | Fails e => exec (h e) (withCalls (fun l => l ++ [(u, c)]) w)
  end.
Proof.
  unfold exec, tryCatch, backend. cbv beta iota delta [mbind M_bind modify].
  by destruct r.
Qed.

Lemma outcome_tryCatch_backend {A B} u c (r : Res A) (k : A -> M B) (h : exn -> M B) w :
  outcome (tryCatch (backend u c r ≫= k) h) w =
  match r with
  | Ok a => outcome (tryCatch (k a) h) (withCalls (fun l => l ++ [(u, c)]) w)
  | Fails e => outcome (h e) (withCalls (fun l => l ++ [(u, c)]) w)
  end.
Proof.
  unfold outcome, tryCatch, backend. cbv beta iota delta [mbind M_bind modify].
  by destruct r.
Qed.

Lemma sendPlan_text recipient msg id :
  sendPlan recipient msg = Ok id -> exists t, fieldText id = Ok t.
Proof.
  unfold sendPlan, recipientIdFor.
  destruct (fieldText recipient) as [shown|] eqn:Hr; [|done].
  destruct (fieldText msg); [|done].
  destruct (isBarePhone shown).
  - destruct recipient; try done. intros [= <-]. by eexists.
  - intros [= <-]. by eexists.
Qed.

Lemma sendPlan_ofText recipient msg :
  sendPlan (ofText recipient) (ofText msg) = Ok (ofText (recipientIdOpt recipient)).
Proof.
  unfold sendPlan, recipientIdFor, recipientIdOf.
  destruct recipient as [r|], msg as [m|]; cbn; try done;
    unfold recipientIdOf; by destruct (isBarePhone r).
Qed.

Lemma relay_run u msg w :
  outcome (sendMessageToClients u msg None) w = Ret tt /\
  relays (exec (sendMessageToClients u msg None) w) = relays w ++ [(u, msg)] /\
  calls (exec (sendMessageToClients u msg None) w) = calls w.
Proof.
  destruct (sendMessageToClients_run u msg w) as (ts & w' & _ & Hrun & Hrel & _).
  pose proof (calls_pres _ w (sendMessageToClients_calls u msg None)) as Hc.
  rewrite (outcome_eq _ _ _ _ Hrun). rewrite (exec_eq _ _ _ _ Hrun) in *. done.
Qed.

(** [UserSendMessage] with a ready session: one call of the send primitive
    and one answer, or the [TypeError] of lines 234-241, thrown before
    either. *)
Lemma UserSendMessage_ready u addr c recipient msg w :
  clientOf w u = Some (addr, c) ->
  getState (c_backend c) = Ok "CONNECTED" ->
  let w' := exec (UserSendMessage u recipient msg) w in
  match sendPlan recipient msg with
  | Ok id =>
      outcome (UserSendMessage u recipient msg) w = Ret tt /\
      calls w' = calls w ++ [(u, CallGetState); (u, CallSendMessage id msg)] /\
      relays w' = relays w ++
        [(u, match sendMessage (c_backend c) id msg with
             | Ok _ => JObj [("event", JStr "message_sent"); ("userid", JStr u);
                             ("recipientId", fieldValue id); ("message", fieldValue msg)]
             | Fails e => errorRelay u (messageOf e)
             end)]
  | Fails e =>
      outcome (UserSendMessage u recipient msg) w = Throw e /\
      calls w' = calls w ++ [(u, CallGetState)] /\
      relays w' = relays w /\ wire w' = wire w
  end.
Proof.
  intros Hc Hs. cbv zeta.
  pose proof (sendPlan_text recipient msg) as Htext.
  unfold UserSendMessage, sendPlan in *.
  pose proof (getConnectedClient_ready w u addr c Hc Hs) as Hget.
  rewrite outcome_bind, exec_bind, (outcome_eq _ _ _ _ Hget), (exec_eq _ _ _ _ Hget).
  cbv beta iota.
  rewrite outcome_await_bind, exec_await_bind.
  destruct (fieldText recipient) as [shown|e]; [|done].
  rewrite outcome_await_bind, exec_await_bind.
  destruct (fieldText msg) as [shownMsg|e]; [|done].
  rewrite outcome_logDebug_bind, exec_logDebug_bind.
  rewrite outcome_await_bind, exec_await_bind.
  destruct (recipientIdFor recipient shown) as [id|e]; [|done].
  destruct (Htext id eq_refl) as [t Ht].
  rewrite outcome_tryCatch_backend, tryCatch_backend.
  destruct (sendMessage (c_backend c) id msg) as [[]|e].
  - rewrite outcome_tryCatch, exec_tryCatch, outcome_await_bind, exec_await_bind, Ht.
    rewrite outcome_logDebug_bind, exec_logDebug_bind.
    match goal with |- context [exec (sendMessageToClients u ?m None) ?w3] =>
      destruct (relay_run u m w3) as (Ho & Hr & Hcl)
    end.
    rewrite Ho, Hr, Hcl. split; [done|]. split; [|done].
    destruct w. unfold withCalls. cbn. by rewrite <- app_assoc.
  - rewrite outcome_logError_bind, exec_logError_bind.
    match goal with |- context [exec (sendMessageToClients u ?m None) ?w3] =>
      destruct (relay_run u m w3) as (Ho & Hr & Hcl)
    end.
    rewrite Ho, Hr, Hcl. split; [done|]. split; [|done].
    destruct w. unfold withCalls. cbn. by rewrite <- app_assoc.
Qed.

Lemma UserSendMessage_calls u r msg w addr c :
  clientOf w u = Some (addr, c) ->
  getState (c_backend c) = Ok "CONNECTED" ->
  calls (exec (UserSendMessage u (FText r) (ofText msg)) w) =
    calls w ++ [(u, CallGetState); (u, CallSendMessage (FText (recipientIdOf r)) (ofText msg))].
Proof.
  intros Hc Hs.
  pose proof (UserSendMessage_ready u addr c (ofText (Some r)) (ofText msg) w Hc Hs) as H.
  rewrite (sendPlan_ofText (Some r) msg) in H. destruct H as (_ & H & _). exact H.
Qed.

(** *** The request router *)

Section Router.
Context (dateGetTime : string -> jsnum) (spawn : string -> nat -> Backend).


(** Whatever the [try] block throws ends in two log lines: the [catch] block
    never relays. *)
Lemma handleIncomingMessage_caught wsid ws message w e w1 :
  routeMessage dateGetTime spawn wsid message w = (Throw e, w1) ->
  handleIncomingMessage dateGetTime spawn wsid ws message w =
    (Ret tt,
     logged ERROR "waWSserver" "handleIncomingMessage"
       [LStr "Cannot send error response - user_id is undefined."]
       (logged ERROR "waWSserver" "handleIncomingMessage"
          [LStr "Failed to process message: "; LStr (messageOf e)] w1)).
Proof. intros H. unfold handleIncomingMessage, tryCatch. by rewrite H. Qed.

Lemma routeMessage_malformed wsid message w :
  malformed message -> exists e, routeMessage dateGetTime spawn wsid message w = (Throw e, w).
Proof.
  unfold malformed, routeMessage. destruct message as [| |data]; simpl.
  - by eexists.
  - by eexists.
  - unfold mbind, M_bind. simpl.
    destruct (r_user_id data) as [u|] eqn:Hu; [|by eexists].
    destruct (r_event data) as [ev|] eqn:Hev; [|by eexists].
    intros [H|[H|[[= ->] H]]].
    + rewrite H. by eexists.
    + rewrite H, orb_true_r. by eexists.
    + destruct (truthyStr (Some u)); simpl; [|by eexists].
      rewrite H. by eexists.
Qed.

Lemma routeMessage_no_subscription wsid data u w (b : bool) :
  r_user_id data = Some u -> u <> EmptyString -> inheritedValue (protoFlags w) u = None ->
  r_event data = Some (if b then "get_messages" else "stop_messages") ->
  subscription (wsClientMap w) wsid u = None ->
  exists msg, routeMessage dateGetTime spawn wsid (Parsed data) w = (Throw (TypeError msg), w).
Proof.
  intros Hu Hne Hval Hev Hsub. pose proof (inheritedValue_inv _ _ Hval) as Hinh.
  unfold routeMessage, parseFrame, mbind, M_bind. simpl.
  rewrite Hu, Hev. simpl.
  assert (String.eqb u EmptyString = false) as -> by by apply String.eqb_neq.
  unfold subscription in Hsub. unfold setDelivery, mbind, M_bind, get.
  destruct b; simpl; destruct (AList.lookup wsid (wsClientMap w)) as [e|];
    simpl in *; rewrite ?Hsub, ?Hinh, ?Hval; by eexists.
Qed.

(** For an inherited name there is a value to assign through: the toggle
    of a registered connection sets the flag on that value and does not
    throw. *)
Lemma routeMessage_toggle_inherited wsid data u w (b : bool) e :
  r_user_id data = Some u -> inherited u = true ->
  r_event data = Some (if b then "get_messages" else "stop_messages") ->
  AList.lookup wsid (wsClientMap w) = Some e -> userIds e !! u = None ->
  exists w1,
    routeMessage dateGetTime spawn wsid (Parsed data) w = (Ret tt, w1) /\
    protoFlags w1 = <[u := b]> (protoFlags w) /\
    wsClientMap w1 = wsClientMap w /\ wsClients w1 = wsClients w /\
    wire w1 = wire w /\ relays w1 = relays w.
Proof.
  intros Hu Hinh Hev He Hnone. unfold routeMessage, parseFrame, mbind, M_bind. simpl.
  rewrite Hu, Hev. simpl.
  assert (String.eqb u EmptyString = false) as ->.
  { apply String.eqb_neq. intros ->. discriminate Hinh. }
  unfold setDelivery, mbind, M_bind, get.
  destruct b; simpl; rewrite He, Hnone, Hinh; simpl; eexists; (split; [reflexivity|]); done.
Qed.

End Router.

(** ** After the session record is gone

    [quietFor u] relates a state without a session record for [u] to a later
    state in which there is still none and no backend call has been made
    for [u]. *)

































(** ** The challenge cap *)




(** ** What the server ever sends *)

(** What [JSON.stringify] keeps of a property that is defined. *)
Lemma field_stringified k fs v :
  prop k fs = v -> v <> JUndef -> field k (stringified (JObj fs)) = stringified v.
Proof.
  intros <- Hdef. induction fs as [|[k' x] rest IH]; [done|].
  simpl in Hdef, IH |- *. destruct (String.eqb k k') eqn:Hk.
  - destruct x; try done; simpl; by rewrite Hk.
  - destruct x; simpl; rewrite ?Hk; by apply IH.
Qed.

Lemma hasEvent_stringified names msg :
  hasEvent names msg -> hasEvent names (stringified msg).
Proof.
  intros (n & Hin & Hn). exists n. split; [done|].
  destruct msg; try done. simpl in Hn.
  by rewrite (field_stringified _ _ _ Hn).
Qed.


Lemma emits_modify K (f : World -> World) :
  (forall w, relays (f w) = relays w /\ wire (f w) = wire w) -> Pres (emits K) (modify f).
Proof.
  intros H. apply Pres_modify. intros w. destruct (H w) as [Hr Hw].
  split; exists []; by rewrite app_nil_r.
Qed.

Lemma emits_relay K u msg :
  K msg -> Pres (emits K) (modify (withRelays (fun l => l ++ [(u, msg)]))).
Proof.
  intros HK. apply Pres_modify. intros w. split.
  - exists [(u, msg)]. split; [done|]. by constructor.
  - exists []. by rewrite app_nil_r.
Qed.

Lemma emits_write K wsid msg :
  K msg -> Pres (emits K) (modify (withWire (fun l => l ++ [(wsid, stringified msg)]))).
Proof.
  intros HK. apply Pres_modify. intros w. split.
  - exists []. by rewrite app_nil_r.
  - exists [(wsid, stringified msg)]. split; [done|]. constructor; [|done]. by exists msg.
Qed.

Ltac leaf_emits0 :=
  idtac;
  lazymatch goal with
  | |- Pres (emits _) (modify (withRelays _)) => apply emits_relay; assumption
  | |- Pres (emits _) (modify (withWire _)) => apply emits_write; assumption
  | |- Pres (emits _) (modify _) => apply emits_modify; intros ?; split; reflexivity
  | |- Pres (emits _) (updateClient _ _) => apply emits_modify; intros ?; split; reflexivity
  | |- Pres (emits _) (logInfo _ _ _) => apply emits_modify; intros ?; split; reflexivity
  | |- Pres (emits _) (logDebug _ _ _) => apply emits_modify; intros ?; split; reflexivity
  | |- Pres (emits _) (logError _ _ _) => apply emits_modify; intros ?; split; reflexivity
  | |- Pres (emits _) (backend _ _ _) => unfold backend
  end.

Lemma sendMessageToClients_emits K u msg sc :
  K msg -> Pres (emits K) (sendMessageToClients u msg sc).
Proof.
  intros HK. unfold sendMessageToClients, fanOut.
  pres_struct ltac:(idtac; lazymatch goal with
    | |- Pres _ (sendToClient _ _ _) => unfold sendToClient
    | |- Pres _ (deleteSubscription _ _) => unfold deleteSubscription
    | _ => leaf_emits0 end).
Qed.

Lemma hasEvent_known_not_content msg : hasEvent knownEvents msg -> isMessageEvent msg = false.
Proof.
  intros (n & Hin & Hn). unfold isMessageEvent. rewrite Hn.
  cbn in Hin. by destruct Hin as [<-|[<-|[<-|[<-|[<-|[<-|[<-|[<-|[]]]]]]]]].
Qed.

Ltac known_tag := eexists; split; [|reflexivity]; cbn; tauto.

Ltac known_shape :=
  split; [known_tag|];
  let H := fresh in
  intros H; first [ by (vm_compute in H; discriminate H) | by eexists _, _, _, _ ].

Lemma handleWhatsAppEvent_emits u ev data :
  In ev ["qr"; "authenticated"; "ready"; "disconnected"; "error"] ->
  Pres (emits wellShaped) (handleWhatsAppEvent u ev data).
Proof.
  intros Hin. unfold handleWhatsAppEvent.
  apply Pres_bind; [typeclasses eauto | leaf_emits0 | intros _].
  cbn in Hin. destruct Hin as [<-|[<-|[<-|[<-|[<-|[]]]]]];
    apply sendMessageToClients_emits; known_shape.
Qed.

Ltac leaf_emits :=
  idtac;
  lazymatch goal with
  | |- Pres (emits _) (sendMessageToClients _ _ _) =>
      apply sendMessageToClients_emits; known_shape
  | |- Pres (emits _) (handleWhatsAppEvent _ _ _) =>
      apply handleWhatsAppEvent_emits; cbn; tauto
  | |- Pres (emits _) (getConnectedClient _) => unfold getConnectedClient
  | _ => leaf_emits0
  end.

Lemma terminateWhatsAppClient_emits u :
  Pres (emits wellShaped) (terminateWhatsAppClient u).
Proof. unfold terminateWhatsAppClient. pres_struct leaf_emits. Qed.

Lemma restartWhatsAppClient_emits u :
  Pres (emits wellShaped) (restartWhatsAppClient u).
Proof.
  unfold restartWhatsAppClient.
  pres_struct ltac:(idtac; lazymatch goal with
    | |- Pres _ (terminateWhatsAppClient _) => apply terminateWhatsAppClient_emits
    | _ => leaf_emits end).
Qed.

Lemma initializeWhatsAppClient_emits spawn u :
  Pres (emits wellShaped) (initializeWhatsAppClient spawn u).
Proof.
  unfold initializeWhatsAppClient, reuseExistingClient, createClient.
  pres_struct leaf_emits.
Qed.

Lemma listeners_emits addr :
  (forall qr, Pres (emits wellShaped) (onQr addr qr)) /\
  Pres (emits wellShaped) (onAuthenticated addr) /\
  Pres (emits wellShaped) (onReady addr) /\
  (forall msg, Pres (emits wellShaped) (onMessage addr msg)) /\
  (forall reason, Pres (emits wellShaped) (onDisconnected addr reason)) /\
  (forall e, Pres (emits wellShaped) (onError addr e)).
Proof.
  split; [|split; [|split; [|split; [|split]]]]; intros;
    unfold onQr, onAuthenticated, onReady, onMessage, onDisconnected, onError;
    pres_struct ltac:(idtac; lazymatch goal with
      | |- Pres _ (terminateWhatsAppClient _) => apply terminateWhatsAppClient_emits
      | |- Pres _ (restartWhatsAppClient _) => apply restartWhatsAppClient_emits
      | _ => leaf_emits end).
Qed.

Lemma fetchLoop_emits u chat st limits :
  Pres (emits wellShaped) (fetchLoop u chat st limits).
Proof.
  induction limits as [|limit rest IH]; cbn [fetchLoop].
  - apply Pres_ret. typeclasses eauto.
  - pres_struct ltac:(idtac; lazymatch goal with
      | |- Pres _ (fetchLoop _ _ _ _) => apply IH
      | _ => leaf_emits end).
Qed.

Lemma handleClientRequest_emits dateGetTime spawn u req :
  Pres (emits wellShaped) (handleClientRequest dateGetTime spawn u req).
Proof.
  unfold handleClientRequest, getWhatsAppGroups, getGroupMessages, UserSendMessage,
    enableReceivingMessages.
  pres_struct ltac:(idtac; lazymatch goal with
    | |- Pres _ (initializeWhatsAppClient _ _) => apply initializeWhatsAppClient_emits
    | |- Pres _ (fetchLoop _ _ _ _) => apply fetchLoop_emits
    | _ => leaf_emits end).
Qed.

Lemma handleIncomingMessage_emits dateGetTime spawn wsid ws message :
  Pres (emits wellShaped)
    (handleIncomingMessage dateGetTime spawn wsid ws message).
Proof.
  unfold handleIncomingMessage, dataInCatchScope, routeMessage, parseFrame.
  pres_struct ltac:(idtac; lazymatch goal with
    | |- Pres _ (handleClientRequest _ _ _ _) => apply handleClientRequest_emits
    | |- Pres _ (setDelivery _ _ _) => unfold setDelivery
    | |- Pres _ (deleteSubscription _ _) => unfold deleteSubscription
    | _ => leaf_emits end).
Qed.

Lemma handle_emits dateGetTime spawn ev :
  Pres (emits wellShaped) (handle dateGetTime spawn ev).
Proof.
  destruct ev as [wsid ws|wsid msg|wsid|wsid st|addr qr|addr|addr|addr msg|addr reason
                 |addr e|addr b|v]; simpl handle.
  - pres_struct leaf_emits.
  - pres_struct ltac:(idtac; lazymatch goal with
      | |- Pres _ (handleIncomingMessage _ _ _ _ _) => apply handleIncomingMessage_emits
      | _ => leaf_emits end).
  - unfold handleClientDisconnection. pres_struct leaf_emits.
  - pres_struct leaf_emits.
  - by destruct (listeners_emits addr) as (H & _).
  - by destruct (listeners_emits addr) as (_ & H & _).
  - by destruct (listeners_emits addr) as (_ & _ & H & _).
  - by destruct (listeners_emits addr) as (_ & _ & _ & H & _).
  - by destruct (listeners_emits addr) as (_ & _ & _ & _ & H & _).
  - by destruct (listeners_emits addr) as (_ & _ & _ & _ & _ & H).
  - pres_struct leaf_emits.
  - pres_struct ltac:(idtac; lazymatch goal with
      | |- Pres _ (initializeWhatsAppClient _ _) => apply initializeWhatsAppClient_emits
      | _ => leaf_emits end).
Qed.

Lemma run_emits dateGetTime spawn evs : forall w,
  emits wellShaped w (run dateGetTime spawn w evs).
Proof.
  induction evs as [|ev evs IH]; intros w; [apply frame_refl|].
  eapply frame_trans; [apply (handle_emits dateGetTime spawn ev w)|].
  apply (IH (step dateGetTime spawn w ev)).
Qed.


(** ** The QR count of a client object

    Whatever is handled, a client object stays at its address with its user
    and its count of QR events; only its own [qr] listener raises the
    count. *)





















(** * The claims *)

(** ** History retrieval *)

(** Without a start time no batch is ever accepted. *)
Lemma oldestPrecedes_no_start messages : oldestPrecedes None messages = false.
Proof. by destruct messages. Qed.

Lemma outcome_backend {A} u c (r : Res A) w :
  outcome (backend u c r) w = match r with Ok a => Ret a | Fails e => Throw e end.
Proof. unfold outcome, backend. cbv beta iota delta [mbind M_bind modify]. by destruct r. Qed.

Lemma exec_backend {A} u c (r : Res A) w :
  exec (backend u c r) w = withCalls (fun l => l ++ [(u, c)]) w.
Proof. unfold exec, backend. cbv beta iota delta [mbind M_bind modify]. by destruct r. Qed.

(** When every fetch succeeds and none is accepted, the loop ends with the
    empty batch: nothing of what was fetched is kept. *)
Lemma fetchLoop_rejects u chat st limits : forall w,
  (forall limit, In limit limits ->
     exists ms, fetchMessages chat limit = Ok ms /\ oldestPrecedes st ms = false) ->
  outcome (fetchLoop u chat st limits) w = Ret ([], false).
Proof.
  induction limits as [|limit rest IH]; intros w Hall; [done|].
  destruct (Hall limit (or_introl eq_refl)) as (ms & Hms & Hrej).
  cbn [fetchLoop]. rewrite outcome_bind, outcome_backend, exec_backend, Hms.
  cbv beta iota. rewrite Hrej. apply IH. intros l Hl. apply Hall. by right.
Qed.

(** C1. The claim is that, when no fetch surfaces a message older than the
    start time, the largest batch fetched is the accepted batch. The code
    keeps the empty batch: for a group whose three messages all lie after the
    requested start, every fetch returns the three messages, none is
    accepted, and the [group_messages] relay carries an empty list although
    the three fetched messages all lie in the requested window. The case is
    logged at debug level and no error is relayed, as the claim says. *)
Theorem history_fallback_relays_empty_batch :
  let start := Some "1970-01-01T00:02:30.000Z" in
  let history := [msgAt 200; msgAt 300; msgAt 400] in
  let w' := exec (getGroupMessages parseIso "u1" (Some "g1") start None)
              (demoWorld "CONNECTED" history) in
  map (fetchMessages (chatOf history)) fetchLimits = [Ok history; Ok history; Ok history] /\
  oldestPrecedes (timestampOf parseIso start) history = false /\
  filterAndSort history (timestampOf parseIso start) None = history /\
  relays w' = [("u1", groupMessagesRelay "u1" (Some "g1") start [])] /\
  wire w' = [("ws1", groupMessagesRelay "u1" (Some "g1") start [])] /\
  In {| lg_level := DEBUG; lg_module := "waLogic"; lg_function := "getGroupMessages";
        lg_message := [LStr "Unable to fetch messages older than the start time."] |}
     (logs w').
Proof. vm_compute. repeat split; try reflexivity. tauto. Qed.

(** C4. The claim is that the relayed list holds exactly the messages of the
    accepted batch inside [startTime, endTime]. The code tests a bound with
    [!bound], so an end bound whose time value is 0 (the epoch) is treated as
    absent: with the batch at 100, 200, 300 and 400 seconds, a start at
    150000 ms and an end at 0 ms, the window is empty, yet the messages at
    200, 300 and 400 seconds are relayed. For bounds different from 0 the
    claim holds: lemma [filterAndSort_window]. *)
Theorem history_window_epoch_bound_ignored :
  let start := Some "1970-01-01T00:02:30.000Z" in
  let stop := Some "1970-01-01T00:00:00.000Z" in
  let batch := [msgAt 100; msgAt 200; msgAt 300; msgAt 400] in
  let w' := exec (getGroupMessages parseIso "u1" (Some "g1") start stop)
              (demoWorld "CONNECTED" batch) in
  timestampOf parseIso start = boundOf (Some 150000%Z) /\
  timestampOf parseIso stop = boundOf (Some 0%Z) /\
  List.filter (fun msg => bool_decide (150000 <= msgTimestamp msg <= 0)%Z) batch = [] /\
  filterAndSort batch (boundOf (Some 150000%Z)) (boundOf (Some 0%Z)) =
    [msgAt 200; msgAt 300; msgAt 400] /\
  relays w' = [("u1", groupMessagesRelay "u1" (Some "g1") start
                        [msgAt 200; msgAt 300; msgAt 400])].
Proof. vm_compute. repeat split; reflexivity. Qed.

(** ** The request router *)

(** C2. The claim is that a malformed frame that carries the user identifier
    is answered with an [error] relay. The [catch] block tests
    [typeof data !== 'undefined'], but [data] is declared inside the [try]
    block and is not in scope there: for every malformed frame the handler
    returns normally, the connection stays registered and the registry is
    unchanged (that much of the claim holds), and nothing is relayed or
    written to any connection. *)
Theorem malformed_frame_gets_no_error_relay dateGetTime spawn wsid ws message w :
  malformed message ->
  let w' := exec (handleIncomingMessage dateGetTime spawn wsid ws message) w in
  outcome (handleIncomingMessage dateGetTime spawn wsid ws message) w = Ret tt /\
  wsClients w' = wsClients w /\ wsClientMap w' = wsClientMap w /\
  wire w' = wire w /\ relays w' = relays w.
Proof.
  intros Hmal. destruct (routeMessage_malformed dateGetTime spawn wsid message w Hmal)
    as [e He].
  pose proof (handleIncomingMessage_caught dateGetTime spawn wsid ws message w e w He) as Hrun.
  simpl. by rewrite (outcome_eq _ _ _ _ Hrun), (exec_eq _ _ _ _ Hrun).
Qed.

Lemma malformed_frame_gets_no_error_relay_witness :
  malformed (Parsed frameWithoutEvent) /\
  In "ws1" (subscribers (protoFlags (demoWorld "CONNECTED" []))
              (wsClientMap (demoWorld "CONNECTED" [])) "u1") /\
  isOpen (demoWorld "CONNECTED" []) "ws1" = true /\
  wire (exec (handleIncomingMessage parseIso spawnDemo "ws1" {| readyState := OPEN |}
                (Parsed frameWithoutEvent)) (demoWorld "CONNECTED" [])) = [].
Proof.
  assert (Hmal : malformed (Parsed frameWithoutEvent)) by (right; left; reflexivity).
  split; [exact Hmal|]. split; [vm_compute; tauto|]. split; [reflexivity|].
  exact (proj1 (proj2 (proj2 (proj2
    (malformed_frame_gets_no_error_relay parseIso spawnDemo "ws1" {| readyState := OPEN |}
       (Parsed frameWithoutEvent) (demoWorld "CONNECTED" []) Hmal))))).
Defined.

(** C10. The claim is that a [get_messages] or [stop_messages] frame for a
    pair without a subscription throws inside the handler and changes no
    delivery flag. The registry is a plain object, so for the user identity
    [constructor] the read [userIds[userId]] yields the function that every
    object inherits: the assignment of line 72 succeeds on it. On the
    connection [ws1], which holds no subscription to [constructor], the
    frame is routed without an exception, no record is created, and the
    flag ends up on the inherited function, where it counts for every
    connection: a content message for [constructor], sent to nobody before
    the frame, goes to [ws1] after it. *)
Theorem toggle_for_inherited_name_is_not_caught :
  let w := demoWorld "CONNECTED" [] in
  let frame := Parsed (toggleFrame "constructor" true) in
  let w' := step parseIso spawnDemo w (WsMessage "ws1" frame) in
  let note := JObj [("event", JStr "message"); ("userid", JStr "constructor")] in
  subscription (wsClientMap w) "ws1" "constructor" = None /\
  outcome (routeMessage parseIso spawnDemo "ws1" frame) w = Ret tt /\
  wsClientMap w' = wsClientMap w /\
  protoFlags w !! "constructor" = None /\
  protoFlags w' !! "constructor" = Some true /\
  resolveTargets (protoFlags w) (wsClientMap w) "constructor" note None = Ok [] /\
  resolveTargets (protoFlags w') (wsClientMap w') "constructor" note None = Ok ["ws1"] /\
  wire (exec (sendMessageToClients "constructor" note None) w) = [] /\
  wire (exec (sendMessageToClients "constructor" note None) w') = [("ws1", note)].
Proof. vm_compute. repeat split; reflexivity. Qed.

(** C9. The claim is that an [initiate] request creates the subscription of
    the pair when there is none. The test of line 65,
    [!wsClientMap[wsid].userIds[userId]], is a presence test on a plain
    object: for the user identity [constructor] it sees the inherited
    function and creates nothing. On the connection [ws1] the request for
    [constructor] leaves the registry as it is, although the session is
    started; the same request for [u2] creates the record with the delivery
    flag off. *)
Theorem initiate_for_inherited_name_creates_no_subscription :
  let w := demoWorld "CONNECTED" [] in
  let w1 := step parseIso spawnDemo w
              (WsMessage "ws1" (Parsed (requestFor "initiate" "constructor"))) in
  let w2 := step parseIso spawnDemo w (WsMessage "ws1" (Parsed (requestFor "initiate" "u2"))) in
  subscription (wsClientMap w) "ws1" "constructor" = None /\
  subscription (wsClientMap w1) "ws1" "constructor" = None /\
  wsClientMap w1 = wsClientMap w /\
  callsFor "constructor" w1 =
    [("constructor", CallNewClient); ("constructor", CallInitialize);
     ("constructor", CallGetState)] /\
  subscription (wsClientMap w) "ws1" "u2" = None /\
  subscription (wsClientMap w2) "ws1" "u2" = Some {| sendMessages := false |}.
Proof. vm_compute. repeat split; reflexivity. Qed.

(** ** The relay *)

Lemma handleWhatsAppEvent_message_run u msg w :
  exists ts,
    resolveTargets (protoFlags w) (wsClientMap w) u
      (JObj [("event", JStr "message"); ("userid", JStr u); ("message", parsedMessage msg)])
      None = Ok ts /\
    relays (exec (handleWhatsAppEvent u "message" (DMsg msg)) w) =
      relays w ++ [(u, JObj [("event", JStr "message"); ("userid", JStr u);
                             ("message", parsedMessage msg)])] /\
    wire (exec (handleWhatsAppEvent u "message" (DMsg msg)) w) =
      wire w ++
      map (fun t => (t, JObj [("event", JStr "message"); ("userid", JStr u);
                              ("message", stringified (parsedMessage msg))]))
        (List.filter (isOpen w) ts).
Proof.
  unfold handleWhatsAppEvent. rewrite exec_logDebug_bind.
  change (String.eqb "message" "qr") with false.
  change (String.eqb "message" "authenticated") with false.
  change (String.eqb "message" "ready") with false.
  change (String.eqb "message" "disconnected") with false.
  change (String.eqb "message" "error") with false.
  change (String.eqb "message" "message") with true. cbv beta iota.
  match goal with |- context [sendMessageToClients u ?m None] =>
    destruct (sendMessageToClients_run u m
                (logged DEBUG "waIntegration" "handleWhatsAppEvent"
                   [LStr "Event received: "; LStr "message"; LStr " for userId "; LStr u] w))
      as (ts & w' & Hres & Hrun & Hrel & Hwire)
  end.
  exists ts. split; [exact Hres|]. rewrite (exec_eq _ _ _ _ Hrun). split; [exact Hrel|].
  exact Hwire.
Qed.

Lemma historyPayload_written msg :
  stringified (historyPayload msg) =
  JObj [ ("id", JStr (m_id msg)); ("timestamp", JNum (m_timestamp msg * 1000));
         ("sender", JStr (match orStr (m_author msg) (Some (m_from msg)) with
                          | Some s => s | None => m_from msg end));
         ("body", JStr (m_body msg)); ("type", JStr (m_type msg));
         ("reply", strOrNull (m_quotedMsgId msg)) ].
Proof.
  unfold historyPayload, orStr, msgTimestamp.
  destruct (m_author msg) as [a|]; simpl.
  - destruct (String.eqb a EmptyString); simpl;
      destruct (m_quotedMsgId msg) as [q|]; simpl; try done;
      by destruct (String.eqb q EmptyString).
  - destruct (m_quotedMsgId msg) as [q|]; simpl; try done.
    by destruct (String.eqb q EmptyString).
Qed.

Lemma groupMessages_written u groupId startTime kept :
  field "messages" (stringified (groupMessagesRelay u groupId startTime kept)) =
  JArr (map (fun msg => stringified (historyPayload msg)) kept).
Proof.
  unfold groupMessagesRelay.
  rewrite (field_stringified "messages" _ (JArr (map historyPayload kept))); [|done|done].
  change (stringified (JArr (map historyPayload kept))) with
    (JArr (map (fun x => match x with JUndef => JNull | _ => stringified x end)
             (map historyPayload kept))).
  f_equal. rewrite map_map. by apply map_ext.
Qed.

(** C3. The claim names the optional quoted-message field [replyToId]; the
    code names it [reply]. What holds of the frames that are written, over
    every sequence of events: a frame tagged [group_messages] carries as
    [messages] the written form of the entries that [getGroupMessages]
    builds, and such an entry has exactly the keys id, timestamp, sender,
    body, type, reply, its timestamp being the backend's one in seconds
    times 1000 and its [reply] the quoted message id or [null]. For a
    [message] event [handleWhatsAppEvent] writes, to each connection it
    resolves whose socket is open, a payload with the keys id, timestamp,
    from, body, type, reply, and with isGroups and sender when the backend
    message defines them. No payload has a key [replyToId]. *)
Theorem content_payload_keys dateGetTime spawn (evs : list Event) (w : World) :
  (exists written,
     wire (run dateGetTime spawn w evs) = wire w ++ written /\
     forall wsid frame, In (wsid, frame) written ->
       field "event" frame = JStr "group_messages" ->
       exists kept,
         field "messages" frame = JArr (map (fun msg => stringified (historyPayload msg)) kept)) /\
  (forall msg,
     keys (stringified (historyPayload msg)) =
       ["id"; "timestamp"; "sender"; "body"; "type"; "reply"] /\
     field "timestamp" (stringified (historyPayload msg)) = JNum (m_timestamp msg * 1000) /\
     field "reply" (stringified (historyPayload msg)) = strOrNull (m_quotedMsgId msg) /\
     field "replyToId" (stringified (historyPayload msg)) = JUndef) /\
  (forall u msg w0, exists targets,
     resolveTargets (protoFlags w0) (wsClientMap w0) u
       (JObj [("event", JStr "message"); ("userid", JStr u); ("message", parsedMessage msg)])
       None = Ok targets /\
     wire (exec (handleWhatsAppEvent u "message" (DMsg msg)) w0) =
       wire w0 ++
       map (fun t => (t, JObj [("event", JStr "message"); ("userid", JStr u);
                               ("message", stringified (parsedMessage msg))]))
         (List.filter (isOpen w0) targets)) /\
  (forall msg,
     keys (stringified (parsedMessage msg)) =
       ["id"] ++ match m_isGroupMsg msg with Some _ => ["isGroups"] | None => [] end ++
       ["timestamp"] ++ match m_author msg with Some _ => ["sender"] | None => [] end ++
       ["from"; "body"; "type"; "reply"] /\
     field "timestamp" (stringified (parsedMessage msg)) = JNum (m_timestamp msg * 1000) /\
     field "reply" (stringified (parsedMessage msg)) = strOrNull (m_quotedMsgId msg) /\
     field "replyToId" (stringified (parsedMessage msg)) = JUndef).
Proof.
  split; [|split; [|split]].
  - destruct (run_emits dateGetTime spawn evs w) as [_ (wl & Hw & Fw)].
    exists wl. split; [exact Hw|]. intros wsid frame Hin Hev.
    rewrite List.Forall_forall in Fw. destruct (Fw _ Hin) as (msg & Hfr & [Hknown Hshape]).
    simpl in Hfr. subst frame.
    assert (Htag : field "event" msg = JStr "group_messages").
    { destruct Hknown as (n & _ & Hn). destruct msg; try done. simpl in Hn.
      rewrite (field_stringified _ _ _ Hn) in Hev by done.
      change (stringified (JStr n)) with (JStr n) in Hev. simpl. congruence. }
    destruct (Hshape Htag) as (u & gid & st & kept & ->).
    exists kept. apply groupMessages_written.
  - intros msg. rewrite historyPayload_written. by repeat split.
  - intros u msg w0.
    destruct (handleWhatsAppEvent_message_run u msg w0) as (ts & Hres & _ & H).
    by exists ts.
  - intros msg. unfold parsedMessage, msgTimestamp.
    destruct (m_isGroupMsg msg), (m_author msg), (m_quotedMsgId msg) as [q|]; simpl;
      repeat split; try done; by destruct (String.eqb q EmptyString).
Qed.

Lemma content_payload_not_replyToId :
  let w' := step parseIso spawnDemo (demoWorld "CONNECTED" [msgAt 100; replyMsg])
              (WsMessage "ws1" (Parsed historyFrame)) in
  exists frame entry,
    wire w' = [("ws1", frame)] /\
    field "event" frame = JStr "group_messages" /\
    field "messages" frame = JArr [entry] /\
    keys entry = ["id"; "timestamp"; "sender"; "body"; "type"; "reply"] /\
    field "reply" entry = JStr "msg" /\
    field "replyToId" entry = JUndef /\
    ~ conformsTo normalizedSchema entry.
Proof.
  eexists _, _. split; [vm_compute; reflexivity|].
  split; [reflexivity|]. split; [reflexivity|]. split; [reflexivity|].
  split; [reflexivity|]. split; [reflexivity|].
  intros H. specialize (H "reply"). simpl in H.
  destruct H as [H|[H|[H|[H|[H|[H|[]]]]]]]; [tauto | discriminate H..].
Qed.

(** C5. The claim is that target resolution returns the connections that
    hold a subscription to the user. The filter of line 142 tests
    [wsClientMap[wsid].userIds[userId]] for truthiness on a plain object,
    which for the user identity [constructor] is the function that every
    object inherits. With two connections, of which [ws2] has sent
    [initiate] for [constructor] (which created no record) and [ws1] has
    never named that user, no connection holds a subscription to
    [constructor], yet the resolved connections are both, and the QR code
    of that session is written to both. *)
Theorem inherited_name_resolves_to_every_connection :
  let w := run parseIso spawnDemo (demoWorld "CONNECTED" [])
             [WsConnection "ws2" {| readyState := OPEN |};
              WsMessage "ws2" (Parsed (requestFor "initiate" "constructor"))] in
  let code := JObj [("event", JStr "qr"); ("userid", JStr "constructor");
                    ("qr_code", JStr "code")] in
  AList.keys (wsClientMap w) = ["ws1"; "ws2"] /\
  subscription (wsClientMap w) "ws1" "constructor" = None /\
  subscription (wsClientMap w) "ws2" "constructor" = None /\
  subscription (wsClientMap w) "ws1" "u1" = Some {| sendMessages := false |} /\
  resolveTargets (protoFlags w) (wsClientMap w) "u1" code None = Ok ["ws1"] /\
  resolveTargets (protoFlags w) (wsClientMap w) "constructor" code None = Ok ["ws1"; "ws2"] /\
  wire w = [] /\
  wire (step parseIso spawnDemo w (ClientQr 1 "code")) = [("ws1", code); ("ws2", code)].
Proof. vm_compute. repeat split; reflexivity. Qed.

(** ** Sending *)

(** C7. Without a ready session a [send_message] request relays one
    [error] to the subscribers of the user: the relay is called once, each
    subscribed connection whose socket is open is written that one message,
    and the backend's send primitive is not called. *)
Theorem send_without_ready_session (u : string) (recipient msg : Field) (w : World) :
  ~ readySession w u ->
  let w' := exec (UserSendMessage u recipient msg) w in
  outcome (UserSendMessage u recipient msg) w = Ret tt /\
  relays w' = relays w ++ [(u, errorRelay u "WhatsApp client not connected")] /\
  wire w' = wire w ++
    map (fun wsid => (wsid, errorRelay u "WhatsApp client not connected"))
      (List.filter (isOpen w) (subscribers (protoFlags w) (wsClientMap w) u)) /\
  List.filter isSendCall (calls w') = List.filter isSendCall (calls w).
Proof.
  intros Hnot.
  destruct (UserSendMessage_unavailable u recipient msg w Hnot)
    as (w' & Hrun & Hrel & Hwire & Hcalls).
  simpl. rewrite (outcome_eq _ _ _ _ Hrun), (exec_eq _ _ _ _ Hrun).
  split; [done|]. split; [done|]. split; [done|].
  destruct Hcalls as [->| ->]; [done | apply filter_isSendCall_getState].
Qed.

Lemma send_without_ready_session_witness :
  ~ readySession (demoWorld "OPENING" []) "u1" /\
  wire (exec (UserSendMessage "u1" (FText "0501234567") (FText "hi")) (demoWorld "OPENING" []))
  = [("ws1", errorRelay "u1" "WhatsApp client not connected")].
Proof.
  assert (H : ~ readySession (demoWorld "OPENING" []) "u1").
  { intros (addr & c & Hc & Hs). vm_compute in Hc. injection Hc as <- <-. discriminate Hs. }
  split; [exact H|].
  exact (proj1 (proj2 (proj2
    (send_without_ready_session "u1" (FText "0501234567") (FText "hi")
       (demoWorld "OPENING" []) H)))).
Defined.

(** C8. Canonicalization of the recipient: a bare numeric text that starts
    with 972 only gets the domain suffix; one that starts with 0 has the 0
    replaced by 972 and gets the suffix; a text that is not bare numeric is
    used as it is; and what [UserSendMessage] hands to the backend's send
    primitive is this canonical recipient. *)
Theorem recipient_canonicalization :
  (forall r, bareNumeric r -> String.prefix "972" r = true ->
     recipientIdOf r = r +:+ "@c.us") /\
  (forall rest, bareNumeric (String "0"%char rest) ->
     recipientIdOf (String "0"%char rest) = "972" +:+ rest +:+ "@c.us") /\
  recipientIdOf "0501234567" = "972501234567@c.us" /\
  (forall r, ~ bareNumeric r -> recipientIdOf r = r) /\
  (forall w u addr c r msg,
     clientOf w u = Some (addr, c) -> getState (c_backend c) = Ok "CONNECTED" ->
     calls (exec (UserSendMessage u (FText r) (ofText msg)) w) =
       calls w ++ [(u, CallGetState);
                   (u, CallSendMessage (FText (recipientIdOf r)) (ofText msg))]).
Proof.
  split; [|split; [|split; [|split]]].
  - intros r Hr Hp. unfold recipientIdOf, convertPhoneNumberToWaId.
    by rewrite (proj2 (isBarePhone_spec r) Hr), Hp.
  - intros rest Hr. unfold recipientIdOf.
    rewrite (proj2 (isBarePhone_spec _) Hr). apply convert_trunk_prefix.
  - reflexivity.
  - intros r Hr. unfold recipientIdOf. by rewrite isBarePhone_false.
  - intros w u addr c r msg. apply UserSendMessage_calls.
Qed.

Lemma recipient_canonicalization_witness :
  bareNumeric "972501234567" /\
  recipientIdOf "972501234567" = "972501234567@c.us" /\
  ~ bareNumeric "120363041234567890@g.us" /\
  recipientIdOf "120363041234567890@g.us" = "120363041234567890@g.us".
Proof.
  assert (H1 : bareNumeric "972501234567") by (by apply isBarePhone_spec).
  assert (H2 : ~ bareNumeric "120363041234567890@g.us").
  { intros H. apply isBarePhone_spec in H. discriminate H. }
  split; [exact H1|]. split.
  - exact (proj1 recipient_canonicalization "972501234567" H1 eq_refl).
  - split; [exact H2|].
    exact (proj1 (proj2 (proj2 (proj2 recipient_canonicalization))) _ H2).
Defined.

(** ** The challenge cap *)




(** * Further properties of the code *)

(** ** [waLogic.js]: sorting and the fetch loop *)

Lemma filter_insertByTimestamp t msg l :
  List.filter (fun m => (m_timestamp m =? t)%Z) (insertByTimestamp msg l) =
  List.filter (fun m => (m_timestamp m =? t)%Z) (msg :: l).
Proof.
  induction l as [|x l IH]; [done|]. cbn [insertByTimestamp].
  destruct (m_timestamp msg <=? m_timestamp x)%Z eqn:Hle; [done|].
  apply Z.leb_gt in Hle. cbn [List.filter] in *. rewrite IH.
  destruct (m_timestamp msg =? t)%Z eqn:Hm; [|done].
  apply Z.eqb_eq in Hm.
  assert ((m_timestamp x =? t)%Z = false) as -> by (apply Z.eqb_neq; lia). done.
Qed.

(** X1. The sort of the history is a stable sort: the result holds the same
    messages, in ascending order of time stamp, and the messages of one and
    the same second keep the order in which they were fetched. *)
Theorem sortByTimestamp_stable (l : list Msg) :
  Permutation (sortByTimestamp l) l /\
  ascending (sortByTimestamp l) /\
  forall t, List.filter (fun m => (m_timestamp m =? t)%Z) (sortByTimestamp l) =
            List.filter (fun m => (m_timestamp m =? t)%Z) l.
Proof.
  split; [apply sortByTimestamp_perm|]. split; [apply sortByTimestamp_ascending|].
  intros t. induction l as [|x l IH]; [done|].
  change (sortByTimestamp (x :: l)) with (insertByTimestamp x (sortByTimestamp l)).
  rewrite filter_insertByTimestamp. cbn [List.filter]. by rewrite IH.
Qed.


(** ** [waLogic.js]: the canonical recipient *)

Lemma allDigits_app_suffix d : allDigits (d +:+ "@c.us") = false.
Proof.
  induction d as [|c d IH]; [done|]. simpl. by rewrite IH, andb_false_r.
Qed.

Lemma recipientIdOf_suffix r :
  isBarePhone r = true ->
  exists d, recipientIdOf r = d +:+ "@c.us" /\ allDigits d = true.
Proof.
  intros Hr. unfold recipientIdOf, convertPhoneNumberToWaId. rewrite Hr.
  assert (Hd : allDigits r = true).
  { unfold isBarePhone in Hr. by apply andb_true_iff in Hr as [_ ?]. }
  destruct (String.prefix "972" r); [by exists r|].
  destruct (String.prefix "0" r) eqn:H0; [|by exists r].
  exists ("972" +:+ slice1 r). split; [done|].
  destruct r as [|c r]; [done|]. cbn [slice1].
  cbn [allDigits] in Hd. apply andb_true_iff in Hd as [_ Hd].
  simpl. exact Hd.
Qed.

(** X2. Every bare numeric recipient is sent to digits followed by the
    suffix [@c.us] (also one that starts with neither 972 nor 0), and the
    canonical form is stable: canonicalizing it again changes nothing. *)
Theorem recipientIdOf_idempotent :
  (forall r, bareNumeric r ->
     exists d, recipientIdOf r = d +:+ "@c.us" /\ allDigits d = true) /\
  (forall r, recipientIdOf (recipientIdOf r) = recipientIdOf r).
Proof.
  split.
  - intros r Hr. apply recipientIdOf_suffix. by apply isBarePhone_spec.
  - intros r. destruct (isBarePhone r) eqn:Hr.
    + destruct (recipientIdOf_suffix r Hr) as (d & -> & _).
      unfold recipientIdOf at 1, isBarePhone.
      by rewrite allDigits_app_suffix, andb_false_r.
    + unfold recipientIdOf. by rewrite Hr, Hr.
Qed.

Lemma recipientIdOf_idempotent_witness :
  bareNumeric "4915112345678" /\
  recipientIdOf "4915112345678" = "4915112345678@c.us" /\
  recipientIdOf (recipientIdOf "4915112345678") = recipientIdOf "4915112345678".
Proof.
  assert (H : bareNumeric "4915112345678") by (by apply isBarePhone_spec).
  split; [exact H|]. split; [reflexivity|].
  exact (proj2 recipientIdOf_idempotent "4915112345678").
Defined.

(** ** Requests are answered once *)

Ltac leaf_unf :=
  idtac;
  lazymatch goal with
  | |- Pres _ (backend _ _ _) => unfold backend
  | |- Pres _ (getConnectedClient _) => unfold getConnectedClient
  | |- Pres _ (updateClient _ _) => unfold updateClient
  | _ => leaf_proj
  end.

Lemma fetchLoop_relays u chat st limits : Pres (same relays) (fetchLoop u chat st limits).
Proof.
  induction limits as [|limit rest IH]; cbn [fetchLoop].
  - apply Pres_ret. typeclasses eauto.
  - pres_struct ltac:(idtac; lazymatch goal with
      | |- Pres _ (fetchLoop _ _ _ _) => apply IH
      | _ => leaf_unf end).
Qed.

Lemma getConnectedClient_silent u : silent (getConnectedClient u).
Proof.
  intros w. unfold getConnectedClient, outcome, exec.
  cbv beta iota delta [mbind M_bind get].
  destruct (clientOf w u) as [[addr c]|]; [|by eexists].
  unfold tryCatch, backend. cbv beta iota delta [mbind M_bind modify].
  destruct (getState (c_backend c)) as [state|e]; [|by eexists].
  cbv beta iota delta [mret M_ret].
  destruct (negb (String.eqb state "CONNECTED")); by eexists.
Qed.

Lemma tor_throw u K {A} e : throwsOrReplies u K (@throw A e).
Proof. intros w. left. by exists e. Qed.

Lemma tor_bind u K {A B} (m : M A) (f : A -> M B) :
  Pres (same relays) m -> (forall a, throwsOrReplies u K (f a)) ->
  throwsOrReplies u K (m ≫= f).
Proof.
  intros Hm Hf w. rewrite exec_bind, outcome_bind.
  pose proof (Hm w) as Hw. unfold same in Hw.
  destruct (outcome m w) as [a|e]; [|left; by exists e].
  destruct (Hf a (exec m w)) as [(e & Ho & Hr)|(b & msg & Ho & Hr & HK)].
  - left. exists e. by rewrite Ho, Hr.
  - right. exists b, msg. by rewrite Ho, Hr, Hw.
Qed.

Lemma ro_send u K msg : K msg -> repliesOnce u K (sendMessageToClients u msg None).
Proof.
  intros HK w. destruct (sendMessageToClients_run u msg w) as (ts & w' & _ & Hrun & Hrel & _).
  exists tt, msg. by rewrite (outcome_eq _ _ _ _ Hrun), (exec_eq _ _ _ _ Hrun).
Qed.

Lemma ro_bind_silent u K {A B} (m : M A) (f : A -> M B) :
  silent m -> (forall a, repliesOnce u K (f a)) -> repliesOnce u K (m ≫= f).
Proof.
  intros Hm Hf w. rewrite exec_bind, outcome_bind.
  destruct (Hm w) as (a & Ho & Hr). rewrite Ho.
  destruct (Hf a (exec m w)) as (b & msg & Ho' & Hr' & HK).
  exists b, msg. by rewrite Ho', Hr', Hr.
Qed.

Lemma ro_then_silent u K {A B} (m : M A) (f : A -> M B) :
  repliesOnce u K m -> (forall a, silent (f a)) -> repliesOnce u K (m ≫= f).
Proof.
  intros Hm Hf w. rewrite exec_bind, outcome_bind.
  destruct (Hm w) as (a & msg & Ho & Hr & HK). rewrite Ho.
  destruct (Hf a (exec m w)) as (b & Ho' & Hr').
  exists b, msg. by rewrite Ho', Hr', Hr.
Qed.

Lemma silent_log lv a b c : silent (logAt lv a b c).
Proof. intros w. by exists tt. Qed.

Lemma tor_of_ro u K {A} (m : M A) : repliesOnce u K m -> throwsOrReplies u K m.
Proof. intros H w. right. apply H. Qed.

Lemma ro_tryCatch u K {A} (body : M A) (h : exn -> M A) :
  throwsOrReplies u K body -> (forall e, repliesOnce u K (h e)) ->
  repliesOnce u K (tryCatch body h).
Proof.
  intros Hb Hh w. rewrite exec_tryCatch, outcome_tryCatch.
  destruct (Hb w) as [(e & Ho & Hr)|(a & msg & Ho & Hr & HK)]; rewrite Ho.
  - destruct (Hh e (exec body w)) as (a & msg & Ho' & Hr' & HK).
    exists a, msg. by rewrite Ho', Hr', Hr.
  - by exists a, msg.
Qed.

Lemma hasEvent_error u text names : In "error" names -> hasEvent names (errorRelay u text).
Proof. intros H. by exists "error". Qed.

(** The [catch] blocks of [waLogic.js]: a log line, then the error relay. *)
Lemma ro_error_handler u names a b c text :
  In "error" names ->
  repliesOnce u (hasEvent names)
    (logError a b c ≫= fun _ => sendMessageToClients u (errorRelay u text) None).
Proof.
  intros Hin. apply ro_bind_silent; [apply silent_log|].
  intros _. apply ro_send. by apply hasEvent_error.
Qed.

Ltac tor_struct :=
  repeat first
    [ lazymatch goal with
      | |- throwsOrReplies _ _ (throw _) => apply tor_throw
      | |- throwsOrReplies _ _ (mbind _ (sendMessageToClients _ _ _)) =>
          apply tor_of_ro, ro_then_silent;
          [apply ro_send | intros ?; apply silent_log]
      | |- throwsOrReplies _ _ (sendMessageToClients _ _ _) =>
          apply tor_of_ro, ro_send
      | |- throwsOrReplies _ _ (mbind _ _) =>
          apply tor_bind;
          [pres_struct ltac:(idtac; lazymatch goal with
             | |- Pres _ (fetchLoop _ _ _ _) => apply fetchLoop_relays
             | _ => leaf_unf end)
          | intros ?]
      | |- throwsOrReplies _ _ (if ?b then _ else _) => destruct b eqn:?
      | |- throwsOrReplies _ _ (match ?x with _ => _ end) => destruct x eqn:?
      end
    | progress cbv beta iota zeta ].

(** X3. A history request is answered exactly once, whatever the backend
    does: [getGroupMessages] returns normally after one call of the relay,
    for the requesting user, with a [group_messages] or an [error]
    message. *)
Theorem getGroupMessages_answers_once dateGetTime u groupId startTime endTime :
  repliesOnce u (hasEvent ["group_messages"; "error"])
    (getGroupMessages dateGetTime u groupId startTime endTime).
Proof.
  unfold getGroupMessages. apply ro_tryCatch.
  - tor_struct. exists "group_messages". split; [by left | reflexivity].
  - intros e. apply ro_error_handler. by right; left.
Qed.

(** X4. A group-list request is answered exactly once, with a [group_list]
    or an [error] message. *)
Theorem getWhatsAppGroups_answers_once u :
  repliesOnce u (hasEvent ["group_list"; "error"]) (getWhatsAppGroups u).
Proof.
  unfold getWhatsAppGroups. apply ro_tryCatch.
  - tor_struct. exists "group_list". split; [by left | reflexivity].
  - intros e. apply ro_error_handler. by right; left.
Qed.

Lemma readySession_dec w u : readySession w u \/ ~ readySession w u.
Proof.
  unfold readySession. destruct (clientOf w u) as [[addr c]|] eqn:Hc.
  - destruct (getState (c_backend c)) as [state|e] eqn:Hs.
    + destruct (String.eqb state "CONNECTED") eqn:Hst.
      * apply String.eqb_eq in Hst. subst. left. by exists addr, c.
      * right. intros (a & x & [= <- <-] & Hx). rewrite Hs in Hx.
        injection Hx as ->. discriminate Hst.
    + right. intros (a & x & [= <- <-] & Hx). congruence.
  - right. by intros (a & x & Hx & _).
Qed.

(** X5. A send request is answered exactly once, with a [message_sent] or
    an [error] message, when there is no ready session or when lines
    234-241 compute a recipient id; a failure of the backend's send
    primitive is caught and becomes the [error] answer. With a ready
    session and a recipient that is not a text but reads as ten or more
    digits (a JSON number, say), the conversion of line 238 throws outside
    the [try] block: the function throws, nothing is relayed or written and
    the send primitive is not called. *)
Theorem UserSendMessage_answers_once u recipient msg w :
  let w' := exec (UserSendMessage u recipient msg) w in
  ((exists id, sendPlan recipient msg = Ok id) \/ ~ readySession w u ->
   exists answer,
     outcome (UserSendMessage u recipient msg) w = Ret tt /\
     relays w' = relays w ++ [(u, answer)] /\
     hasEvent ["message_sent"; "error"] answer) /\
  (forall e, sendPlan recipient msg = Fails e -> readySession w u ->
     outcome (UserSendMessage u recipient msg) w = Throw e /\
     relays w' = relays w /\ wire w' = wire w /\
     List.filter isSendCall (calls w') = List.filter isSendCall (calls w)) /\
  (forall n digits m, isBarePhone digits = true ->
     sendPlan (FOther (JNum n) (Some digits)) (FText m) =
       Fails (TypeError "phoneNumber.startsWith is not a function")).
Proof.
  cbv zeta. split; [|split].
  - intros Hcase. destruct (readySession_dec w u) as [(addr & c & Hc & Hs)|Hnot].
    + destruct Hcase as [[id Hid]|Hnot]; [|destruct Hnot; by exists addr, c].
      pose proof (UserSendMessage_ready u addr c recipient msg w Hc Hs) as H.
      cbv zeta in H. rewrite Hid in H. destruct H as (Ho & _ & Hr).
      eexists. split; [exact Ho|]. split; [exact Hr|].
      destruct (sendMessage (c_backend c) id msg).
      * exists "message_sent". split; [by left | reflexivity].
      * exists "error". split; [by right; left | reflexivity].
    + destruct (UserSendMessage_unavailable u recipient msg w Hnot)
        as (w' & Hrun & Hrel & _).
      eexists. rewrite (outcome_eq _ _ _ _ Hrun), (exec_eq _ _ _ _ Hrun).
      split; [done|]. split; [exact Hrel|].
      exists "error". split; [by right; left | reflexivity].
  - intros e He (addr & c & Hc & Hs).
    pose proof (UserSendMessage_ready u addr c recipient msg w Hc Hs) as H.
    cbv zeta in H. rewrite He in H. destruct H as (Ho & Hcalls & Hr & Hw).
    split; [exact Ho|]. split; [exact Hr|]. split; [exact Hw|].
    rewrite Hcalls. apply filter_isSendCall_getState.
  - intros n digits m Hd. unfold sendPlan, recipientIdFor. simpl. by rewrite Hd.
Qed.

(** ** [getGroupMessages]: what is relayed *)




Lemma send_then_log_run u msg a b c w :
  outcome (sendMessageToClients u msg None ≫= fun _ => logDebug a b c) w = Ret tt /\
  relays (exec (sendMessageToClients u msg None ≫= fun _ => logDebug a b c) w) =
    relays w ++ [(u, msg)] /\
  calls (exec (sendMessageToClients u msg None ≫= fun _ => logDebug a b c) w) = calls w.
Proof.
  destruct (sendMessageToClients_run u msg w) as (ts & w' & _ & Hrun & Hrel & _).
  pose proof (calls_pres _ w (sendMessageToClients_calls u msg None)) as Hc.
  rewrite outcome_bind, exec_bind, (outcome_eq _ _ _ _ Hrun).
  rewrite (exec_eq _ _ _ _ Hrun) in *. split; [done|]. split; [exact Hrel | exact Hc].
Qed.










(** ** Requests without a ready session, and the other outcomes *)

Lemma error_handler_run u a b c text w :
  relays (exec (logError a b c ≫= fun _ =>
                  sendMessageToClients u (errorRelay u text) None) w) =
    relays w ++ [(u, errorRelay u text)] /\
  calls (exec (logError a b c ≫= fun _ =>
                 sendMessageToClients u (errorRelay u text) None) w) = calls w.
Proof.
  rewrite exec_logError_bind.
  destruct (sendMessageToClients_run u (errorRelay u text) (logged ERROR a b c w))
    as (ts & w' & _ & Hrun & Hrel & _).
  pose proof (calls_pres _ (logged ERROR a b c w)
                (sendMessageToClients_calls u (errorRelay u text) None)) as Hc.
  rewrite (exec_eq _ _ _ _ Hrun) in *. by split.
Qed.

(** X9. Without a ready session the two read requests end the same way: one
    [error] relay that names the user, and no backend call beyond the state
    query of [getConnectedClient]: neither the chat nor any batch is
    fetched. *)
Theorem read_requests_without_ready_session dateGetTime u gid st en w :
  ~ readySession w u ->
  let text := "WhatsApp client not connected for userId " +:+ u in
  let w1 := exec (getWhatsAppGroups u) w in
  let w2 := exec (getGroupMessages dateGetTime u gid st en) w in
  relays w1 = relays w ++ [(u, errorRelay u text)] /\
  relays w2 = relays w ++ [(u, errorRelay u text)] /\
  (calls w1 = calls w \/ calls w1 = calls w ++ [(u, CallGetState)]) /\
  (calls w2 = calls w \/ calls w2 = calls w ++ [(u, CallGetState)]).
Proof.
  intros Hnot. cbv zeta.
  assert (Hgroups :
    relays (exec (getWhatsAppGroups u) w) =
      relays w ++ [(u, errorRelay u ("WhatsApp client not connected for userId " +:+ u))] /\
    (calls (exec (getWhatsAppGroups u) w) = calls w \/
     calls (exec (getWhatsAppGroups u) w) = calls w ++ [(u, CallGetState)])).
  { unfold getWhatsAppGroups. rewrite exec_tryCatch.
    rewrite outcome_logDebug_bind, exec_logDebug_bind.
    match goal with |- context [exec (getConnectedClient u ≫= _) ?w0] =>
      destruct (getConnectedClient_absent w0 u Hnot)
        as (w' & Hget & _ & _ & Hrel & _ & _ & _ & _ & Hcalls)
    end.
    rewrite outcome_bind, exec_bind, (outcome_eq _ _ _ _ Hget), (exec_eq _ _ _ _ Hget).
    cbv beta iota.
    rewrite outcome_throw, exec_throw. cbv beta iota.
    match goal with |- context [exec (logError ?a ?b ?c ≫= _) ?w0] =>
      destruct (error_handler_run u a b c
                  ("WhatsApp client not connected for userId " +:+ u) w0) as [Hr Hc]
    end.
    change (messageOf (Error ("WhatsApp client not connected for userId " +:+ u)))
      with ("WhatsApp client not connected for userId " +:+ u) in *.
    rewrite Hr, Hc. split; [by rewrite Hrel|]. exact Hcalls. }
  assert (Hmsgs :
    relays (exec (getGroupMessages dateGetTime u gid st en) w) =
      relays w ++ [(u, errorRelay u ("WhatsApp client not connected for userId " +:+ u))] /\
    (calls (exec (getGroupMessages dateGetTime u gid st en) w) = calls w \/
     calls (exec (getGroupMessages dateGetTime u gid st en) w) =
       calls w ++ [(u, CallGetState)])).
  { unfold getGroupMessages. rewrite exec_tryCatch.
    rewrite outcome_logDebug_bind, exec_logDebug_bind.
    match goal with |- context [exec (getConnectedClient u ≫= _) ?w0] =>
      destruct (getConnectedClient_absent w0 u Hnot)
        as (w' & Hget & _ & _ & Hrel & _ & _ & _ & _ & Hcalls)
    end.
    rewrite outcome_bind, exec_bind, (outcome_eq _ _ _ _ Hget), (exec_eq _ _ _ _ Hget).
    cbv beta iota.
    rewrite outcome_throw, exec_throw. cbv beta iota.
    match goal with |- context [exec (logError ?a ?b ?c ≫= _) ?w0] =>
      destruct (error_handler_run u a b c
                  ("WhatsApp client not connected for userId " +:+ u) w0) as [Hr Hc]
    end.
    change (messageOf (Error ("WhatsApp client not connected for userId " +:+ u)))
      with ("WhatsApp client not connected for userId " +:+ u) in *.
    rewrite Hr, Hc. split; [by rewrite Hrel|]. exact Hcalls. }
  tauto.
Qed.

Lemma read_requests_without_ready_session_witness :
  ~ readySession (demoWorld "OPENING" []) "u1" /\
  relays (exec (getWhatsAppGroups "u1") (demoWorld "OPENING" [])) =
    [("u1", errorRelay "u1" "WhatsApp client not connected for userId u1")].
Proof.
  assert (H : ~ readySession (demoWorld "OPENING" []) "u1").
  { intros (addr & c & Hc & Hs). vm_compute in Hc. injection Hc as <- <-. discriminate Hs. }
  split; [exact H|].
  exact (proj1 (read_requests_without_ready_session parseIso "u1" None None None
                  (demoWorld "OPENING" []) H)).
Defined.

(** X10. With a ready session whose page is present, a group-list request
    waits for the chat pane, asks for the group chats once, and relays
    exactly the chats of server [g.us] that are not archived, in the order
    in which the backend lists them. If the wait fails, the failure is the
    [error] answer and the group chats are never asked for. *)
Theorem group_list_relays_listed_groups u addr c page w :
  clientOf w u = Some (addr, c) ->
  getState (c_backend c) = Ok "CONNECTED" ->
  pupPage (c_backend c) = Some page ->
  let w' := exec (getWhatsAppGroups u) w in
  (forall chats,
     waitForSelector page = Ok tt -> getGroupChats (c_backend c) = Ok chats ->
     relays w' = relays w ++
       [(u, JObj [("event", JStr "group_list"); ("userid", JStr u);
                  ("groups", JArr (map groupValue (List.filter isListedGroup chats)))])] /\
     calls w' = calls w ++
       [(u, CallGetState); (u, CallWaitForSelector); (u, CallGetGroupChats)]) /\
  (forall e,
     waitForSelector page = Fails e ->
     relays w' = relays w ++ [(u, errorRelay u (messageOf e))] /\
     calls w' = calls w ++ [(u, CallGetState); (u, CallWaitForSelector)]).
Proof.
  intros Hc Hs Hpage. cbv zeta.
  unfold getWhatsAppGroups. rewrite exec_tryCatch.
  rewrite outcome_logDebug_bind, exec_logDebug_bind.
  match goal with |- context [exec (getConnectedClient u ≫= _) ?w0] =>
    pose proof (getConnectedClient_ready w0 u addr c Hc Hs) as Hget
  end.
  rewrite outcome_bind, exec_bind, (outcome_eq _ _ _ _ Hget), (exec_eq _ _ _ _ Hget).
  cbv beta iota. rewrite Hpage.
  rewrite outcome_bind, exec_bind, outcome_backend, exec_backend.
  split.
  - intros chats Hwait Hchats. rewrite Hwait. cbv beta iota.
    rewrite outcome_logDebug_bind, exec_logDebug_bind.
    rewrite outcome_bind, exec_bind, outcome_backend, exec_backend, Hchats.
    cbv beta iota zeta.
    rewrite !outcome_logDebug_bind, !exec_logDebug_bind.
    match goal with |- context [outcome (sendMessageToClients u ?m None ≫= _) ?w3] =>
      destruct (send_then_log_run u m "waLogic" "getWhatsAppGroups"
                  [LStr "Groups fetched and sent for user "; LStr u] w3) as (Hout & Hr & Hcl)
    end.
    rewrite Hout, Hr, Hcl. split; [reflexivity|].
    destruct w. unfold withCalls. cbn. by rewrite <- !app_assoc.
  - intros e Hwait. rewrite Hwait. cbv beta iota.
    match goal with |- context [exec (logError ?a ?b ?c0 ≫= _) ?w0] =>
      destruct (error_handler_run u a b c0 (messageOf e) w0) as [Hr Hcl]
    end.
    rewrite Hr, Hcl. split; [reflexivity|].
    destruct w. unfold withCalls. cbn. by rewrite <- !app_assoc.
Qed.

Lemma group_list_relays_listed_groups_witness :
  relays (exec (getWhatsAppGroups "u1") (listingWorld sampleChats)) =
    [("u1", JObj [("event", JStr "group_list"); ("userid", JStr "u1");
                  ("groups", JArr [JObj [("id", JStr "1@g.us"); ("name", JStr "family");
                                         ("timestamp", JNum 1700000000)]])])].
Proof.
  exact (proj1 (proj1 (group_list_relays_listed_groups "u1" 0 (listingClient sampleChats)
                         {| waitForSelector := Ok tt; pageClose := Ok tt |}
                         (listingWorld sampleChats) eq_refl eq_refl eq_refl)
                  sampleChats eq_refl eq_refl)).
Defined.

(** X11. With a ready session a send request for which lines 234-241
    compute a recipient id calls the backend's send primitive once, with
    that id; when the primitive returns, the answer is [message_sent] with
    the id and the message, and when it fails the answer is an [error] with
    the failure's message. For a recipient and a message that are texts or
    absent the id is the canonical recipient. *)
Theorem send_with_ready_session u addr c recipient msg w :
  clientOf w u = Some (addr, c) ->
  getState (c_backend c) = Ok "CONNECTED" ->
  let w' := exec (UserSendMessage u recipient msg) w in
  (forall recipientId, sendPlan recipient msg = Ok recipientId ->
     calls w' = calls w ++ [(u, CallGetState); (u, CallSendMessage recipientId msg)] /\
     relays w' = relays w ++
       [(u, match sendMessage (c_backend c) recipientId msg with
            | Ok _ => JObj [("event", JStr "message_sent"); ("userid", JStr u);
                            ("recipientId", fieldValue recipientId);
                            ("message", fieldValue msg)]
            | Fails e => errorRelay u (messageOf e)
            end)]) /\
  (forall r m, recipient = ofText r -> msg = ofText m ->
     sendPlan recipient msg = Ok (ofText (recipientIdOpt r)) /\
     fieldValue (ofText (recipientIdOpt r)) = optStr (recipientIdOpt r) /\
     fieldValue msg = optStr m).
Proof.
  intros Hc Hs. cbv zeta. split.
  - intros id Hid. pose proof (UserSendMessage_ready u addr c recipient msg w Hc Hs) as H.
    cbv zeta in H. rewrite Hid in H. by destruct H as (_ & Hcalls & Hr).
  - intros r m -> ->. split; [apply sendPlan_ofText|].
    split; [by destruct (recipientIdOpt r) | by destruct m].
Qed.

Lemma send_with_ready_session_witness :
  relays (exec (UserSendMessage "u1" (FText "0501234567") (FText "hi"))
            (demoWorld "CONNECTED" [])) =
    [("u1", JObj [("event", JStr "message_sent"); ("userid", JStr "u1");
                  ("recipientId", JStr "972501234567@c.us"); ("message", JStr "hi")])].
Proof.
  exact (proj2 (proj1 (send_with_ready_session "u1" 0 (clientFor "u1" "CONNECTED" [])
                         (FText "0501234567") (FText "hi") (demoWorld "CONNECTED" [])
                         eq_refl eq_refl) (FText "972501234567@c.us") eq_refl)).
Defined.

(** ** [waWSserver.js]: the registry *)

Lemma subscription_set_eq m t e u : subscription (AList.set t e m) t u = userIds e !! u.
Proof. unfold subscription. by rewrite alookup_set_eq. Qed.

Lemma subscription_set_ne m t t' e u :
  t <> t' -> subscription (AList.set t e m) t' u = subscription m t' u.
Proof. intros Hne. unfold subscription. by rewrite alookup_set_ne. Qed.

Lemma sendToClient_subs u msg t0 w e :
  AList.lookup t0 (wsClientMap w) = Some e ->
  let w1 := exec (sendToClient u msg t0) w in
  wsClients w1 = wsClients w /\
  AList.keys (wsClientMap w1) = AList.keys (wsClientMap w) /\
  (isOpen w t0 = false -> subscription (wsClientMap w1) t0 u = None) /\
  (forall t u', u' <> u \/ t <> t0 \/ isOpen w t0 = true ->
     subscription (wsClientMap w1) t u' = subscription (wsClientMap w) t u').
Proof.
  intros He. cbv zeta. unfold sendToClient, deleteSubscription, exec, mbind, M_bind, get.
  simpl. destruct (isOpen w t0) eqn:Hopen; simpl.
  - split; [done|]. split; [done|]. split; [done|]. done.
  - rewrite He. simpl. split; [done|].
    split; [apply akeys_set_present; by rewrite He|].
    split.
    + intros _. rewrite subscription_set_eq. simpl. apply lookup_delete_eq.
    + intros t u' [Hu|[Ht|Ho]]; [| |done].
      * destruct (decide (t0 = t)) as [<-|Hne].
        -- rewrite subscription_set_eq. simpl. rewrite lookup_delete_ne by done.
           unfold subscription. by rewrite He.
        -- by rewrite subscription_set_ne.
      * by rewrite subscription_set_ne.
Qed.

Lemma isOpen_wsClients w w' t : wsClients w' = wsClients w -> isOpen w' t = isOpen w t.
Proof. unfold isOpen. by intros ->. Qed.

Lemma forEach_send_subs u msg ts : forall w,
  (forall t, In t ts -> is_Some (AList.lookup t (wsClientMap w))) ->
  let w' := exec (forEach ts (sendToClient u msg)) w in
  wsClients w' = wsClients w /\
  AList.keys (wsClientMap w') = AList.keys (wsClientMap w) /\
  (forall t, In t ts -> isOpen w t = false -> subscription (wsClientMap w') t u = None) /\
  (forall t u', u' <> u \/ ~ In t ts \/ isOpen w t = true ->
     subscription (wsClientMap w') t u' = subscription (wsClientMap w) t u').
Proof.
  induction ts as [|t0 ts IH]; intros w Hts; cbv zeta.
  - split; [done|]. split; [done|]. split; [by intros ? []|]. done.
  - destruct (Hts t0 (or_introl eq_refl)) as [e He].
    destruct (sendToClient_subs u msg t0 w e He) as (Hws1 & Hreg1 & Hdel1 & Hkeep1).
    destruct (sendToClient_run u msg t0 w e He) as (w1 & Hrun & _).
    rewrite (exec_eq _ _ _ _ Hrun) in Hws1, Hreg1, Hdel1, Hkeep1.
    destruct (IH w1) as (Hws2 & Hreg2 & Hdel2 & Hkeep2).
    { intros t Hin. apply alookup_in_keys. rewrite Hreg1. apply alookup_in_keys, Hts.
      by right. }
    cbn [forEach]. rewrite exec_bind, (outcome_eq _ _ _ _ Hrun), (exec_eq _ _ _ _ Hrun).
    set (w2 := exec (forEach ts (sendToClient u msg)) w1) in *.
    split; [by rewrite Hws2|].
    split; [by rewrite Hreg2|].
    split.
    + intros t Hin Hclosed. destruct (in_dec string_dec t ts) as [Hin'|Hnin].
      * apply Hdel2; [done|]. by rewrite (isOpen_wsClients _ _ _ Hws1).
      * destruct Hin as [<-|Hin]; [|done].
        rewrite Hkeep2 by (right; by left). by apply Hdel1.
    + intros t u' Hcond.
      rewrite Hkeep2, Hkeep1; [done| |].
      * destruct Hcond as [?|[Hnin|?]]; [by left| |].
        -- right. left. intros ->. apply Hnin. by left.
        -- destruct (decide (t = t0)) as [->|?]; [by right; right | by right; left].
      * destruct Hcond as [?|[Hnin|?]]; [by left| |].
        -- right. left. intros ?. apply Hnin. by right.
        -- right. right. by rewrite (isOpen_wsClients _ _ _ Hws1).
Qed.

(** X12. A relay to the subscribers of a user writes the text of the
    message ([JSON.stringify]) to every
    resolved connection whose socket is open, in order, and removes the
    subscription to that user of every resolved connection whose socket is
    not open. Nothing else changes in the registry: the connections stay,
    and every other subscription is what it was. *)
Theorem relay_delivers_and_cleans_up u msg w :
  exists ts,
    resolveTargets (protoFlags w) (wsClientMap w) u msg None = Ok ts /\
    let w' := exec (sendMessageToClients u msg None) w in
    outcome (sendMessageToClients u msg None) w = Ret tt /\
    wire w' = wire w ++ map (fun t => (t, stringified msg)) (List.filter (isOpen w) ts) /\
    wsClients w' = wsClients w /\
    AList.keys (wsClientMap w') = AList.keys (wsClientMap w) /\
    (forall t, In t ts -> isOpen w t = false -> subscription (wsClientMap w') t u = None) /\
    (forall t u', u' <> u \/ ~ In t ts \/ isOpen w t = true ->
       subscription (wsClientMap w') t u' = subscription (wsClientMap w) t u').
Proof.
  destruct (resolveTargets_subscribed (protoFlags w) (wsClientMap w) u msg)
    as (ts & Hres & _ & Hsub).
  exists ts. split; [exact Hres|]. cbv zeta.
  destruct (sendMessageToClients_run u msg w) as (ts' & w' & Hres' & Hrun & _ & Hwire).
  rewrite Hres in Hres'. injection Hres' as <-.
  rewrite (outcome_eq _ _ _ _ Hrun). split; [done|].
  rewrite (exec_eq _ _ _ _ Hrun). split; [exact Hwire|].
  set (w0 := withRelays (fun l => l ++ [(u, msg)])
               (logged INFO "waWSserver" "sendMessageToClients"
                  [LStr "Sending message to "; LStr u; LStr ", message type: ";
                   LJson (field "event" msg)] w)).
  destruct (forEach_send_subs u msg ts w0) as (Hws & Hkeys & Hdel & Hkeep).
  { intros x Hx. apply Hsub, Hx. }
  assert (Hw' : wsClients w' = wsClients (exec (forEach ts (sendToClient u msg)) w0) /\
                wsClientMap w' = wsClientMap (exec (forEach ts (sendToClient u msg)) w0)).
  { apply (f_equal snd) in Hrun. cbn [snd] in Hrun. rewrite <- Hrun. clear Hrun.
    unfold sendMessageToClients, logInfo, logAt, fanOut.
    cbv beta iota delta [mbind M_bind modify get await].
    fold (logged INFO "waWSserver" "sendMessageToClients"
            [LStr "Sending message to "; LStr u; LStr ", message type: ";
             LJson (field "event" msg)] w).
    fold w0. change (wsClientMap w0) with (wsClientMap w).
    change (protoFlags w0) with (protoFlags w). rewrite Hres.
    cbv beta iota delta [mret M_ret].
    destruct (isMessageEvent msg); destruct ts as [|t ts']; done. }
  destruct Hw' as [-> ->]. done.
Qed.

Lemma alookup_remove_eq {V} (m : list (string * V)) k : AList.lookup k (AList.remove k m) = None.
Proof.
  induction m as [|[k' v'] m IH]; [done|]. cbn [AList.remove].
  destruct (decide (k = k')) as [->|Hne]; [done|]. cbn [AList.lookup].
  by rewrite decide_False.
Qed.

Lemma alookup_remove_ne {V} (m : list (string * V)) k k' :
  k <> k' -> AList.lookup k' (AList.remove k m) = AList.lookup k' m.
Proof.
  intros Hne. induction m as [|[k0 v0] m IH]; [done|]. cbn [AList.remove AList.lookup].
  destruct (decide (k = k0)) as [->|Hk].
  - by rewrite decide_False.
  - cbn [AList.lookup]. by rewrite IH.
Qed.

(** X13. Closing a connection removes its registration together with all
    its subscriptions, so that no later relay resolves to it; the other
    connections and their subscriptions are untouched, nothing is written,
    and no session is terminated: sessions outlive the connections that
    asked for them. *)
Theorem close_forgets_connection wsid w :
  let w' := exec (handleClientDisconnection wsid) w in
  outcome (handleClientDisconnection wsid) w = Ret tt /\
  wsClients w' !! wsid = None /\
  (forall u, subscription (wsClientMap w') wsid u = None /\
             ~ In wsid (subscribers (protoFlags w') (wsClientMap w') u)) /\
  (forall t u, t <> wsid ->
     wsClients w' !! t = wsClients w !! t /\
     subscription (wsClientMap w') t u = subscription (wsClientMap w) t u) /\
  waClients w' = waClients w /\ heap w' = heap w /\ timers w' = timers w /\
  calls w' = calls w /\ wire w' = wire w /\ relays w' = relays w.
Proof.
  cbv zeta. set (w' := exec (handleClientDisconnection wsid) w).
  assert (Hmap : wsClientMap w' = AList.remove wsid (wsClientMap w)) by reflexivity.
  assert (Hws : wsClients w' = delete wsid (wsClients w)) by reflexivity.
  rewrite Hmap, Hws.
  split; [done|]. split; [apply lookup_delete_eq|]. split.
  - intros u.
    assert (Hsub : subscription (AList.remove wsid (wsClientMap w)) wsid u = None).
    { unfold subscription. by rewrite alookup_remove_eq. }
    split; [exact Hsub|]. intros Hin. apply in_subscribers_registered in Hin.
    rewrite alookup_remove_eq in Hin. by destruct Hin.
  - split; [|done]. intros t u Hne. split.
    + by apply lookup_delete_ne.
    + unfold subscription. by rewrite alookup_remove_ne.
Qed.

Section RouterRequests.
Context (dateGetTime : string -> jsnum) (spawn : string -> nat -> Backend).

Lemma routeMessage_toggle wsid data u (b : bool) e s w :
  r_user_id data = Some u -> u <> EmptyString ->
  r_event data = Some (if b then "get_messages" else "stop_messages") ->
  AList.lookup wsid (wsClientMap w) = Some e -> userIds e !! u = Some s ->
  exists w1,
    routeMessage dateGetTime spawn wsid (Parsed data) w = (Ret tt, w1) /\
    wsClientMap w1 =
      AList.set wsid {| userIds := <[u := {| sendMessages := b |}]> (userIds e) |}
        (wsClientMap w) /\
    wsClients w1 = wsClients w /\ waClients w1 = waClients w /\ heap w1 = heap w /\
    calls w1 = calls w /\ wire w1 = wire w /\ relays w1 = relays w.
Proof.
  intros Hu Hne Hev He Hs. unfold routeMessage, parseFrame, mbind, M_bind. simpl.
  rewrite Hu, Hev. simpl.
  assert (String.eqb u EmptyString = false) as -> by by apply String.eqb_neq.
  unfold setDelivery, mbind, M_bind, get.
  destruct b; simpl; rewrite He, Hs; simpl; eexists; (split; [reflexivity|]); done.
Qed.

Lemma mret_bind_apply {A B} (a : A) (f : A -> M B) w : (mret a ≫= f) w = f a w.
Proof. reflexivity. Qed.

Lemma routeMessage_disconnect wsid data u w :
  r_user_id data = Some u -> u <> EmptyString -> r_event data = Some "disconnect" ->
  routeMessage dateGetTime spawn wsid (Parsed data) w =
    (sendMessageToClients u (JObj [("event", JStr "disconnected"); ("userid", JStr u)])
       (Some [wsid]) ;;
     deleteSubscription wsid u ;;
     logInfo "waWSserver" "handleIncomingMessage"
       [LStr "Client "; LStr wsid; LStr " disconnected from userId "; LStr u]) w.
Proof.
  intros Hu Hne Hev. unfold routeMessage, parseFrame. rewrite mret_bind_apply.
  rewrite Hu, Hev. unfold truthyStr.
  assert (String.eqb u EmptyString = false) as -> by by apply String.eqb_neq.
  reflexivity.
Qed.

Lemma relay_to_one u msg wsid e w :
  AList.lookup wsid (wsClientMap w) = Some e -> isMessageEvent msg = false ->
  let w0 := withRelays (fun l => l ++ [(u, msg)])
              (logged INFO "waWSserver" "sendMessageToClients"
                 [LStr "Sending message to "; LStr u; LStr ", message type: ";
                  LJson (field "event" msg)] w) in
  sendMessageToClients u msg (Some [wsid]) w = (Ret tt, exec (sendToClient u msg wsid) w0).
Proof.
  intros He Hmsg w0.
  destruct (sendToClient_run u msg wsid w0 e He) as (w1 & Hrun & _).
  rewrite (exec_eq _ _ _ _ Hrun).
  unfold sendMessageToClients, logInfo, logAt, fanOut, resolveTargets.
  cbv beta iota delta [mbind M_bind modify get await].
  fold (logged INFO "waWSserver" "sendMessageToClients"
          [LStr "Sending message to "; LStr u; LStr ", message type: ";
           LJson (field "event" msg)] w).
  fold w0. rewrite Hmsg. cbv beta iota delta [mret M_ret forEach mbind M_bind].
  by rewrite Hrun.
Qed.

End RouterRequests.

(** X14. A [get_messages] or [stop_messages] frame for a subscribed pair
    sets the delivery flag of that pair and does nothing else: the other
    subscriptions, the sessions and the client objects are unchanged, no
    backend call is made, and nothing is written back to the connection. *)
Theorem delivery_toggle_sets_only_the_flag dateGetTime spawn wsid ws data u (b : bool) s w :
  r_user_id data = Some u -> u <> EmptyString ->
  r_event data = Some (if b then "get_messages" else "stop_messages") ->
  subscription (wsClientMap w) wsid u = Some s ->
  let w' := exec (handleIncomingMessage dateGetTime spawn wsid ws (Parsed data)) w in
  subscription (wsClientMap w') wsid u = Some {| sendMessages := b |} /\
  (forall t u', t <> wsid \/ u' <> u ->
     subscription (wsClientMap w') t u' = subscription (wsClientMap w) t u') /\
  AList.keys (wsClientMap w') = AList.keys (wsClientMap w) /\
  wsClients w' = wsClients w /\ waClients w' = waClients w /\ heap w' = heap w /\
  calls w' = calls w /\ wire w' = wire w /\ relays w' = relays w.
Proof.
  intros Hu Hne Hev Hsub. cbv zeta.
  assert (exists e, AList.lookup wsid (wsClientMap w) = Some e /\ userIds e !! u = Some s)
    as (e & He & Hs).
  { unfold subscription in Hsub. destruct (AList.lookup wsid (wsClientMap w)) as [e|]; [|done].
    by exists e. }
  destruct (routeMessage_toggle dateGetTime spawn wsid data u b e s w Hu Hne Hev He Hs)
    as (w1 & Hrun & Hmap & Hrest).
  unfold handleIncomingMessage. rewrite exec_tryCatch.
  rewrite (outcome_eq _ _ _ _ Hrun), (exec_eq _ _ _ _ Hrun), Hmap.
  split; [by rewrite subscription_set_eq; simpl; rewrite lookup_insert_eq|].
  split; [|split; [apply akeys_set_present; by rewrite He | exact Hrest]].
  intros t u' [Ht|Hu'].
  - by rewrite subscription_set_ne.
  - destruct (decide (wsid = t)) as [<-|Hwt]; [|by rewrite subscription_set_ne].
    rewrite subscription_set_eq. simpl. rewrite lookup_insert_ne by done.
    unfold subscription. by rewrite He.
Qed.

Lemma delivery_toggle_sets_only_the_flag_witness :
  subscription (wsClientMap (demoWorld "CONNECTED" [])) "ws1" "u1"
    = Some {| sendMessages := false |} /\
  subscription
    (wsClientMap (exec (handleIncomingMessage parseIso spawnDemo "ws1" {| readyState := OPEN |}
                          (Parsed (toggleFrame "u1" true))) (demoWorld "CONNECTED" [])))
    "ws1" "u1" = Some {| sendMessages := true |}.
Proof.
  split; [reflexivity|].
  exact (proj1 (delivery_toggle_sets_only_the_flag parseIso spawnDemo "ws1"
                  {| readyState := OPEN |}
                  (toggleFrame "u1" true) "u1" true {| sendMessages := false |}
                  (demoWorld "CONNECTED" []) eq_refl ltac:(discriminate) eq_refl eq_refl)).
Defined.

(** X15. A [disconnect] frame from a registered connection writes one
    [disconnected] message to that connection alone (if its socket is open,
    and whether or not it was subscribed), and removes its subscription to
    the named user. Every other subscription stays, and the session side is
    untouched: the user's session is not terminated and no backend call is
    made. *)
Theorem disconnect_request_unsubscribes dateGetTime spawn wsid ws data u w :
  r_user_id data = Some u -> u <> EmptyString -> r_event data = Some "disconnect" ->
  is_Some (AList.lookup wsid (wsClientMap w)) ->
  let gone := JObj [("event", JStr "disconnected"); ("userid", JStr u)] in
  let w' := exec (handleIncomingMessage dateGetTime spawn wsid ws (Parsed data)) w in
  outcome (handleIncomingMessage dateGetTime spawn wsid ws (Parsed data)) w = Ret tt /\
  wire w' = wire w ++ (if isOpen w wsid then [(wsid, gone)] else []) /\
  subscription (wsClientMap w') wsid u = None /\
  (forall t u', t <> wsid \/ u' <> u ->
     subscription (wsClientMap w') t u' = subscription (wsClientMap w) t u') /\
  sessionSide w' = sessionSide w.
Proof.
  intros Hu Hne Hev [e He]. cbv zeta.
  set (gone := JObj [("event", JStr "disconnected"); ("userid", JStr u)]).
  set (w0 := withRelays (fun l => l ++ [(u, gone)])
               (logged INFO "waWSserver" "sendMessageToClients"
                  [LStr "Sending message to "; LStr u; LStr ", message type: ";
                   LJson (field "event" gone)] w)).
  pose proof (relay_to_one u gone wsid e w He eq_refl) as Hone. cbv zeta in Hone. fold w0 in Hone.
  destruct (sendToClient_run u gone wsid w0 e He) as (w1 & Hrun & Hwire & _).
  destruct (sendToClient_subs u gone wsid w0 e He) as (Hws & Hkeys & _ & Hkeep).
  pose proof (sendToClient_session u gone wsid w0) as Hsess.
  rewrite (exec_eq _ _ _ _ Hrun) in Hone, Hws, Hkeys, Hkeep, Hsess.
  assert (exists e1, AList.lookup wsid (wsClientMap w1) = Some e1) as [e1 He1].
  { apply alookup_in_keys. rewrite Hkeys. apply alookup_in_keys. by exists e. }
  assert (Hroute : routeMessage dateGetTime spawn wsid (Parsed data) w =
            (Ret tt, logged INFO "waWSserver" "handleIncomingMessage"
                       [LStr "Client "; LStr wsid; LStr " disconnected from userId "; LStr u]
                       (withWsClientMap
                          (AList.set wsid {| userIds := delete u (userIds e1) |}) w1))).
  { rewrite (routeMessage_disconnect dateGetTime spawn wsid data u w Hu Hne Hev).
    fold gone. unfold mbind at 1, M_bind at 1. rewrite Hone.
    unfold deleteSubscription, mbind, M_bind, get. by rewrite He1. }
  unfold handleIncomingMessage. rewrite outcome_tryCatch, exec_tryCatch.
  rewrite (outcome_eq _ _ _ _ Hroute), (exec_eq _ _ _ _ Hroute).
  split; [done|]. split; [exact Hwire|]. split.
  - cbn [wsClientMap logged withLogs withWsClientMap].
    rewrite subscription_set_eq. apply lookup_delete_eq.
  - split; [|exact Hsess].
    intros t u' Hcond. cbn [wsClientMap logged withLogs withWsClientMap].
    transitivity (subscription (wsClientMap w1) t u').
    + destruct (decide (wsid = t)) as [<-|Hwt]; [|by rewrite subscription_set_ne].
      destruct Hcond as [?|Hu']; [done|].
      rewrite subscription_set_eq. cbn [userIds]. rewrite lookup_delete_ne by done.
      unfold subscription. by rewrite He1.
    + apply Hkeep. destruct Hcond as [?|?]; [right; by left | by left].
Qed.

Lemma disconnect_request_unsubscribes_witness :
  wire (exec (handleIncomingMessage parseIso spawnDemo "ws1" {| readyState := OPEN |}
                (Parsed (requestFor "disconnect" "u1"))) (demoWorld "CONNECTED" [])) =
    [("ws1", JObj [("event", JStr "disconnected"); ("userid", JStr "u1")])] /\
  subscription
    (wsClientMap (exec (handleIncomingMessage parseIso spawnDemo "ws1" {| readyState := OPEN |}
                          (Parsed (requestFor "disconnect" "u1"))) (demoWorld "CONNECTED" [])))
    "ws1" "u1" = None.
Proof.
  pose proof (disconnect_request_unsubscribes parseIso spawnDemo "ws1" {| readyState := OPEN |}
                (requestFor "disconnect" "u1") "u1" (demoWorld "CONNECTED" [])
                eq_refl ltac:(discriminate) eq_refl ltac:(by eexists)) as H.
  exact (conj (proj1 (proj2 H)) (proj1 (proj2 (proj2 H)))).
Defined.

(** ** [waIntegration.js]: the life cycle of a session *)









Lemma terminate_session_run u addr c w :
  clientOf w u = Some (addr, c) ->
  outcome (terminateWhatsAppClient u) w = Ret tt /\
  heap (exec (terminateWhatsAppClient u) w) = heap w /\
  timers (exec (terminateWhatsAppClient u) w) = timers w /\
  relays (exec (terminateWhatsAppClient u) w) = relays w /\
  In (u, CallDestroy) (calls (exec (terminateWhatsAppClient u) w)).
Proof.
  intros Hc. unfold terminateWhatsAppClient, exec, outcome.
  cbv beta iota delta [mbind M_bind get]. rewrite Hc.
  unfold tryCatch, backend. cbv beta iota zeta delta [mbind M_bind modify].
  destruct (destroy (c_backend c)) as [[]|e]; cbv beta iota delta [mret M_ret];
    [destruct (pupPage (c_backend c)) as [p|]; [destruct (pageClose p) as [[]|e]|]|];
    (split; [done|]; split; [done|]; split; [done|]; split; [done|];
     cbn; rewrite ?in_app_iff; cbn; tauto).
Qed.

(** X19. [restartWhatsAppClient] never throws. If the session record exists
    and the state is [LOGGED_OUT] or [UNPAIRED], the session is terminated,
    the subscribers are told that the session expired, and no reconnection
    is scheduled. In every other case (no record, another state, a failing
    state query) exactly one reconnection is scheduled, nothing is relayed
    and the record is left as it is. *)
Theorem restart_schedules_unless_logged_out u w :
  let w' := exec (restartWhatsAppClient u) w in
  let expired := JObj [("event", JStr "error"); ("userid", JStr u);
                       ("message", JStr "WhatsApp session expired. Please re-login.")] in
  let loggedOut :=
    match clientOf w u with
    | Some (_, c) =>
        match getState (c_backend c) with
        | Ok st => String.eqb st "LOGGED_OUT" || String.eqb st "UNPAIRED"
        | Fails _ => false
        end
    | None => false
    end in
  outcome (restartWhatsAppClient u) w = Ret tt /\
  heap w' = heap w /\
  if loggedOut then
    timers w' = timers w /\ relays w' = relays w ++ [(u, expired)] /\
    In (u, CallDestroy) (calls w')
  else
    timers w' = timers w ++ [u] /\ relays w' = relays w /\ waClients w' = waClients w.
Proof.
  cbv zeta. unfold restartWhatsAppClient.
  rewrite outcome_logDebug_bind, exec_logDebug_bind.
  rewrite outcome_bind, exec_bind.
  change (outcome get ?w0) with (Ret w0). cbv beta iota.
  change (exec get ?w0) with w0.
  change (clientOf (logged _ _ _ _ w) u) with (clientOf w u).
  destruct (clientOf w u) as [[addr c]|] eqn:Hc.
  - rewrite outcome_bind, exec_bind, outcome_tryCatch, exec_tryCatch.
    rewrite outcome_bind, exec_bind, outcome_backend, exec_backend.
    destruct (getState (c_backend c)) as [st|e]; cbv beta iota.
    + destruct (String.eqb st "LOGGED_OUT" || String.eqb st "UNPAIRED") eqn:Hst.
      * rewrite outcome_logError_bind, exec_logError_bind.
        rewrite outcome_bind, exec_bind.
        match goal with |- context [exec (terminateWhatsAppClient u) ?w0] =>
          destruct (terminate_session_run u addr c w0) as (Hto & Hth & Htt & Htr & Htc);
            [exact Hc|]
        end.
        rewrite Hto. cbv beta iota. rewrite outcome_bind, exec_bind.
        match goal with |- context [exec (sendMessageToClients u ?m None) ?w1] =>
          destruct (sendMessageToClients_run u m w1) as (ts & w2 & _ & Hrun & Hrel & _);
          pose proof (sendMessageToClients_session u m None w1) as Hsess
        end.
        unfold same in Hsess. rewrite (outcome_eq _ _ _ _ Hrun).
        rewrite (exec_eq _ _ _ _ Hrun) in *. cbv beta iota.
        rewrite !outcome_ret, !exec_ret. cbv beta iota. rewrite ?outcome_ret, ?exec_ret.
        unfold sessionSide in Hsess. injection Hsess as _ Hheap Hcalls Htimers _.
        split; [done|]. split; [by rewrite Hheap, Hth|].
        split; [by rewrite Htimers, Htt|]. split; [by rewrite Hrel, Htr|].
        by rewrite Hcalls.
      * split; [done|]. split; [done|]. by split.
    + rewrite outcome_logError_bind, exec_logError_bind.
      split; [done|]. split; [done|]. by split.
  - split; [done|]. split; [done|]. by split.
Qed.

(** X20. Over every sequence of connections, frames, closes, backend events
    and timers, relays and frames are only added, and each one carries one
    of eight event tags: [qr], [authenticated], [ready], [disconnected],
    [error], [group_list], [group_messages], [message_sent]. In particular
    no frame tagged [message] is ever written: the [message] listener of
    [setupClientListeners] fails before it relays, and the router answers
    [get_messages] itself, so that [enableReceivingMessages] is not
    reached. *)
Theorem run_sends_known_events_only dateGetTime spawn evs w :
  exists rl wl,
    relays (run dateGetTime spawn w evs) = relays w ++ rl /\
    wire (run dateGetTime spawn w evs) = wire w ++ wl /\
    (forall u msg, In (u, msg) rl ->
       hasEvent knownEvents msg /\ isMessageEvent msg = false) /\
    (forall wsid msg, In (wsid, msg) wl ->
       hasEvent knownEvents msg /\ isMessageEvent msg = false).
Proof.
  destruct (run_emits dateGetTime spawn evs w) as [(rl & Hr & Fr) (wl & Hw & Fw)].
  exists rl, wl. split; [exact Hr|]. split; [exact Hw|].
  rewrite List.Forall_forall in Fr, Fw. split.
  - intros u msg Hin. destruct (Fr _ Hin) as [HK _]. cbn in HK.
    split; [exact HK | by apply hasEvent_known_not_content].
  - intros wsid msg Hin. destruct (Fw _ Hin) as (m & Hm & [HK _]). cbn in Hm. subst msg.
    apply hasEvent_stringified in HK.
    split; [exact HK | by apply hasEvent_known_not_content].
Qed.

(** ** Which handlers can throw *)

Lemma returns_ret {A} (a : A) : returns (mret a).
Proof. intros w. by exists a. Qed.

Lemma returns_bind {A B} (m : M A) (f : A -> M B) :
  returns m -> (forall a, returns (f a)) -> returns (m ≫= f).
Proof.
  intros Hm Hf w. rewrite outcome_bind. destruct (Hm w) as [a ->]. apply Hf.
Qed.

Lemma returns_tryCatch {A} (m : M A) (h : exn -> M A) :
  (forall e, returns (h e)) -> returns (tryCatch m h).
Proof.
  intros Hh w. rewrite outcome_tryCatch. destruct (outcome m w) as [a|e]; [by exists a|].
  apply Hh.
Qed.

Lemma returns_modify f : returns (modify f).
Proof. intros w. by exists tt. Qed.

Lemma returns_get : returns get.
Proof. intros w. by exists w. Qed.

Lemma returns_detached {A} (m : M A) : returns (detached m).
Proof. intros w. by exists tt. Qed.

Lemma returns_relay u msg : returns (sendMessageToClients u msg None).
Proof.
  intros w. destruct (sendMessageToClients_run u msg w) as (ts & w' & _ & Hrun & _).
  exists tt. by rewrite (outcome_eq _ _ _ _ Hrun).
Qed.

Ltac ret_struct leaf :=
  repeat first
    [ leaf
    | lazymatch goal with
      | |- returns get => apply returns_get
      | |- returns (mret _) => apply returns_ret
      | |- returns (modify _) => apply returns_modify
      | |- returns (updateClient _ _) => apply returns_modify
      | |- returns (logInfo _ _ _) => apply returns_modify
      | |- returns (logDebug _ _ _) => apply returns_modify
      | |- returns (logError _ _ _) => apply returns_modify
      | |- returns (detached _) => apply returns_detached
      | |- returns (sendMessageToClients _ _ None) => apply returns_relay
      | |- returns (mbind _ _) => apply returns_bind; [| intros ?]
      | |- returns (tryCatch _ _) => apply returns_tryCatch; intros ?
      | |- returns (if ?b then _ else _) => destruct b eqn:?
      | |- returns (match ?x with _ => _ end) => destruct x eqn:?
      end
    | progress cbv beta iota zeta ].

Ltac no_leaf := idtac; fail.

Lemma returns_handleWhatsAppEvent u ev :
  In ev ["qr"; "authenticated"; "ready"; "disconnected"; "error"] ->
  forall data, returns (handleWhatsAppEvent u ev data).
Proof.
  intros Hin data. unfold handleWhatsAppEvent.
  apply returns_bind; [apply returns_modify | intros _].
  cbn in Hin. destruct Hin as [<-|[<-|[<-|[<-|[<-|[]]]]]]; apply returns_relay.
Qed.

Lemma returns_getConnectedClient u : returns (getConnectedClient u).
Proof. unfold getConnectedClient. ret_struct no_leaf. Qed.

Lemma returns_terminateWhatsAppClient u : returns (terminateWhatsAppClient u).
Proof. unfold terminateWhatsAppClient. ret_struct no_leaf. Qed.

Lemma returns_restartWhatsAppClient u : returns (restartWhatsAppClient u).
Proof. unfold restartWhatsAppClient. ret_struct no_leaf. Qed.

Lemma returns_initializeWhatsAppClient spawn u : returns (initializeWhatsAppClient spawn u).
Proof. unfold initializeWhatsAppClient, reuseExistingClient, createClient. ret_struct no_leaf. Qed.

Ltac leaf_returns :=
  idtac;
  lazymatch goal with
  | |- returns (handleWhatsAppEvent _ _ _) =>
      apply returns_handleWhatsAppEvent; cbn; tauto
  | |- returns (getConnectedClient _) => apply returns_getConnectedClient
  | |- returns (terminateWhatsAppClient _) => apply returns_terminateWhatsAppClient
  | |- returns (restartWhatsAppClient _) => apply returns_restartWhatsAppClient
  | |- returns (initializeWhatsAppClient _ _) => apply returns_initializeWhatsAppClient
  end.

Lemma returns_handleClientRequest dateGetTime spawn u req :
  r_event req <> Some "send_message" ->
  returns (handleClientRequest dateGetTime spawn u req).
Proof.
  intros Hne.
  unfold handleClientRequest, getWhatsAppGroups, getGroupMessages, enableReceivingMessages.
  ret_struct ltac:(idtac; lazymatch goal with
    | |- returns (UserSendMessage _ _ _) =>
        exfalso; apply Hne;
        match goal with H : String.eqb _ "send_message" = true |- _ =>
          apply String.eqb_eq in H; by subst end
    | _ => leaf_returns end).
Qed.

Lemma handleClientRequest_send dateGetTime spawn u req w :
  r_event req = Some "send_message" ->
  outcome (handleClientRequest dateGetTime spawn u req) w =
  outcome (UserSendMessage u (r_recipient req) (r_message req))
    (logged DEBUG "waLogic" "handleClientRequest"
       [LStr "Received request: "; LJson (requestValue req)] w).
Proof. intros Hev. unfold handleClientRequest. rewrite outcome_logDebug_bind. by rewrite Hev. Qed.

Lemma readySession_logged lv a b c w u : readySession (logged lv a b c w) u <-> readySession w u.
Proof. done. Qed.

Lemma returns_handleIncomingMessage dateGetTime spawn wsid ws message :
  returns (handleIncomingMessage dateGetTime spawn wsid ws message).
Proof. unfold handleIncomingMessage, dataInCatchScope. ret_struct no_leaf. Qed.

Lemma unit_outcome (m : M unit) w : (exists a, outcome m w = Ret a) -> outcome m w = Ret tt.
Proof. by intros [[] ->]. Qed.

(** X21. Of all handlers only the [message] listener can throw. Every frame
    (well formed or not), close, timer and other backend event is handled
    to a normal return. The request functions that the router starts
    without awaiting them return normally too, with one exception: a send
    request with a ready session whose recipient makes the conversion of
    line 238 throw ends in that [TypeError], that is, in a rejected promise
    that nothing handles. The [message] listener of a live client throws a
    [TypeError] on every inbound message. *)
Theorem only_the_message_listener_throws dateGetTime spawn :
  (forall ev w, ~ isContentEvent w ev -> outcome (handle dateGetTime spawn ev) w = Ret tt) /\
  (forall u req w,
     outcome (handleClientRequest dateGetTime spawn u req) w = Ret tt \/
     (r_event req = Some "send_message" /\ readySession w u /\
      exists e, sendPlan (r_recipient req) (r_message req) = Fails e /\
                outcome (handleClientRequest dateGetTime spawn u req) w = Throw e)) /\
  (forall u req w e,
     r_event req = Some "send_message" -> readySession w u ->
     sendPlan (r_recipient req) (r_message req) = Fails e ->
     outcome (handleClientRequest dateGetTime spawn u req) w = Throw e) /\
  (forall ev w, isContentEvent w ev ->
     exists text, outcome (handle dateGetTime spawn ev) w = Throw (TypeError text)).
Proof.
  split; [|split; [|split]].
  - intros ev w Hev. apply unit_outcome. revert w Hev.
    destruct ev as [wsid ws|wsid msg|wsid|wsid st|addr qr|addr|addr|addr msg|addr reason
                   |addr e|addr b|v]; intros w Hev; simpl handle.
    + revert w Hev. intros w _. revert w. change (returns
        (logInfo "waWSserver" "onConnection" [LStr "New WebSocket client connected"] ;;
         modify (withWsClients (insert wsid ws)) ;;
         modify (withWsClientMap (AList.set wsid {| userIds := ∅ |})))).
      ret_struct no_leaf.
    + clear Hev. revert w. match goal with |- forall w, exists a, outcome ?m w = Ret a =>
        change (returns m) end.
      ret_struct ltac:(idtac; lazymatch goal with
        | |- returns (handleIncomingMessage _ _ _ _ _) => apply returns_handleIncomingMessage
        end).
    + clear Hev. revert w. match goal with |- forall w, exists a, outcome ?m w = Ret a =>
        change (returns m) end.
      unfold handleClientDisconnection. ret_struct no_leaf.
    + clear Hev. revert w. match goal with |- forall w, exists a, outcome ?m w = Ret a =>
        change (returns m) end.
      ret_struct no_leaf.
    + clear Hev. revert w. match goal with |- forall w, exists a, outcome ?m w = Ret a =>
        change (returns m) end.
      unfold onQr. ret_struct leaf_returns.
    + clear Hev. revert w. match goal with |- forall w, exists a, outcome ?m w = Ret a =>
        change (returns m) end.
      unfold onAuthenticated. ret_struct leaf_returns.
    + clear Hev. revert w. match goal with |- forall w, exists a, outcome ?m w = Ret a =>
        change (returns m) end.
      unfold onReady. ret_struct leaf_returns.
    + cbn in Hev. unfold onMessage, outcome. cbv beta iota delta [mbind M_bind get].
      destruct (heap w !! addr) as [c|]; [|by exists tt]. destruct Hev. by exists c.
    + clear Hev. revert w. match goal with |- forall w, exists a, outcome ?m w = Ret a =>
        change (returns m) end.
      unfold onDisconnected. ret_struct leaf_returns.
    + clear Hev. revert w. match goal with |- forall w, exists a, outcome ?m w = Ret a =>
        change (returns m) end.
      unfold onError. ret_struct leaf_returns.
    + clear Hev. revert w. match goal with |- forall w, exists a, outcome ?m w = Ret a =>
        change (returns m) end.
      ret_struct no_leaf.
    + clear Hev. revert w. match goal with |- forall w, exists a, outcome ?m w = Ret a =>
        change (returns m) end.
      ret_struct leaf_returns.
  - intros u req w.
    destruct (decide (r_event req = Some "send_message")) as [Hev|Hne];
      [|left; by apply unit_outcome, returns_handleClientRequest].
    rewrite (handleClientRequest_send _ _ _ _ _ Hev).
    set (w0 := logged DEBUG "waLogic" "handleClientRequest"
                 [LStr "Received request: "; LJson (requestValue req)] w).
    destruct (readySession_dec w u) as [(addr & c & Hc & Hs)|Hnot].
    + pose proof (UserSendMessage_ready u addr c (r_recipient req) (r_message req) w0 Hc Hs)
        as H. cbv zeta in H.
      destruct (sendPlan (r_recipient req) (r_message req)) as [id|e].
      * left. by destruct H as (Ho & _).
      * right. split; [done|]. split; [by exists addr, c|]. exists e. by destruct H as (Ho & _).
    + left. destruct (UserSendMessage_unavailable u (r_recipient req) (r_message req) w0 Hnot)
        as (w' & Hrun & _).
      by rewrite (outcome_eq _ _ _ _ Hrun).
  - intros u req w e Hev (addr & c & Hc & Hs) He.
    rewrite (handleClientRequest_send _ _ _ _ _ Hev).
    match goal with |- outcome _ ?w0 = _ =>
      pose proof (UserSendMessage_ready u addr c (r_recipient req) (r_message req) w0 Hc Hs)
        as H end.
    cbv zeta in H. rewrite He in H. by destruct H as (Ho & _).
  - intros ev w Hev. destruct ev; try done. cbn in Hev. destruct Hev as [c Hc].
    simpl handle. unfold onMessage, outcome. cbv beta iota delta [mbind M_bind get].
    rewrite Hc. by eexists.
Qed.

Lemma only_the_message_listener_throws_witness :
  outcome (handle parseIso spawnDemo (WsMessage "ws1" Unparseable)) (demoWorld "CONNECTED" [])
    = Ret tt /\
  outcome (handleClientRequest parseIso spawnDemo "u1" numericSendFrame)
    (demoWorld "CONNECTED" [])
    = Throw (TypeError "phoneNumber.startsWith is not a function") /\
  exists text,
    outcome (handle parseIso spawnDemo (ClientMessage 0 replyMsg)) (demoWorld "CONNECTED" [])
      = Throw (TypeError text).
Proof.
  split; [|split].
  - apply (proj1 (only_the_message_listener_throws parseIso spawnDemo)). by intros [].
  - apply (proj1 (proj2 (proj2 (only_the_message_listener_throws parseIso spawnDemo))));
      [reflexivity | | reflexivity].
    exists 0, (clientFor "u1" "CONNECTED" []). by split.
  - apply (proj2 (proj2 (proj2 (only_the_message_listener_throws parseIso spawnDemo)))).
    by eexists.
Defined.

(** ** The two registries stay in step *)

#[global] Instance keysKept_frame : Frame keysKept.
Proof.
  split.
  - intros w. by split.
  - intros a b c [H1 K1] [H2 K2]. split; [|by rewrite K2].
    intros t. by rewrite H2.
Qed.

Lemma keysKept_registered t w w' :
  keysKept w w' -> is_Some (AList.lookup t (wsClientMap w)) ->
  is_Some (AList.lookup t (wsClientMap w')).
Proof. intros [_ Hk] H. apply alookup_in_keys. rewrite Hk. by apply alookup_in_keys. Qed.

#[global] Instance keysKeptFor_frame wsid : Frame (keysKeptFor wsid).
Proof.
  split.
  - intros w _. apply frame_refl.
  - intros a b c Hab Hbc Ha. eapply frame_trans; [by apply Hab|].
    apply Hbc. eapply keysKept_registered; [by apply Hab | done].
Qed.

Lemma keysKept_inSync w w' : keysKept w w' -> inSync w -> inSync w'.
Proof.
  intros [Hws Hk] Hin t. unfold inSync in Hin.
  rewrite Hws, Hin, <- !alookup_in_keys. by rewrite Hk.
Qed.

Lemma keysKept_modify (f : World -> World) :
  (forall w, wsClients (f w) = wsClients w /\ wsClientMap (f w) = wsClientMap w) ->
  Pres keysKept (modify f).
Proof.
  intros H. apply Pres_modify. intros w. destruct (H w) as [Hws Hm].
  split; [intros t; by rewrite Hws | by rewrite Hm].
Qed.

Lemma deleteSubscription_keys wsid u : Pres keysKept (deleteSubscription wsid u).
Proof.
  intros w. unfold deleteSubscription, exec. cbv beta iota delta [mbind M_bind get].
  destruct (AList.lookup wsid (wsClientMap w)) as [e|] eqn:He; [|apply frame_refl].
  split; [done|]. apply akeys_set_present. by rewrite He.
Qed.

Lemma setDelivery_keys wsid u b : Pres keysKept (setDelivery wsid u b).
Proof.
  intros w. unfold setDelivery, exec. cbv beta iota delta [mbind M_bind get].
  destruct (AList.lookup wsid (wsClientMap w)) as [e|] eqn:He; [|apply frame_refl].
  destruct (userIds e !! u).
  - split; [done|]. apply akeys_set_present. by rewrite He.
  - destruct (inherited u); [by split|].
    destruct (inheritedValue (protoFlags w) u); apply frame_refl.
Qed.

Ltac leaf_keys0 :=
  idtac;
  lazymatch goal with
  | |- Pres keysKept (deleteSubscription _ _) => apply deleteSubscription_keys
  | |- Pres keysKept (setDelivery _ _ _) => apply setDelivery_keys
  | |- Pres keysKept (modify _) => apply keysKept_modify; intros ?; split; reflexivity
  | |- Pres keysKept (updateClient _ _) => apply keysKept_modify; intros ?; split; reflexivity
  | |- Pres keysKept (logInfo _ _ _) => apply keysKept_modify; intros ?; split; reflexivity
  | |- Pres keysKept (logDebug _ _ _) => apply keysKept_modify; intros ?; split; reflexivity
  | |- Pres keysKept (logError _ _ _) => apply keysKept_modify; intros ?; split; reflexivity
  | |- Pres keysKept (backend _ _ _) => unfold backend
  | |- Pres keysKept (getConnectedClient _) => unfold getConnectedClient
  end.

Lemma sendMessageToClients_keys u msg sc : Pres keysKept (sendMessageToClients u msg sc).
Proof.
  unfold sendMessageToClients, fanOut.
  pres_struct ltac:(idtac; lazymatch goal with
    | |- Pres _ (sendToClient _ _ _) => unfold sendToClient
    | _ => leaf_keys0 end).
Qed.

Lemma handleWhatsAppEvent_keys u ev data : Pres keysKept (handleWhatsAppEvent u ev data).
Proof.
  unfold handleWhatsAppEvent.
  pres_struct ltac:(idtac; lazymatch goal with
    | |- Pres _ (sendMessageToClients _ _ _) => apply sendMessageToClients_keys
    | _ => leaf_keys0 end).
Qed.

Ltac leaf_keys :=
  idtac;
  lazymatch goal with
  | |- Pres keysKept (sendMessageToClients _ _ _) => apply sendMessageToClients_keys
  | |- Pres keysKept (handleWhatsAppEvent _ _ _) => apply handleWhatsAppEvent_keys
  | _ => leaf_keys0
  end.

Lemma terminateWhatsAppClient_keys u : Pres keysKept (terminateWhatsAppClient u).
Proof. unfold terminateWhatsAppClient. pres_struct leaf_keys. Qed.

Lemma restartWhatsAppClient_keys u : Pres keysKept (restartWhatsAppClient u).
Proof.
  unfold restartWhatsAppClient.
  pres_struct ltac:(idtac; lazymatch goal with
    | |- Pres _ (terminateWhatsAppClient _) => apply terminateWhatsAppClient_keys
    | _ => leaf_keys end).
Qed.

Lemma initializeWhatsAppClient_keys spawn u : Pres keysKept (initializeWhatsAppClient spawn u).
Proof.
  unfold initializeWhatsAppClient, reuseExistingClient, createClient.
  pres_struct leaf_keys.
Qed.

Lemma listeners_keys addr :
  (forall qr, Pres keysKept (onQr addr qr)) /\
  Pres keysKept (onAuthenticated addr) /\
  Pres keysKept (onReady addr) /\
  (forall msg, Pres keysKept (onMessage addr msg)) /\
  (forall reason, Pres keysKept (onDisconnected addr reason)) /\
  (forall e, Pres keysKept (onError addr e)).
Proof.
  split; [|split; [|split; [|split; [|split]]]]; intros;
    unfold onQr, onAuthenticated, onReady, onMessage, onDisconnected, onError;
    pres_struct ltac:(idtac; lazymatch goal with
      | |- Pres _ (terminateWhatsAppClient _) => apply terminateWhatsAppClient_keys
      | |- Pres _ (restartWhatsAppClient _) => apply restartWhatsAppClient_keys
      | _ => leaf_keys end).
Qed.

Lemma fetchLoop_keys u chat st limits : Pres keysKept (fetchLoop u chat st limits).
Proof.
  induction limits as [|limit rest IH]; cbn [fetchLoop].
  - apply Pres_ret. typeclasses eauto.
  - pres_struct ltac:(idtac; lazymatch goal with
      | |- Pres _ (fetchLoop _ _ _ _) => apply IH
      | _ => leaf_keys end).
Qed.

Lemma handleClientRequest_keys dateGetTime spawn u req :
  Pres keysKept (handleClientRequest dateGetTime spawn u req).
Proof.
  unfold handleClientRequest, getWhatsAppGroups, getGroupMessages, UserSendMessage,
    enableReceivingMessages.
  pres_struct ltac:(idtac; lazymatch goal with
    | |- Pres _ (initializeWhatsAppClient _ _) => apply initializeWhatsAppClient_keys
    | |- Pres _ (fetchLoop _ _ _ _) => apply fetchLoop_keys
    | _ => leaf_keys end).
Qed.

Lemma keysKept_For wsid {A} (m : M A) : Pres keysKept m -> Pres (keysKeptFor wsid) m.
Proof. intros H w _. apply H. Qed.

(** The ['initiate'] case creates no registry entry for a connection that is
    registered. *)
Lemma subscribe_keysFor wsid u :
  Pres (keysKeptFor wsid)
    (modify (fun w => withWsClientMap (subscribe (protoFlags w) wsid u) w)).
Proof.
  apply Pres_modify. intros w [e He]. split; [done|].
  cbn [wsClientMap withWsClientMap]. unfold subscribe. rewrite He. cbv zeta. rewrite He.
  destruct (userIds e !! u); [done|].
  destruct (inheritedTruthy (protoFlags w) u); [done|].
  apply akeys_set_present. by rewrite He.
Qed.

Lemma handleIncomingMessage_keysFor dateGetTime spawn wsid ws message :
  Pres (keysKeptFor wsid) (handleIncomingMessage dateGetTime spawn wsid ws message).
Proof.
  unfold handleIncomingMessage, dataInCatchScope, routeMessage, parseFrame.
  pres_struct ltac:(idtac; lazymatch goal with
    | |- Pres _ (modify _) => apply subscribe_keysFor
    | |- Pres _ (handleClientRequest _ _ _ _) =>
        apply keysKept_For, handleClientRequest_keys
    | |- Pres _ (setDelivery _ _ _) => apply keysKept_For, setDelivery_keys
    | |- Pres _ (deleteSubscription _ _) => apply keysKept_For, deleteSubscription_keys
    | |- Pres _ (sendMessageToClients _ _ _) =>
        apply keysKept_For, sendMessageToClients_keys
    | |- Pres _ (logInfo _ _ _) =>
        apply keysKept_For, keysKept_modify; intros ?; split; reflexivity
    | |- Pres _ (logError _ _ _) =>
        apply keysKept_For, keysKept_modify; intros ?; split; reflexivity
    end).
Qed.

Lemma step_inSync dateGetTime spawn ev w :
  inSync w ->
  match ev with WsMessage wsid _ => is_Some (wsClients w !! wsid) | _ => True end ->
  inSync (step dateGetTime spawn w ev).
Proof.
  intros Hin Hreg. unfold step.
  destruct ev as [wsid ws|wsid msg|wsid|wsid st|addr qr|addr|addr|addr msg|addr reason
                 |addr e|addr b|v]; simpl handle.
  - intros t.
    change (is_Some (<[wsid := ws]> (wsClients w) !! t) <->
            is_Some (AList.lookup t (AList.set wsid {| userIds := ∅ |} (wsClientMap w)))).
    destruct (decide (wsid = t)) as [<-|Hne].
    + rewrite lookup_insert_eq, alookup_set_eq. split; eauto.
    + rewrite lookup_insert_ne by done. rewrite alookup_set_ne by done. apply Hin.
  - eapply keysKept_inSync; [|exact Hin].
    apply (handleIncomingMessage_keysFor dateGetTime spawn wsid {| readyState := OPEN |}
             msg w).
    by apply Hin.
  - intros t.
    change (is_Some (delete wsid (wsClients w) !! t) <->
            is_Some (AList.lookup t (AList.remove wsid (wsClientMap w)))).
    destruct (decide (wsid = t)) as [<-|Hne].
    + rewrite lookup_delete_eq, alookup_remove_eq. split; by intros [? ?].
    + rewrite lookup_delete_ne by done. rewrite alookup_remove_ne by done. apply Hin.
  - intros t.
    change (is_Some (match wsClients w !! wsid with
                     | Some _ => <[wsid := {| readyState := st |}]> (wsClients w)
                     | None => wsClients w
                     end !! t) <-> is_Some (AList.lookup t (wsClientMap w))).
    rewrite <- (Hin t). destruct (wsClients w !! wsid) as [ws|] eqn:Hws; [|done].
    destruct (decide (wsid = t)) as [<-|Hne].
    + rewrite lookup_insert_eq, Hws. split; eauto.
    + by rewrite lookup_insert_ne.
  - eapply keysKept_inSync; [|exact Hin]. destruct (listeners_keys addr) as (H & _); apply H.
  - eapply keysKept_inSync; [|exact Hin]. destruct (listeners_keys addr) as (_ & H & _); apply H.
  - eapply keysKept_inSync; [|exact Hin].
    destruct (listeners_keys addr) as (_ & _ & H & _); apply H.
  - eapply keysKept_inSync; [|exact Hin].
    destruct (listeners_keys addr) as (_ & _ & _ & H & _); apply H.
  - eapply keysKept_inSync; [|exact Hin].
    destruct (listeners_keys addr) as (_ & _ & _ & _ & H & _); apply H.
  - eapply keysKept_inSync; [|exact Hin].
    destruct (listeners_keys addr) as (_ & _ & _ & _ & _ & H); apply H.
  - eapply keysKept_inSync; [|exact Hin].
    assert (Pres keysKept (updateClient addr (setBackend b))) as HP by leaf_keys0.
    apply HP.
  - eapply keysKept_inSync; [|exact Hin].
    assert (Pres keysKept (handle dateGetTime spawn (TimerFires v))) as HP; [|apply HP].
    simpl handle.
    pres_struct ltac:(idtac; lazymatch goal with
      | |- Pres _ (initializeWhatsAppClient _ _) => apply initializeWhatsAppClient_keys
      | _ => leaf_keys end).
Qed.

(** X22. The connection map and the subscription map hold the same
    connection ids as long as every frame arrives on a connection that is
    registered when it arrives: if the maps agree in a state, they agree
    after any such sequence of connections, frames, closes, backend events
    and timers. The proviso is needed. The ids of [generateWsId] can
    coincide; when two connections were given the same id and one of them
    closes, the other is no longer registered, and its next [initiate]
    frame creates a subscription-map entry that has no socket. *)
Theorem registry_stays_in_sync dateGetTime spawn :
  (forall evs w,
     inSync w -> framesOfRegistered dateGetTime spawn w evs ->
     inSync (run dateGetTime spawn w evs)) /\
  (let w := run parseIso spawnDemo emptyWorld collidingRun in
   inSync emptyWorld /\
   wsClients w !! "ws9" = None /\
   subscription (wsClientMap w) "ws9" "u9" = Some {| sendMessages := false |} /\
   ~ inSync w).
Proof.
  split.
  - induction evs as [|ev evs IH]; intros w Hin Hreg; [exact Hin|].
    destruct Hreg as [Hev Hrest].
    apply (IH (step dateGetTime spawn w ev)); [by apply step_inSync | exact Hrest].
  - cbv zeta. split; [intros t; split; by intros [? ?]|].
    split; [reflexivity|]. split; [reflexivity|].
    intros H. specialize (H "ws9"). destruct (proj2 H) as [x Hx]; [by eexists|].
    discriminate Hx.
Qed.

Lemma registry_stays_in_sync_witness :
  inSync emptyWorld /\
  framesOfRegistered parseIso spawnDemo emptyWorld sessionOfOneConnection /\
  inSync (run parseIso spawnDemo emptyWorld sessionOfOneConnection).
Proof.
  assert (H : inSync emptyWorld) by (intros t; split; by intros [? ?]).
  assert (H' : framesOfRegistered parseIso spawnDemo emptyWorld sessionOfOneConnection).
  { split; [done|]. split; [by eexists|]. by split. }
  split; [exact H|]. split; [exact H'|].
  exact (proj1 (registry_stays_in_sync parseIso spawnDemo) sessionOfOneConnection
           emptyWorld H H').
Defined.

(** ** Requests that nothing acts upon *)

(** X23. A well-formed frame whose event tag is none of the routed ones is
    dropped: it is logged as unhandled, and nothing is written back to the
    sender, nothing is relayed, and the registry and the session side are
    unchanged. *)
Theorem unknown_request_is_dropped dateGetTime spawn wsid ws data u ev w :
  r_user_id data = Some u -> u <> EmptyString ->
  r_event data = Some ev -> ev <> EmptyString -> ~ In ev routedEvents ->
  let w' := exec (handleIncomingMessage dateGetTime spawn wsid ws (Parsed data)) w in
  outcome (handleIncomingMessage dateGetTime spawn wsid ws (Parsed data)) w = Ret tt /\
  wire w' = wire w /\ relays w' = relays w /\ wsClientMap w' = wsClientMap w /\
  sessionSide w' = sessionSide w /\
  In {| lg_level := ERROR; lg_module := "waLogic"; lg_function := "handleClientRequest";
        lg_message := [LStr "Unhandled event: "; LStr ev] |} (logs w').
Proof.
  intros Hu Hne Hev Hne' Hnot. cbv zeta.
  assert (Hn : forall x, In x routedEvents -> String.eqb ev x = false).
  { intros x Hx. apply String.eqb_neq. intros ->. by apply Hnot. }
  assert (Hroute : routeMessage dateGetTime spawn wsid (Parsed data) w =
            (Ret tt,
             logged ERROR "waLogic" "handleClientRequest" [LStr "Unhandled event: "; LStr ev]
               (logged DEBUG "waLogic" "handleClientRequest"
                  [LStr "Received request: "; LJson (requestValue data)]
                  (logged INFO "waWSserver" "handleIncomingMessage"
                     [LStr "Received event '"; LStr ev; LStr "' from userId "; LStr u;
                      LStr " (wsid: "; LStr wsid; LStr ")"] w)))).
  { unfold routeMessage, parseFrame. rewrite mret_bind_apply. rewrite Hu, Hev.
    unfold truthyStr.
    assert (String.eqb u EmptyString = false) as -> by by apply String.eqb_neq.
    assert (String.eqb ev EmptyString = false) as -> by by apply String.eqb_neq.
    cbn [negb orb]. rewrite !Hn by (cbn; tauto).
    unfold mbind, M_bind, logInfo, logAt, modify, detached, exec, handleClientRequest.
    unfold mbind, M_bind, logDebug, logError, logAt, modify. rewrite Hev.
    rewrite !Hn by (cbn; tauto). reflexivity. }
  unfold handleIncomingMessage. rewrite outcome_tryCatch, exec_tryCatch.
  rewrite (outcome_eq _ _ _ _ Hroute), (exec_eq _ _ _ _ Hroute).
  split; [done|]. split; [done|]. split; [done|]. split; [done|]. split; [done|].
  cbn. rewrite !in_app_iff. cbn. tauto.
Qed.

Lemma unknown_request_is_dropped_witness :
  wire (exec (handleIncomingMessage parseIso spawnDemo "ws1" {| readyState := OPEN |}
                (Parsed (requestFor "logout" "u1"))) (demoWorld "CONNECTED" [])) = [].
Proof.
  refine (proj1 (proj2 (unknown_request_is_dropped parseIso spawnDemo "ws1"
            {| readyState := OPEN |} (requestFor "logout" "u1") "u1" "logout"
            (demoWorld "CONNECTED" []) eq_refl _ eq_refl _ _))); [done | done |].
  cbn. intros H. repeat destruct H as [H|H]; try discriminate H. exact H.
Defined.

(** ** The registry under the requests of the router *)

(** X24. Target resolution. A relay is a content message exactly when its
    event tag is [message]. The resolved connections are those that hold a
    subscription to the user, together with every registered connection
    when the user identity is a name with a truthy inherited value; for a
    content message they are restricted to those whose delivery flag (of
    the record, or else the inherited one) is on. For a user identity
    without an inherited value this is: exactly the connections holding a
    subscription, with the flag on in the case of a content message. When
    the restricted set is empty the relay returns normally, having only
    logged at level INFO: nothing is written to any connection. *)
Theorem resolveTargets_by_event_kind (w : World) (u : string) (message : jsval) :
  (forall kind rest,
     isMessageEvent (JObj (("event", JStr kind) :: rest)) = String.eqb kind "message") /\
  (exists targets,
     resolveTargets (protoFlags w) (wsClientMap w) u message None = Ok targets /\
     forall wsid, In wsid targets <->
       (is_Some (subscription (wsClientMap w) wsid u) \/
        (inheritedTruthy (protoFlags w) u = true /\
         is_Some (AList.lookup wsid (wsClientMap w)))) /\
       (isMessageEvent message = true ->
        deliveryOn (protoFlags w) (wsClientMap w) u wsid = true)) /\
  (inheritedValue (protoFlags w) u = None ->
   exists targets,
     resolveTargets (protoFlags w) (wsClientMap w) u message None = Ok targets /\
     forall wsid, In wsid targets <->
       exists s, subscription (wsClientMap w) wsid u = Some s /\
                 (isMessageEvent message = true -> sendMessages s = true)) /\
  (isMessageEvent message = true ->
   resolveTargets (protoFlags w) (wsClientMap w) u message None = Ok [] ->
   sendMessageToClients u message None w =
     (Ret tt,
      logged INFO "waWSserver" "sendMessageToClients"
        [LStr "No active clients found for userId "; LStr u; LStr " messges"]
        (withRelays (fun l => l ++ [(u, message)])
           (logged INFO "waWSserver" "sendMessageToClients"
              [LStr "Sending message to "; LStr u; LStr ", message type: ";
               LJson (field "event" message)] w)))).
Proof.
  split; [done|].
  destruct (resolveTargets_subscribed (protoFlags w) (wsClientMap w) u message)
    as (ts & Hres & Hts & _).
  assert (Hall : forall wsid, In wsid ts <->
            (is_Some (subscription (wsClientMap w) wsid u) \/
             (inheritedTruthy (protoFlags w) u = true /\
              is_Some (AList.lookup wsid (wsClientMap w)))) /\
            (isMessageEvent message = true ->
             deliveryOn (protoFlags w) (wsClientMap w) u wsid = true)).
  { intros wsid. rewrite Hts. destruct (isMessageEvent message).
    - rewrite filter_In, in_subscribers_spec. split; [by intros [? ?] | intros [? H]].
      split; [done | by apply H].
    - rewrite in_subscribers_spec. split; [by intros ? | by intros [? _]]. }
  split; [by exists ts|]. split.
  - intros Hval. exists ts. split; [exact Hres|]. intros wsid. rewrite Hall.
    rewrite (inheritedTruthy_value _ _ Hval). unfold deliveryOn.
    destruct (subscription (wsClientMap w) wsid u) as [s|] eqn:Hs.
    + split.
      * intros [_ H]. by exists s.
      * intros (s' & [= <-] & H). split; [left; by eexists | done].
    + split.
      * intros [[[? ?]|[? _]] _]; done.
      * by intros (s' & ? & _).
  - intros Hmsg Hempty. unfold sendMessageToClients, logInfo, logAt.
    cbv beta iota delta [mbind M_bind modify get await].
    change (wsClientMap (withRelays _ (withLogs _ w))) with (wsClientMap w).
    change (protoFlags (withRelays _ (withLogs _ w))) with (protoFlags w).
    rewrite Hempty. cbv beta iota delta [mret M_ret]. by rewrite Hmsg.
Qed.

Lemma resolveTargets_by_event_kind_witness :
  isMessageEvent (JObj [("event", JStr "ready"); ("userid", JStr "u1")]) = false /\
  resolveTargets ∅ (wsClientMap (demoWorld "CONNECTED" [])) "u1"
    (JObj [("event", JStr "ready"); ("userid", JStr "u1")]) None = Ok ["ws1"] /\
  isMessageEvent (JObj [("event", JStr "message"); ("userid", JStr "u1")]) = true /\
  resolveTargets ∅ (wsClientMap (demoWorld "CONNECTED" [])) "u1"
    (JObj [("event", JStr "message"); ("userid", JStr "u1")]) None = Ok [] /\
  wire (exec (sendMessageToClients "u1"
                (JObj [("event", JStr "message"); ("userid", JStr "u1")]) None)
          (demoWorld "CONNECTED" [])) = [].
Proof.
  split; [reflexivity|]. split; [reflexivity|]. split; [reflexivity|]. split; [reflexivity|].
  rewrite (exec_eq _ _ _ _
    (proj2 (proj2 (proj2 (resolveTargets_by_event_kind (demoWorld "CONNECTED" []) "u1"
       (JObj [("event", JStr "message"); ("userid", JStr "u1")])))) eq_refl eq_refl)).
  reflexivity.
Defined.

(** X25. A [get_messages] or [stop_messages] frame for a pair without a
    subscription record. The handler returns normally and the connection
    map, the subscription map, the frames and the relays are what they
    were. When the user identity has no inherited value, the assignment
    through the missing record is a [TypeError] inside the [try] block,
    which the [catch] block logs, and no flag changes. When it is a name
    that every object inherits and the connection is registered, nothing is
    thrown and the flag is set on the inherited value. When the inherited
    value is a truth value (the name [sendMessages], once a flag has been
    written through [__proto__]), nothing is thrown and no flag changes. *)
Theorem toggle_without_subscription dateGetTime spawn wsid ws data u (b : bool) w :
  r_user_id data = Some u -> u <> EmptyString ->
  r_event data = Some (if b then "get_messages" else "stop_messages") ->
  subscription (wsClientMap w) wsid u = None ->
  let w' := exec (handleIncomingMessage dateGetTime spawn wsid ws (Parsed data)) w in
  outcome (handleIncomingMessage dateGetTime spawn wsid ws (Parsed data)) w = Ret tt /\
  wsClients w' = wsClients w /\ wsClientMap w' = wsClientMap w /\
  wire w' = wire w /\ relays w' = relays w /\
  (inheritedValue (protoFlags w) u = None ->
     (exists msg, outcome (routeMessage dateGetTime spawn wsid (Parsed data)) w
                  = Throw (TypeError msg)) /\
     protoFlags w' = protoFlags w) /\
  (inherited u = true -> is_Some (AList.lookup wsid (wsClientMap w)) ->
     outcome (routeMessage dateGetTime spawn wsid (Parsed data)) w = Ret tt /\
     protoFlags w' = <[u := b]> (protoFlags w)) /\
  (inherited u = false -> is_Some (inheritedValue (protoFlags w) u) ->
   is_Some (AList.lookup wsid (wsClientMap w)) ->
     outcome (routeMessage dateGetTime spawn wsid (Parsed data)) w = Ret tt /\
     protoFlags w' = protoFlags w).
Proof.
  intros Hu Hne Hev Hsub. cbv zeta.
  assert (Hroute : exists o w1,
            routeMessage dateGetTime spawn wsid (Parsed data) w = (o, w1) /\
            wsClients w1 = wsClients w /\ wsClientMap w1 = wsClientMap w /\
            wire w1 = wire w /\ relays w1 = relays w /\
            (inheritedValue (protoFlags w) u = None ->
               (exists msg, o = Throw (TypeError msg)) /\ protoFlags w1 = protoFlags w) /\
            (inherited u = true -> is_Some (AList.lookup wsid (wsClientMap w)) ->
               o = Ret tt /\ protoFlags w1 = <[u := b]> (protoFlags w)) /\
            (inherited u = false -> is_Some (inheritedValue (protoFlags w) u) ->
             is_Some (AList.lookup wsid (wsClientMap w)) ->
               o = Ret tt /\ protoFlags w1 = protoFlags w)).
  { unfold routeMessage, parseFrame, mbind, M_bind. simpl.
    rewrite Hu, Hev. simpl.
    assert (String.eqb u EmptyString = false) as -> by by apply String.eqb_neq.
    unfold subscription in Hsub. unfold setDelivery, mbind, M_bind, get.
    destruct (AList.lookup wsid (wsClientMap w)) as [e|] eqn:He; simpl in Hsub.
    - destruct (inherited u) eqn:Hinh.
      + destruct b; simpl; rewrite ?He, ?Hsub, ?Hinh; simpl;
          eexists _, _; (split; [reflexivity|]); simpl;
          do 4 (split; [done|]);
          (split; [intros Hval; apply inheritedValue_inv in Hval; congruence|]);
          (split; [done | intros Hx; discriminate Hx]).
      + destruct (inheritedValue (protoFlags w) u) as [v|] eqn:Hval.
        * destruct b; simpl; rewrite ?He, ?Hsub, ?Hinh, ?Hval; simpl;
            eexists _, _; (split; [reflexivity|]); simpl;
            do 4 (split; [done|]); (split; [done|]);
            (split; [intros Hx; discriminate Hx | done]).
        * destruct b; simpl; rewrite ?He, ?Hsub, ?Hinh, ?Hval; simpl;
            eexists _, _; (split; [reflexivity|]); simpl;
            do 4 (split; [done|]);
            (split; [intros _; split; [by eexists | done]|]);
            (split; [intros Hx; discriminate Hx | by intros _ [? ?]]).
    - destruct b; simpl; rewrite ?He; simpl;
        eexists _, _; (split; [reflexivity|]); simpl;
        do 4 (split; [done|]);
        (split; [intros _; split; [by eexists | done]|]);
        (split; [by intros _ [? ?] | by intros _ _ [? ?]]). }
  destruct Hroute as (o & w1 & Hrun & Hws & Hmap & Hwire & Hrel & Hplain & Hinh & Hprim).
  rewrite (outcome_eq _ _ _ _ Hrun).
  unfold handleIncomingMessage, dataInCatchScope.
  rewrite outcome_tryCatch, exec_tryCatch, (outcome_eq _ _ _ _ Hrun), (exec_eq _ _ _ _ Hrun).
  destruct o as [[]|e]; simpl;
    (split; [done|]); (split; [done|]); (split; [done|]); (split; [done|]);
    (split; [done|]); (split; [|split]); intros;
    first [by apply Hplain | by apply Hinh | by apply Hprim].
Qed.

Lemma toggle_without_subscription_witness :
  subscription (wsClientMap (demoWorld "CONNECTED" [])) "ws1" "u2" = None /\
  wsClientMap (exec (handleIncomingMessage parseIso spawnDemo "ws1" {| readyState := OPEN |}
                       (Parsed (toggleFrame "u2" true))) (demoWorld "CONNECTED" []))
  = wsClientMap (demoWorld "CONNECTED" []).
Proof.
  split; [reflexivity|].
  refine (proj1 (proj2 (proj2
    (toggle_without_subscription parseIso spawnDemo "ws1" {| readyState := OPEN |}
       (toggleFrame "u2" true) "u2" true (demoWorld "CONNECTED" []) _ _ _ _))));
    [reflexivity | discriminate | reflexivity | reflexivity].
Defined.

(** *** The ['initiate'] request *)

Lemma openKept_modify (f : World -> World) :
  (forall w, wsClients (f w) = wsClients w /\ protoFlags (f w) = protoFlags w /\
             wsClientMap (f w) = wsClientMap w) ->
  Pres openKept (modify f).
Proof.
  intros H. apply Pres_modify. intros w. destruct (H w) as (Hws & Hf & Hm).
  split; [done|]. split; [done|]. intros t u _. by rewrite Hm.
Qed.

Lemma sendToClient_openKept u msg t : Pres openKept (sendToClient u msg t).
Proof.
  intros w. unfold sendToClient, deleteSubscription, exec, mbind, M_bind, get.
  simpl. destruct (isOpen w t) eqn:Hopen; simpl; [by split|].
  destruct (AList.lookup t (wsClientMap w)) as [e|] eqn:He; simpl; [|by split].
  split; [done|]. split; [done|]. intros t' u' Ho.
  destruct (decide (t = t')) as [<-|Hne]; [congruence|].
  cbn [wsClientMap withWsClientMap withLogs]. by rewrite subscription_set_ne.
Qed.

Ltac leaf_open :=
  idtac;
  lazymatch goal with
  | |- Pres openKept (sendToClient _ _ _) => apply sendToClient_openKept
  | |- Pres openKept (modify _) => apply openKept_modify; intros ?; by repeat split
  | |- Pres openKept (logInfo _ _ _) => apply openKept_modify; intros ?; by repeat split
  | |- Pres openKept (logDebug _ _ _) => apply openKept_modify; intros ?; by repeat split
  | |- Pres openKept (logError _ _ _) => apply openKept_modify; intros ?; by repeat split
  | |- Pres openKept (backend _ _ _) => unfold backend
  end.

Lemma sendMessageToClients_openKept u msg sc : Pres openKept (sendMessageToClients u msg sc).
Proof. unfold sendMessageToClients, fanOut. pres_struct leaf_open. Qed.

Lemma handleWhatsAppEvent_openKept u ev data : Pres openKept (handleWhatsAppEvent u ev data).
Proof.
  unfold handleWhatsAppEvent.
  pres_struct ltac:(idtac; lazymatch goal with
    | |- Pres _ (sendMessageToClients _ _ _) => apply sendMessageToClients_openKept
    | _ => leaf_open end).
Qed.

Lemma initializeWhatsAppClient_openKept spawn u :
  Pres openKept (initializeWhatsAppClient spawn u).
Proof.
  unfold initializeWhatsAppClient, reuseExistingClient, createClient.
  pres_struct ltac:(idtac; lazymatch goal with
    | |- Pres _ (handleWhatsAppEvent _ _ _) => apply handleWhatsAppEvent_openKept
    | _ => leaf_open end).
Qed.

Lemma subscribe_other flags m wsid u t v :
  (t, v) <> (wsid, u) ->
  subscription (subscribe flags wsid u m) t v = subscription m t v.
Proof.
  intros Hne. unfold subscribe.
  assert (Hm1 : forall m1 e, AList.lookup wsid m1 = Some e ->
            subscription
              (match userIds e !! u with
               | Some _ => m1
               | None =>
                   if inheritedTruthy flags u then m1
                   else AList.set wsid
                          {| userIds := <[u := {| sendMessages := false |}]> (userIds e) |} m1
               end) t v = subscription m1 t v).
  { intros m1 e He. destruct (userIds e !! u); [done|].
    destruct (inheritedTruthy flags u); [done|].
    destruct (decide (wsid = t)) as [<-|Hw]; [|by rewrite subscription_set_ne].
    rewrite subscription_set_eq. simpl. unfold subscription. rewrite He. simpl.
    apply lookup_insert_ne. congruence. }
  destruct (AList.lookup wsid m) as [e|] eqn:He; cbv zeta.
  - rewrite He. by apply Hm1.
  - rewrite alookup_set_eq. rewrite (Hm1 _ {| userIds := ∅ |}) by apply alookup_set_eq.
    destruct (decide (wsid = t)) as [<-|Hw]; [|by rewrite subscription_set_ne].
    rewrite subscription_set_eq. unfold subscription. by rewrite He.
Qed.

Lemma handleClientRequest_initiate_openKept dateGetTime spawn u :
  Pres openKept (handleClientRequest dateGetTime spawn u (requestOf "initiate")).
Proof.
  unfold handleClientRequest. cbn [r_event requestOf].
  change (String.eqb "initiate" "initiate") with true. cbv iota.
  pres_struct ltac:(idtac; lazymatch goal with
    | |- Pres _ (initializeWhatsAppClient _ _) => apply initializeWhatsAppClient_openKept
    | _ => leaf_open end).
Qed.

(** The router's ['initiate'] case, up to the request function that it
    starts. *)
Lemma handleIncomingMessage_initiate dateGetTime spawn wsid ws data u w :
  r_user_id data = Some u -> u <> EmptyString -> r_event data = Some "initiate" ->
  outcome (handleIncomingMessage dateGetTime spawn wsid ws (Parsed data)) w = Ret tt /\
  exec (handleIncomingMessage dateGetTime spawn wsid ws (Parsed data)) w =
    exec (handleClientRequest dateGetTime spawn u (requestOf "initiate"))
      (withWsClientMap (subscribe (protoFlags w) wsid u)
         (logged INFO "waWSserver" "handleIncomingMessage"
            [LStr "Client "; LStr wsid; LStr " mapped to userId "; LStr u] w)).
Proof.
  intros Hu Hne Hev.
  unfold handleIncomingMessage. rewrite outcome_tryCatch, exec_tryCatch.
  assert (Hroute : forall w0,
            routeMessage dateGetTime spawn wsid (Parsed data) w =
            (Ret tt, w0) ->
            outcome (routeMessage dateGetTime spawn wsid (Parsed data)) w = Ret tt /\
            exec (routeMessage dateGetTime spawn wsid (Parsed data)) w = w0).
  { intros w0 H. by rewrite (outcome_eq _ _ _ _ H), (exec_eq _ _ _ _ H). }
  match goal with |- _ /\ _ = ?w0 => destruct (Hroute w0) as [Ho He] end.
  { unfold routeMessage, parseFrame. rewrite mret_bind_apply. rewrite Hu, Hev.
    unfold truthyStr.
    assert (String.eqb u EmptyString = false) as -> by by apply String.eqb_neq.
    reflexivity. }
  by rewrite Ho, He.
Qed.

(** X26. An [initiate] frame on a connection whose socket is open, for a
    user identity without a truthy inherited value: the handler returns
    normally; if the pair has no subscription, one is created with the
    delivery flag off; if it has one, that one is kept, flag included; no
    other subscription of a connection whose socket is open changes. The
    same frame handled again changes no subscription of such a
    connection. (A relay made by the request may remove subscriptions of
    connections whose socket is not open.) *)
Theorem initiate_subscribes_once dateGetTime spawn wsid ws data u w :
  r_user_id data = Some u -> u <> EmptyString -> r_event data = Some "initiate" ->
  inheritedTruthy (protoFlags w) u = false ->
  isOpen w wsid = true ->
  let m := handleIncomingMessage dateGetTime spawn wsid ws (Parsed data) in
  let w1 := exec m w in
  let w2 := exec m w1 in
  outcome m w = Ret tt /\
  (subscription (wsClientMap w) wsid u = None ->
     subscription (wsClientMap w1) wsid u = Some {| sendMessages := false |}) /\
  (forall s, subscription (wsClientMap w) wsid u = Some s ->
     subscription (wsClientMap w1) wsid u = Some s) /\
  (forall t v, isOpen w t = true -> (t, v) <> (wsid, u) ->
     subscription (wsClientMap w1) t v = subscription (wsClientMap w) t v) /\
  (forall t v, isOpen w t = true ->
     subscription (wsClientMap w2) t v = subscription (wsClientMap w1) t v).
Proof.
  intros Hu Hne Hev Hplain Hopen. cbv zeta.
  assert (Hstep : forall w0,
            inheritedTruthy (protoFlags w0) u = false -> isOpen w0 wsid = true ->
            let w' := exec (handleIncomingMessage dateGetTime spawn wsid ws (Parsed data)) w0 in
            wsClients w' = wsClients w0 /\ protoFlags w' = protoFlags w0 /\
            (exists s, subscription (wsClientMap w') wsid u = Some s /\
               (subscription (wsClientMap w0) wsid u = None ->
                  s = {| sendMessages := false |}) /\
               (forall s', subscription (wsClientMap w0) wsid u = Some s' -> s = s')) /\
            (forall t v, isOpen w0 t = true -> (t, v) <> (wsid, u) ->
               subscription (wsClientMap w') t v = subscription (wsClientMap w0) t v)).
  { intros w0 Hp Ho. cbv zeta.
    destruct (handleIncomingMessage_initiate dateGetTime spawn wsid ws data u w0 Hu Hne Hev)
      as [_ ->].
    match goal with |- context [exec (handleClientRequest _ _ u _) ?w3] =>
      destruct (handleClientRequest_initiate_openKept dateGetTime spawn u w3)
        as (Hws & Hf & Hk)
    end.
    split; [exact Hws|]. split; [exact Hf|]. split.
    - destruct (subscription_subscribe (protoFlags w0) (wsClientMap w0) wsid u Hp)
        as (s & Hs & Hnew & Hold).
      exists s. split; [|by split]. rewrite Hk by exact Ho. exact Hs.
    - intros t v Ht Hne'. rewrite Hk by exact Ht.
      cbn [wsClientMap withWsClientMap logged withLogs]. by apply subscribe_other. }
  destruct (Hstep w Hplain Hopen) as (Hws & Hf & (s & Hs & Hnew & Hold) & Hother).
  split; [apply (handleIncomingMessage_initiate dateGetTime spawn wsid ws data u w Hu Hne Hev)|].
  split; [intros Hnone; by rewrite Hs, (Hnew Hnone)|].
  split; [intros s' Hs'; by rewrite Hs, (Hold s' Hs')|].
  split; [exact Hother|].
  set (w1 := exec (handleIncomingMessage dateGetTime spawn wsid ws (Parsed data)) w) in *.
  assert (Hopen1 : forall t, isOpen w1 t = isOpen w t).
  { intros t. unfold isOpen. by rewrite Hws. }
  destruct (Hstep w1) as (_ & _ & (s2 & Hs2 & _ & Hold2) & Hother2).
  { by rewrite Hf. }
  { by rewrite Hopen1. }
  intros t v Ht. destruct (decide ((t, v) = (wsid, u))) as [[= -> ->]|Hne'].
  - by rewrite Hs2, (Hold2 s Hs).
  - apply Hother2; [by rewrite Hopen1 | done].
Qed.

Lemma initiate_subscribes_once_witness :
  subscription (wsClientMap (demoWorld "CONNECTED" [])) "ws1" "u2" = None /\
  subscription
    (wsClientMap (exec (handleIncomingMessage parseIso spawnDemo "ws1" {| readyState := OPEN |}
                          (Parsed (requestFor "initiate" "u2"))) (demoWorld "CONNECTED" [])))
    "ws1" "u2" = Some {| sendMessages := false |}.
Proof.
  split; [reflexivity|].
  refine (proj1 (proj2
    (initiate_subscribes_once parseIso spawnDemo "ws1" {| readyState := OPEN |}
       (requestFor "initiate" "u2") "u2" (demoWorld "CONNECTED" []) _ _ _ _ _)) eq_refl);
    [reflexivity | discriminate | reflexivity | reflexivity | reflexivity].
Defined.
